(** * Cloud Master Manager: the provider-facing core of [aws.py] and [cli.py]

    A shallow embedding of the functions of
    [src/cloud_master_manager/aws.py] and of the commands of
    [src/cloud_master_manager/cli.py] that call them, written over

    - a small model of the Python values boto3 hands back (dictionaries,
      lists, strings, integers, [None]) with the dynamic checks Python makes
      on them ([.get] on a non-dictionary, [[0]] on an empty list, ...);
    - an exception type carrying the class and [str(e)];
    - a provider client given as an oracle [respond] over an arbitrary
      state, and a program monad that threads the provider's state and
      collects every request made to it and every message printed;
    - the functions of [src/cloud_master_manager/render.py], each the
      renderable it builds handed to rich's [console.print], which is an
      oracle [console] too: it prints, or raises (a [MarkupError] on a
      closing tag that closes nothing, say) and prints nothing.

    A string is held as the bytes of its UTF-8 encoding.  Building a
    client from the session ([ctx.session.client(...)]) is taken to
    succeed and makes no request.  A paginator is one request answered
    by all its pages.  [date.today()] is read once per command. *)

From Stdlib Require Import ZArith String Ascii List Lia Bool Sorted Permutation.
From stdpp Require Import base option list gmap strings pretty.
Set Warnings "-register-all".
Import ListNotations.

Open Scope string_scope.
Open Scope Z_scope.

(** ** Python values *)

Module Py.

(** What a boto3 response is made of.  Timestamps are kept as their text. *)
Inductive pyval : Type :=
| PNone
| PBool (b : bool)
| PInt (z : Z)
| PStr (s : string)
| PList (l : list pyval)
| PDict (d : list (string * pyval)).

Inductive exn_class : Type :=
| ClientError
| BotoCoreError
| KeyError
| IndexError
| TypeError
| AttributeError
| ValueError
| MarkupError.

(** An exception: its class and what [str(e)] gives. *)
Record exn : Type := Exn { exn_cls : exn_class; exn_str : string }.

Inductive result (A : Type) : Type :=
| Ok (a : A)
| Raise (e : exn).
Arguments Ok {A} a.
Arguments Raise {A} e.

Definition rbind {A B} (r : result A) (k : A -> result B) : result B :=
  match r with
  | Ok a => k a
  | Raise e => Raise e
  end.

Declare Scope py_scope.
Delimit Scope py_scope with py.
Notation "'let?' x ':=' r 'in' k" := (rbind r (fun x => k))
  (at level 10, x name, r at level 100, k at level 200) : py_scope.
Open Scope py_scope.

(** [needle in hay] on strings *)
Fixpoint contains (needle hay : string) : bool :=
  if String.prefix needle hay then true
  else match hay with
       | EmptyString => false
       | String _ rest => contains needle rest
       end.

(** [bool(v)] *)
Definition truthy (v : pyval) : bool :=
  match v with
  | PNone => false
  | PBool b => b
  | PInt z => negb (z =? 0)
  | PStr s => negb (String.eqb s EmptyString)
  | PList l => match l with [] => false | _ => true end
  | PDict d => match d with [] => false | _ => true end
  end.

(** [a or b] *)
Definition py_or (a b : pyval) : pyval := if truthy a then a else b.

Fixpoint assoc (k : string) (d : list (string * pyval)) : option pyval :=
  match d with
  | [] => None
  | (k', v) :: d' => if String.eqb k k' then Some v else assoc k d'
  end.

Definition type_name (v : pyval) : string :=
  match v with
  | PNone => "NoneType"
  | PBool _ => "bool"
  | PInt _ => "int"
  | PStr _ => "str"
  | PList _ => "list"
  | PDict _ => "dict"
  end.

Definition no_attribute (v : pyval) (a : string) : exn :=
  Exn AttributeError ("'" +:+ type_name v +:+ "' object has no attribute '" +:+ a +:+ "'").

(** [d.get(k, default)] *)
Definition get (d : pyval) (k : string) (default : pyval) : result pyval :=
  match d with
  | PDict kvs => Ok (match assoc k kvs with Some v => v | None => default end)
  | _ => Raise (no_attribute d "get")
  end.

(** [d.get(k)] *)
Definition get1 (d : pyval) (k : string) : result pyval := get d k PNone.

(** [d[k]] for a string [k] *)
Definition item (d : pyval) (k : string) : result pyval :=
  match d with
  | PDict kvs =>
      match assoc k kvs with
      | Some v => Ok v
      | None => Raise (Exn KeyError ("'" +:+ k +:+ "'"))
      end
  | PStr _ => Raise (Exn TypeError "string indices must be integers, not 'str'")
  | PList _ => Raise (Exn TypeError "list indices must be integers or slices, not str")
  | _ => Raise (Exn TypeError ("'" +:+ type_name d +:+ "' object is not subscriptable"))
  end.

(** [v[0]] *)
Definition item0 (v : pyval) : result pyval :=
  match v with
  | PList (x :: _) => Ok x
  | PList [] => Raise (Exn IndexError "list index out of range")
  | PStr (String c _) => Ok (PStr (String c EmptyString))
  | PStr EmptyString => Raise (Exn IndexError "string index out of range")
  | PDict _ => Raise (Exn KeyError "0")
  | _ => Raise (Exn TypeError ("'" +:+ type_name v +:+ "' object is not subscriptable"))
  end.

Fixpoint chars (s : string) : list pyval :=
  match s with
  | EmptyString => []
  | String c rest => PStr (String c EmptyString) :: chars rest
  end.

(** what [for x in v] runs over *)
Definition iter (v : pyval) : result (list pyval) :=
  match v with
  | PList l => Ok l
  | PDict kvs => Ok (map (fun kv => PStr (fst kv)) kvs)
  | PStr s => Ok (chars s)
  | _ => Raise (Exn TypeError ("'" +:+ type_name v +:+ "' object is not iterable"))
  end.

(** [v == s] for a string literal [s] *)
Definition eq_str (v : pyval) (s : string) : bool :=
  match v with
  | PStr s' => String.eqb s' s
  | _ => false
  end.

(** [hash(v)] succeeds: lists and dictionaries are unhashable *)
Definition hashable (v : pyval) : bool :=
  match v with
  | PList _ | PDict _ => false
  | _ => true
  end.

(** [v in {s1, ..., sn}] for a set of string literals *)
Definition in_str_set (v : pyval) (set : list string) : result bool :=
  if hashable v
  then Ok (existsb (eq_str v) set)
  else Raise (Exn TypeError ("unhashable type: '" +:+ type_name v +:+ "'")).

(** [l[:n]] *)
Definition slice_to {A} (n : Z) (l : list A) : list A :=
  if 0 <=? n then firstn (Z.to_nat n) l
  else firstn (length l - Z.to_nat (- n))%nat l.

(** [s.split(c)] for a one-character separator *)
Fixpoint split_on (sep : ascii) (s : string) : list string :=
  match s with
  | EmptyString => [EmptyString]
  | String c rest =>
      if Ascii.eqb c sep then EmptyString :: split_on sep rest
      else match split_on sep rest with
           | [] => [String c EmptyString]
           | w :: ws => String c w :: ws
           end
  end.

(** The white space [str.strip()] removes, a [str] being held as its
    UTF-8 bytes.  It is the characters [str.isspace] accepts: U+0009 to
    U+000D, U+001C to U+0020, U+0085, U+00A0, U+1680, U+2000 to U+200A,
    U+2028, U+2029, U+202F, U+205F and U+3000. *)

(** those of one byte: tab to carriage return, the four separators 28 to
    31, and the space *)
Definition is_space (c : ascii) : bool :=
  let n := nat_of_ascii c in
  ((9 <=? n) && (n <=? 13) || (28 <=? n) && (n <=? 32))%nat.

(** those of two bytes: U+0085 and U+00A0 *)
Definition is_space2 (c1 c2 : ascii) : bool :=
  let n1 := nat_of_ascii c1 in
  let n2 := nat_of_ascii c2 in
  ((n1 =? 194) && ((n2 =? 133) || (n2 =? 160)))%nat.

(** those of three bytes: U+1680; U+2000 to U+200A, U+2028, U+2029 and
    U+202F; U+205F; U+3000 *)
Definition is_space3 (c1 c2 c3 : ascii) : bool :=
  let n1 := nat_of_ascii c1 in
  let n2 := nat_of_ascii c2 in
  let n3 := nat_of_ascii c3 in
  ((n1 =? 225) && (n2 =? 154) && (n3 =? 128)
   || (n1 =? 226) && (n2 =? 128)
      && ((128 <=? n3) && (n3 <=? 138) || (n3 =? 168) || (n3 =? 169) || (n3 =? 175))
   || (n1 =? 226) && (n2 =? 129) && (n3 =? 159)
   || (n1 =? 227) && (n2 =? 128) && (n3 =? 128))%nat.

(** [s.lstrip()] *)
Fixpoint lstrip (s : string) : string :=
  match s with
  | EmptyString => EmptyString
  | String c1 rest1 =>
      if is_space c1 then lstrip rest1
      else match rest1 with
           | EmptyString => s
           | String c2 rest2 =>
               if is_space2 c1 c2 then lstrip rest2
               else match rest2 with
                    | EmptyString => s
                    | String c3 rest3 =>
                        if is_space3 c1 c2 c3 then lstrip rest3 else s
                    end
           end
  end.

(** [s] is made of white space alone *)
Fixpoint all_space (s : string) : bool :=
  match s with
  | EmptyString => true
  | String c1 rest1 =>
      if is_space c1 then all_space rest1
      else match rest1 with
           | EmptyString => false
           | String c2 rest2 =>
               if is_space2 c1 c2 then all_space rest2
               else match rest2 with
                    | EmptyString => false
                    | String c3 rest3 =>
                        if is_space3 c1 c2 c3 then all_space rest3 else false
                    end
           end
  end.

(** [s.rstrip()]: [s] up to where only white space follows *)
Fixpoint rstrip (s : string) : string :=
  match s with
  | EmptyString => EmptyString
  | String c rest => if all_space s then EmptyString else String c (rstrip rest)
  end.

(** [s.strip()] *)
Definition strip (s : string) : string := rstrip (lstrip s).

(** [if s:] for a string *)
Definition nonempty_str (s : string) : bool := negb (String.eqb s EmptyString).

(** [sep.join(l)]; [i] is the position of the head of [l] in the whole list *)
Fixpoint join_from (i : nat) (sep : string) (l : list pyval) : result string :=
  match l with
  | [] => Ok EmptyString
  | v :: rest =>
      match v with
      | PStr s =>
          let? tail := join_from (S i) sep rest in
          Ok (match rest with [] => s | _ => s +:+ sep +:+ tail end)
      | _ => Raise (Exn TypeError ("sequence item " +:+ pretty i
                                   +:+ ": expected str instance, "
                                   +:+ type_name v +:+ " found"))
      end
  end.

Definition join (sep : string) (l : list pyval) : result string := join_from 0 sep l.

(** [if rows:] for a list *)
Definition nonempty {A} (l : list A) : bool :=
  match l with [] => false | _ => true end.

End Py.
Import Py.

(** ** The provider client and the program monad *)

(** One request to the provider through a boto3 client: a plain operation
    ([client.op(k=v, ...)]), a waiter ([client.get_waiter(w).wait(k=v, ...)])
    or a paginator run to its end
    ([client.get_paginator(op).paginate()], answered by the list of its
    pages).  The keyword arguments are a dictionary. *)
Inductive call : Type :=
| Api (service operation : string) (kwargs : gmap string pyval)
| Wait (service waiter : string) (kwargs : gmap string pyval)
| Paginate (service operation : string) (kwargs : gmap string pyval).

(** What [render.py] is asked to print: a call of [print_header],
    [print_table], [print_info], [print_warn] or [print_error] with its
    arguments. *)
Inductive output : Type :=
| Header (title color : string)
| Table (title : string) (columns : list (string * option string))
        (rows : list (list pyval)) (color : string)
| Info (msg : string)
| Warn (msg : string)
| Error (msg : string).

(** a cell of a table as [print_table] hands it on: the empty string for
    [None], [str(v)] for any other value *)
Inductive cell : Type :=
| Blank
| StrOf (v : pyval).

(** What [render.py] hands to [console.print] of rich: a string, which rich
    reads as console markup; the panel fitted around a styled text; a table
    with a title and its style, the columns with their justification, and
    the rows of cells. *)
Inductive renderable : Type :=
| Markup (text : string)
| Panel (text style : string)
| Grid (title title_style : string) (columns : list (string * string))
       (rows : list (list cell)).

(** [justify or "left"] *)
Definition justify_or_left (justify : option string) : string :=
  match justify with
  | Some j => if nonempty_str j then j else "left"
  | None => "left"
  end.

(** [str(cell) if cell is not None else] the empty string *)
Definition cell_of (v : pyval) : cell :=
  match v with
  | PNone => Blank
  | _ => StrOf v
  end.

(** the bodies of the five functions of [render.py], up to the call of
    [console.print]: what each hands over *)
Definition rendered (o : output) : renderable :=
  match o with
  | Header title highlight_color => Panel title ("bold " +:+ highlight_color)
  | Table title columns rows highlight_color =>
      Grid title ("bold " +:+ highlight_color)
           (map (fun column => (fst column, justify_or_left (snd column))) columns)
           (map (map cell_of) rows)
  | Info message => Markup ("[bold green]✓[/bold green] " +:+ message)
  | Warn message => Markup ("[bold yellow]![/bold yellow] " +:+ message)
  | Error message => Markup ("[bold red]✗[/bold red] " +:+ message)
  end.

(** What the program does that can be seen from outside: a request to the
    provider, or a call of [render.py] that rich has printed. *)
Inductive event : Type :=
| Request (c : call)
| Print (o : output).

(** the requests of a trace *)
Definition requests (t : list event) : list call :=
  omap (fun ev => match ev with Request c => Some c | Print _ => None end) t.

(** the messages of a trace *)
Definition printed (t : list event) : list output :=
  omap (fun ev => match ev with Print o => Some o | Request _ => None end) t.

(** [datetime.date] *)
Record date : Type := Date { year : nat; month : nat; day : nat }.

Definition digit (n : nat) : string :=
  String (ascii_of_nat (48 + n mod 10)) EmptyString.

(** [d.isoformat()], that is [%04d-%02d-%02d] *)
Definition isoformat (d : date) : string :=
  digit (year d / 1000) +:+ digit (year d / 100) +:+ digit (year d / 10) +:+ digit (year d)
  +:+ "-" +:+ digit (month d / 10) +:+ digit (month d)
  +:+ "-" +:+ digit (day d / 10) +:+ digit (day d).

(** [d.replace(day=1)] *)
Definition first_of_month (d : date) : date :=
  {| year := year d; month := month d; day := 1 |}.

(** The numbers [float(...)] produces, with the one comparison [list.sort]
    uses on them. *)
Record float_model : Type := FloatModel {
  float : Type;
  float_of_string : string -> option float;
  (** the text of the [ValueError] of [float(s)] for a string it does not
      read: "could not convert string to float: " and [repr(s)] *)
  float_refusal : string -> string;
  float_of_Z : Z -> float;
  float_lt : float -> float -> bool
}.

Section Code.

Context {St : Type}.
(** the provider: how it answers a call in a state, and the state after *)
Variable respond : call -> St -> St * result pyval.
(** [date.today()] *)
Variable today : date.
(** [console.print] of rich: the exception it raises for what it is handed,
    if it raises; it has printed nothing then *)
Variable console : renderable -> option exn.

(** What running a piece of the program from a provider state gives: the
    state the provider is left in, the requests made and the messages
    printed, in the order they happened, and the value returned or the
    exception raised. *)
Record run (A : Type) : Type := Run {
  final : St;
  trace : list event;
  value : result A
}.
Arguments Run {A} final trace value.
Arguments final {A} r.
Arguments trace {A} r.
Arguments value {A} r.

Definition M (A : Type) : Type := St -> run A.

Definition ret {A} (a : A) : M A := fun s => Run s [] (Ok a).

Definition raise {A} (e : exn) : M A := fun s => Run s [] (Raise e).

Definition lift {A} (r : result A) : M A := fun s => Run s [] r.

Definition bind {A B} (m : M A) (k : A -> M B) : M B :=
  fun s =>
    let r := m s in
    match value r with
    | Ok a => let r' := k a (final r) in
              Run (final r') (trace r ++ trace r') (value r')
    | Raise e => Run (final r) (trace r) (Raise e)
    end.

(** [try: body  except <the classes handles accepts> as e: handler e] *)
Definition try_except {A} (body : M A) (handles : exn -> bool) (handler : exn -> M A) : M A :=
  fun s =>
    let r := body s in
    match value r with
    | Ok a => r
    | Raise e =>
        if handles e
        then let r' := handler e (final r) in
             Run (final r') (trace r ++ trace r') (value r')
        else r
    end.

(** a request to the provider *)
Definition invoke (c : call) : M pyval :=
  fun s => let (s', r) := respond c s in Run s' [Request c] r.

(** a call of a function of [render.py] *)
Definition print (o : output) : M unit :=
  fun s =>
    match console (rendered o) with
    | None => Run s [Print o] (Ok tt)
    | Some e => Run s [] (Raise e)
    end.

Notation "'let!' x ':=' m 'in' k" := (bind m (fun x => k))
  (at level 10, x name, m at level 100, k at level 200).

(** [for x in l: results.append(body(x))] *)
Fixpoint for_append {A} (body : pyval -> M A) (l : list pyval) : M (list A) :=
  match l with
  | [] => ret []
  | x :: l' =>
      let! r := body x in
      let! rs := for_append body l' in
      ret (r :: rs)
  end.

(** the same loop when the body makes no request *)
Fixpoint rmap {A B} (f : A -> result B) (l : list A) : result (list B) :=
  match l with
  | [] => Ok []
  | x :: l' =>
      let? r := f x in
      let? rs := rmap f l' in
      Ok (r :: rs)
  end.

(** [except ClientError] *)
Definition is_ClientError (e : exn) : bool :=
  match exn_cls e with ClientError => true | _ => false end.

(** [except (ClientError, BotoCoreError)] *)
Definition is_ClientError_or_BotoCoreError (e : exn) : bool :=
  match exn_cls e with ClientError | BotoCoreError => true | _ => false end.

(** [except Exception] *)
Definition is_Exception (e : exn) : bool := true.

(** *** aws.py *)

(** [next((t["Value"] for t in tags if t.get("Key") == "Name"), default)]
    with the empty string for default *)
Fixpoint name_of_tags (tags : list pyval) : result pyval :=
  match tags with
  | [] => Ok (PStr EmptyString)
  | t :: rest =>
      let? k := get1 t "Key" in
      if eq_str k "Name" then item t "Value" else name_of_tags rest
  end.

Definition ec2_instance_record (inst : pyval) : result pyval :=
  let? tags := get inst "Tags" (PList []) in
  let? ts := iter tags in
  let? name_tag := name_of_tags ts in
  let? instance_id := get1 inst "InstanceId" in
  let? instance_type := get1 inst "InstanceType" in
  let? state := get inst "State" (PDict []) in
  let? state_name := get1 state "Name" in
  let? placement := get inst "Placement" (PDict []) in
  let? az := get1 placement "AvailabilityZone" in
  let? launch_time := get1 inst "LaunchTime" in
  Ok (PDict [("InstanceId", instance_id);
             ("InstanceType", instance_type);
             ("State", state_name);
             ("Name", name_tag);
             ("AZ", az);
             ("LaunchTime", launch_time)]).

Definition ec2_reservation_records (res : pyval) : result (list pyval) :=
  let? insts := get res "Instances" (PList []) in
  let? instances := iter insts in
  rmap ec2_instance_record instances.

(** [list_ec2_instances], aws.py lines 25-42 *)
Definition list_ec2_instances : M (list pyval) :=
  let! resp := invoke (Api "ec2" "describe_instances" ∅) in
  lift (let? reservations := get resp "Reservations" (PList []) in
        let? rs := iter reservations in
        let? per_reservation := rmap ec2_reservation_records rs in
        Ok (concat per_reservation)).

(** [s3.get_bucket_location(Bucket=name)] *)
Definition get_bucket_location (name : pyval) : call :=
  Api "s3" "get_bucket_location" {[ "Bucket" := name ]}.

(** the body of the loop of [list_s3_buckets] *)
Definition s3_bucket_record (b : pyval) : M pyval :=
  let! name := lift (get1 b "Name") in
  let! loc :=
    try_except
      (let! r := invoke (get_bucket_location name) in
       let! lc := lift (get1 r "LocationConstraint") in
       ret (py_or lc (PStr "us-east-1")))
      is_ClientError_or_BotoCoreError
      (fun _ => ret (PStr "unknown")) in
  let! created := lift (get1 b "CreationDate") in
  ret (PDict [("Name", name); ("CreationDate", created); ("Region", loc)]).

(** [list_s3_buckets], aws.py lines 45-56 *)
Definition list_s3_buckets : M (list pyval) :=
  let! resp := invoke (Api "s3" "list_buckets" ∅) in
  let! buckets := lift (get resp "Buckets" (PList [])) in
  let! bs := lift (iter buckets) in
  for_append s3_bucket_record bs.

Definition rds_instance_record (db : pyval) : result pyval :=
  let? identifier := get1 db "DBInstanceIdentifier" in
  let? class := get1 db "DBInstanceClass" in
  let? engine := get1 db "Engine" in
  let? status := get1 db "DBInstanceStatus" in
  let? multi_az := get1 db "MultiAZ" in
  Ok (PDict [("DBInstanceIdentifier", identifier);
             ("DBInstanceClass", class);
             ("Engine", engine);
             ("Status", status);
             ("MultiAZ", multi_az)]).

(** [list_rds_instances], aws.py lines 59-73 *)
Definition list_rds_instances : M (list pyval) :=
  let! resp := invoke (Api "rds" "describe_db_instances" ∅) in
  lift (let? dbs := get resp "DBInstances" (PList []) in
        let? ds := iter dbs in
        rmap rds_instance_record ds).

Definition lambda_function_record (fn : pyval) : result pyval :=
  let? name := get1 fn "FunctionName" in
  let? runtime := get1 fn "Runtime" in
  let? last_modified := get1 fn "LastModified" in
  Ok (PDict [("FunctionName", name);
             ("Runtime", runtime);
             ("LastModified", last_modified)]).

Definition lambda_page_records (page : pyval) : result (list pyval) :=
  let? fns := get page "Functions" (PList []) in
  let? fs := iter fns in
  rmap lambda_function_record fs.

(** [list_lambda_functions], aws.py lines 76-89 *)
Definition list_lambda_functions : M (list pyval) :=
  let! pages := invoke (Paginate "lambda" "list_functions" ∅) in
  lift (let? ps := iter pages in
        let? per_page := rmap lambda_page_records ps in
        Ok (concat per_page)).

(** [TimePeriod={"Start": start, "End": end}] *)
Definition time_period : pyval :=
  PDict [("Start", PStr (isoformat (first_of_month today)));
         ("End", PStr (isoformat today))].

(** the request of [get_month_cost] *)
Definition month_cost_query : call :=
  Api "ce" "get_cost_and_usage"
      (<["TimePeriod" := time_period]>
       (<["Granularity" := PStr "MONTHLY"]>
        (<["Metrics" := PList [PStr "UnblendedCost"]]> ∅))).

(** [get_month_cost], aws.py lines 92-106 *)
Definition get_month_cost : M (pyval * pyval) :=
  let! resp := invoke month_cost_query in
  let! results := lift (get resp "ResultsByTime" (PList [])) in
  if negb (truthy results) then ret (PStr "0.0", PStr "USD")
  else
    lift (let? first := item0 results in
          let? totals := get first "Total" (PDict []) in
          let? total := get totals "UnblendedCost" (PDict []) in
          let? amount := get total "Amount" (PStr "0.0") in
          let? unit := get total "Unit" (PStr "USD") in
          Ok (amount, unit)).

(** [float(v)] *)
Definition py_float (fm : float_model) (v : pyval) : result (float fm) :=
  match v with
  | PStr s =>
      match float_of_string fm s with
      | Some f => Ok f
      | None => Raise (Exn ValueError (float_refusal fm s))
      end
  | PInt z => Ok (float_of_Z fm z)
  | PBool b => Ok (float_of_Z fm (if b then 1 else 0))
  | _ => Raise (Exn TypeError
                  ("float() argument must be a string or a real number, not '"
                   +:+ type_name v +:+ "'"))
  end.

(** [list.sort(key=key)]: stable, and made of [<] comparisons of the keys
    alone.  An element goes in front of the first one whose key is not
    below its own, so that it stays ahead of the later elements it ties
    with. *)
Fixpoint insert_by {A K} (lt : K -> K -> bool) (key : A -> K) (x : A) (l : list A) : list A :=
  match l with
  | [] => [x]
  | y :: l' => if lt (key y) (key x) then y :: insert_by lt key x l' else x :: l
  end.

Definition sort_by {A K} (lt : K -> K -> bool) (key : A -> K) (l : list A) : list A :=
  foldr (insert_by lt key) [] l.

(** [list.sort(key=key, reverse=True)]: the list is reversed, sorted as
    above and reversed again, which is how ties keep their first order. *)
Definition sort_by_reverse {A K} (lt : K -> K -> bool) (key : A -> K) (l : list A) : list A :=
  rev (sort_by lt key (rev l)).

(** a row of [get_top_usage]: (service, amount, unit) *)
Definition usage_row (fm : float_model) : Type := pyval * float fm * pyval.

Definition usage_amount {fm : float_model} (row : usage_row fm) : float fm := snd (fst row).

(** the body of the loop of [get_top_usage] *)
Definition usage_group_row (fm : float_model) (g : pyval) : result (usage_row fm) :=
  let? keys := get g "Keys" (PList [PStr EmptyString]) in
  let? service := item0 keys in
  let? metrics := get g "Metrics" (PDict []) in
  let? quantity := get metrics "UsageQuantity" (PDict []) in
  let? amount :=
    match quantity with
    | PDict kvs =>
        match assoc "Amount" kvs with
        | Some v => py_float fm v
        | None => Ok (float_of_Z fm 0)     (* the default, 0.0 *)
        end
    | _ => Raise (no_attribute quantity "get")
    end in
  let? metrics' := get g "Metrics" (PDict []) in
  let? quantity' := get metrics' "UsageQuantity" (PDict []) in
  let? unit := get quantity' "Unit" (PStr EmptyString) in
  Ok (service, amount, unit).

(** the request of [get_top_usage] *)
Definition top_usage_query : call :=
  Api "ce" "get_cost_and_usage"
      (<["TimePeriod" := time_period]>
       (<["Granularity" := PStr "MONTHLY"]>
        (<["Metrics" := PList [PStr "UsageQuantity"]]>
         (<["GroupBy" := PList [PDict [("Type", PStr "DIMENSION");
                                       ("Key", PStr "SERVICE")]]]> ∅)))).

(** [get_top_usage], aws.py lines 109-128 *)
Definition get_top_usage (fm : float_model) (top_n : Z) : M (list (usage_row fm)) :=
  let! resp := invoke top_usage_query in
  lift (let? periods := get resp "ResultsByTime" (PList [PDict []]) in
        let? first := item0 periods in
        let? groups := get first "Groups" (PList []) in
        let? gs := iter groups in
        let? rows := rmap (usage_group_row fm) gs in
        Ok (slice_to top_n (sort_by_reverse (float_lt fm) usage_amount rows))).

(** [if s:] for an [Optional[str]] *)
Definition given_str (o : option string) : bool :=
  match o with
  | Some s => negb (String.eqb s EmptyString)
  | None => false
  end.

(** [if l:] for an [Optional[List[str]]] *)
Definition given_list (o : option (list string)) : bool :=
  match o with
  | Some (_ :: _) => true
  | _ => false
  end.

Definition str_of (o : option string) : pyval :=
  match o with Some s => PStr s | None => PNone end.

Definition strs_of (o : option (list string)) : pyval :=
  match o with Some l => PList (map PStr l) | None => PNone end.

(** the [params] dictionary [allocate_ec2_instance] builds *)
Definition run_instances_params
    (ami_id instance_type : string) (key_name : option string)
    (security_group_ids : option (list string)) (subnet_id : option string)
    (count : Z) (name_tag : option string) : gmap string pyval :=
  let params : gmap string pyval :=
    <["MaxCount" := PInt count]>
      (<["MinCount" := PInt count]>
       (<["InstanceType" := PStr instance_type]>
        (<["ImageId" := PStr ami_id]> ∅))) in
  let params := if given_str key_name
                then <["KeyName" := str_of key_name]> params else params in
  let params := if given_list security_group_ids
                then <["SecurityGroupIds" := strs_of security_group_ids]> params else params in
  let params := if given_str subnet_id
                then <["SubnetId" := str_of subnet_id]> params else params in
  let params := if given_str name_tag
                then <["TagSpecifications" :=
                         PList [PDict [("ResourceType", PStr "instance");
                                       ("Tags", PList [PDict [("Key", PStr "Name");
                                                              ("Value", str_of name_tag)]])]]]>
                       params
                else params in
  params.

(** [allocate_ec2_instance], aws.py lines 131-163 *)
Definition allocate_ec2_instance
    (ami_id instance_type : string) (key_name : option string)
    (security_group_ids : option (list string)) (subnet_id : option string)
    (count : Z) (name_tag : option string) : M (list pyval) :=
  let params := run_instances_params ami_id instance_type key_name
                  security_group_ids subnet_id count name_tag in
  let! resp := invoke (Api "ec2" "run_instances" params) in
  lift (let? insts := get resp "Instances" (PList []) in
        let? instances := iter insts in
        rmap (fun i => item i "InstanceId") instances).

(** [ec2.terminate_instances(InstanceIds=instance_ids)] *)
Definition terminate_instances (instance_ids : list string) : call :=
  Api "ec2" "terminate_instances" {[ "InstanceIds" := PList (map PStr instance_ids) ]}.

(** [ec2.stop_instances(InstanceIds=instance_ids)] *)
Definition stop_instances (instance_ids : list string) : call :=
  Api "ec2" "stop_instances" {[ "InstanceIds" := PList (map PStr instance_ids) ]}.

(** [deallocate_ec2_instances], aws.py lines 166-175 *)
Definition deallocate_ec2_instances (instance_ids : list string) (terminate : bool)
  : M (list pyval) :=
  if terminate then
    let! resp := invoke (terminate_instances instance_ids) in
    lift (let? insts := get resp "TerminatingInstances" (PList []) in
          let? instances := iter insts in
          rmap (fun i => get1 i "InstanceId") instances)
  else
    let! resp := invoke (stop_instances instance_ids) in
    lift (let? insts := get resp "StoppingInstances" (PList []) in
          let? instances := iter insts in
          rmap (fun i => get1 i "InstanceId") instances).

(** [StackName=stack_name] *)
Definition stack_name_kwargs (stack_name : string) : gmap string pyval :=
  {[ "StackName" := PStr stack_name ]}.

(** the keyword arguments of [create_stack] and of [update_stack];
    [parameters] is the dictionary, as its items in insertion order *)
Definition stack_kwargs (stack_name template_body : string)
    (parameters : list (string * string)) (capabilities : list string)
  : gmap string pyval :=
  let param_list :=
    map (fun kv => PDict [("ParameterKey", PStr (fst kv));
                          ("ParameterValue", PStr (snd kv))]) parameters in
  <["Capabilities" := py_or (PList (map PStr capabilities)) (PList [])]>
    (<["Parameters" := PList param_list]>
     (<["TemplateBody" := PStr template_body]>
      (<["StackName" := PStr stack_name]> ∅))).

Definition describe_stacks (stack_name : string) : call :=
  Api "cloudformation" "describe_stacks" (stack_name_kwargs stack_name).

Definition create_stack (stack_name template_body : string)
    (parameters : list (string * string)) (capabilities : list string) : call :=
  Api "cloudformation" "create_stack"
      (stack_kwargs stack_name template_body parameters capabilities).

Definition update_stack (stack_name template_body : string)
    (parameters : list (string * string)) (capabilities : list string) : call :=
  Api "cloudformation" "update_stack"
      (stack_kwargs stack_name template_body parameters capabilities).

Definition wait_stack (waiter stack_name : string) : call :=
  Wait "cloudformation" waiter (stack_name_kwargs stack_name).

(** [desc["Stacks"][0]["StackId"]] *)
Definition first_stack_id (desc : pyval) : result pyval :=
  let? stacks := item desc "Stacks" in
  let? stack := item0 stacks in
  item stack "StackId".

(** [ensure_stack], aws.py lines 200-237 *)
Definition ensure_stack (stack_name template_body : string)
    (parameters : list (string * string)) (capabilities : list string) : M pyval :=
  (* Detect if stack exists *)
  let! action :=
    try_except
      (let! _ := invoke (describe_stacks stack_name) in
       ret "update")
      is_ClientError
      (fun e => if contains "does not exist" (exn_str e)
                then ret "create"
                else raise e) in
  if String.eqb action "create" then
    let! resp := invoke (create_stack stack_name template_body parameters capabilities) in
    let! _ := invoke (wait_stack "stack_create_complete" stack_name) in
    lift (item resp "StackId")
  else
    try_except
      (let! resp := invoke (update_stack stack_name template_body parameters capabilities) in
       let! _ := invoke (wait_stack "stack_update_complete" stack_name) in
       lift (item resp "StackId"))
      is_ClientError
      (fun e => if contains "No updates are to be performed" (exn_str e)
                then
                  (* Return the existing stack id *)
                  let! desc := invoke (describe_stacks stack_name) in
                  lift (first_stack_id desc)
                else raise e).

(** *** cli.py *)

(** [{"pending", "running", "stopping", "stopped"}] *)
Definition shown_states : list string := ["pending"; "running"; "stopping"; "stopped"].

(** the rows of the table of compute instances: a list comprehension with
    a condition *)
Fixpoint ec2_table_rows (ec2_instances : list pyval) : result (list (list pyval)) :=
  match ec2_instances with
  | [] => Ok []
  | i :: rest =>
      let? state := get1 i "State" in
      let? shown := in_str_set state shown_states in
      if shown then
        let? instance_id := get1 i "InstanceId" in
        let? name := get1 i "Name" in
        let? instance_type := get1 i "InstanceType" in
        let? state' := get1 i "State" in
        let? az := get1 i "AZ" in
        let? launch_time := get1 i "LaunchTime" in
        let? rows := ec2_table_rows rest in
        Ok ([instance_id; name; instance_type; state'; az; launch_time] :: rows)
      else ec2_table_rows rest
  end.

Definition s3_table_row (b : pyval) : result (list pyval) :=
  let? name := get1 b "Name" in
  let? region := get1 b "Region" in
  let? created := get1 b "CreationDate" in
  Ok [name; region; created].

Definition rds_table_row (d : pyval) : result (list pyval) :=
  let? identifier := get1 d "DBInstanceIdentifier" in
  let? engine := get1 d "Engine" in
  let? class := get1 d "DBInstanceClass" in
  let? status := get1 d "Status" in
  let? multi_az := get1 d "MultiAZ" in
  Ok [identifier; engine; class; status; multi_az].

Definition lambda_table_row (l : pyval) : result (list pyval) :=
  let? name := get1 l "FunctionName" in
  let? runtime := get1 l "Runtime" in
  let? last_modified := get1 l "LastModified" in
  Ok [name; runtime; last_modified].

Definition ec2_columns : list (string * option string) :=
  [("InstanceId", None); ("Name", None); ("Type", None);
   ("State", None); ("AZ", None); ("LaunchTime", None)].

Definition s3_columns : list (string * option string) :=
  [("Name", None); ("Region", None); ("Created", None)].

Definition rds_columns : list (string * option string) :=
  [("Identifier", None); ("Engine", None); ("Class", None);
   ("Status", None); ("MultiAZ", None)].

Definition lambda_columns : list (string * option string) :=
  [("Name", None); ("Runtime", None); ("LastModified", None)].

(** [deallocate_ec2], the command [deallocate ec2 --instance-ids ...
    --stop/--terminate], cli.py lines 236-248 *)
Definition deallocate_ec2 (instance_ids : string) (stop : bool) : M unit :=
  try_except
    (let ids := List.filter nonempty_str (map strip (split_on "," instance_ids)) in
     let! acted := deallocate_ec2_instances ids (negb stop) in
     let action := if stop then "stopped" else "terminated" in
     let! joined := lift (join ", " acted) in
     print (Info ("Instances " +:+ action +:+ ": " +:+ joined)))
    is_ClientError_or_BotoCoreError
    (fun e => print (Error (exn_str e))).

End Code.

Arguments M St A : clear implicits.
Arguments run St A : clear implicits.
Arguments Run {St A} final trace value.
Arguments final {St A} r.
Arguments trace {St A} r.
Arguments value {St A} r.

(** *** cli.py: [resources list] *)

Section Listing.

Context {St : Type}.
Variable respond : call -> St -> St * result pyval.
Variable console : renderable -> option exn.

Notation "'let!' x ':=' m 'in' k" := (bind m (fun x => k))
  (at level 10, x name, m at level 100, k at level 200).

(** A function with a local variable that its [try] statements assign: its
    statements run from the provider's state and the variable's value, and
    leave both behind, also when they raise. *)

(** a piece of the program that does not touch the variable *)
Definition outside {V A} (m : M St A) : M (St * V) A :=
  fun sv =>
    let r := m (fst sv) in
    Run (final r, snd sv) (trace r) (value r).

(** [variable = v] *)
Definition assign {V} (v : V) : M (St * V) unit :=
  fun sv => Run (fst sv, v) [] (Ok tt).

(** the variable, read *)
Definition read {V} : M (St * V) V :=
  fun sv => Run sv [] (Ok (snd sv)).

(** the function's body, the variable being [v] where it starts *)
Definition with_local {V A} (v : V) (body : M (St * V) A) : M St A :=
  fun s =>
    let r := body (s, v) in
    Run (fst (final r)) (trace r) (value r).

(** [list_resources], the command [resources list], cli.py lines 57-148;
    [color] is [ctx.obj["color"]], and the local variable is
    [any_resources] *)
Definition list_resources (color : string) : M St unit :=
  with_local false
    (let! _ := print console (Header "Active Resources" color) in
     let! _ := assign false in
     (* EC2 Instances *)
     let! _ :=
       try_except
         (let! ec2_instances := outside (list_ec2_instances respond) in
          let! rows := lift (ec2_table_rows ec2_instances) in
          if nonempty rows then
            let! _ := assign true in
            print console (Table "EC2 Instances" ec2_columns rows color)
          else ret tt)
         is_Exception
         (fun e => print console (Warn ("EC2: " +:+ exn_str e))) in
     (* S3 Buckets *)
     let! _ :=
       try_except
         (let! buckets := outside (list_s3_buckets respond) in
          let! rows := lift (rmap s3_table_row buckets) in
          if nonempty rows then
            let! _ := assign true in
            print console (Table "S3 Buckets" s3_columns rows color)
          else ret tt)
         is_Exception
         (fun e => print console (Warn ("S3: " +:+ exn_str e))) in
     (* RDS *)
     let! _ :=
       try_except
         (let! rds := outside (list_rds_instances respond) in
          let! rows := lift (rmap rds_table_row rds) in
          if nonempty rows then
            let! _ := assign true in
            print console (Table "RDS Instances" rds_columns rows color)
          else ret tt)
         is_Exception
         (fun e => print console (Warn ("RDS: " +:+ exn_str e))) in
     (* Lambda *)
     let! _ :=
       try_except
         (let! lams := outside (list_lambda_functions respond) in
          let! rows := lift (rmap lambda_table_row lams) in
          if nonempty rows then
            let! _ := assign true in
            print console (Table "Lambda Functions" lambda_columns rows color)
          else ret tt)
         is_Exception
         (fun e => print console (Warn ("Lambda: " +:+ exn_str e))) in
     let! any_resources := read in
     if negb any_resources then print console (Info "No resource is allocated") else ret tt).

End Listing.

(** ** Test doubles *)

(** A provider that answers from a script: the n-th request gets the n-th
    answer, whatever it asks. *)
Module Scripted.

Definition respond (c : call) (script : list (result pyval)) : list (result pyval) * result pyval :=
  match script with
  | [] => ([], Raise (Exn BotoCoreError "the script has run out"))
  | r :: rest => (rest, r)
  end.

End Scripted.

(** Decimal numbers for [float]: a numerator over a power of ten, compared
    as rationals.  Enough for amounts written as digits with an optional
    fraction. *)
Module Decimal.

Definition digit_of (c : ascii) : option Z :=
  let n := nat_of_ascii c in
  if ((48 <=? n) && (n <=? 57))%nat then Some (Z.of_nat n - 48) else None.

(** the digits of [s] read after [acc]; [None] on anything but a digit *)
Fixpoint digits (acc : Z) (s : string) : option Z :=
  match s with
  | EmptyString => Some acc
  | String c rest =>
      match digit_of c with
      | Some d => digits (10 * acc + d) rest
      | None => None
      end
  end.

Fixpoint pow10 (n : nat) : Z :=
  match n with
  | O => 1
  | S n' => 10 * pow10 n'
  end.

(** numerator and denominator *)
Definition t : Type := Z * Z.

Definition parse (s : string) : option t :=
  match split_on "." s with
  | [whole] =>
      if nonempty_str whole
      then match digits 0 whole with Some n => Some (n, 1) | None => None end
      else None
  | [whole; frac] =>
      if nonempty_str (whole +:+ frac)
      then match digits 0 whole, digits 0 frac with
           | Some n, Some f => Some (n * pow10 (String.length frac) + f, pow10 (String.length frac))
           | _, _ => None
           end
      else None
  | _ => None
  end.

Definition lt (a b : t) : bool := fst a * snd b <? fst b * snd a.

(** the text of the refusal, for a string that [repr] writes between
    apostrophes as it is: no apostrophe, no backslash, printable *)
Definition refusal (s : string) : string :=
  "could not convert string to float: '" +:+ s +:+ "'".

Definition model : float_model :=
  {| float := t;
     float_of_string := parse;
     float_refusal := refusal;
     float_of_Z := fun z => (z, 1);
     float_lt := lt |}.

End Decimal.

(** A stand-in for CloudFormation that remembers, for every stack, the
    arguments it was last deployed with: describing or updating a stack it
    does not hold fails with the provider's words, and so does an update
    that changes nothing.  Waiters return at once.  A stack's identifier is
    made from its name. *)
Module FakeCloudFormation.

Fixpoint pyval_eq_dec (a b : pyval) {struct a} : {a = b} + {a <> b}.
Proof.
  decide equality.
  - apply bool_dec.
  - apply Z.eq_dec.
  - apply string_dec.
  - apply (List.list_eq_dec pyval_eq_dec).
  - apply List.list_eq_dec. intros [k1 v1] [k2 v2].
    destruct (string_dec k1 k2) as [-> | Hk].
    + destruct (pyval_eq_dec v1 v2) as [-> | Hv].
      * left. reflexivity.
      * right. intros H. apply Hv. congruence.
    + right. intros H. apply Hk. congruence.
Defined.

#[export] Instance pyval_eq : EqDecision pyval := pyval_eq_dec.

Definition state : Type := gmap string (gmap string pyval).

Definition stack_id (name : string) : pyval :=
  PStr ("arn:aws:cloudformation:stack/" +:+ name).

Definition not_found (operation name : string) : exn :=
  Exn ClientError ("An error occurred (ValidationError) when calling the "
                   +:+ operation +:+ " operation: Stack with id " +:+ name
                   +:+ " does not exist").

Definition no_updates : exn :=
  Exn ClientError ("An error occurred (ValidationError) when calling the "
                   +:+ "UpdateStack operation: No updates are to be performed.").

Definition already_exists (name : string) : exn :=
  Exn ClientError ("An error occurred (AlreadyExistsException) when calling the "
                   +:+ "CreateStack operation: Stack [" +:+ name +:+ "] already exists").

Definition invalid : exn := Exn BotoCoreError "Parameter validation failed".

Definition cloudformation (operation : string) (kwargs : gmap string pyval) (s : state)
  : state * result pyval :=
  match kwargs !! "StackName" with
  | Some (PStr name) =>
      if String.eqb operation "describe_stacks" then
        match s !! name with
        | Some _ => (s, Ok (PDict [("Stacks", PList [PDict [("StackId", stack_id name)]])]))
        | None => (s, Raise (not_found "DescribeStacks" name))
        end
      else if String.eqb operation "create_stack" then
        match s !! name with
        | Some _ => (s, Raise (already_exists name))
        | None => (<[name := kwargs]> s, Ok (PDict [("StackId", stack_id name)]))
        end
      else if String.eqb operation "update_stack" then
        match s !! name with
        | Some deployed =>
            if decide (deployed = kwargs)
            then (s, Raise no_updates)
            else (<[name := kwargs]> s, Ok (PDict [("StackId", stack_id name)]))
        | None => (s, Raise (not_found "UpdateStack" name))
        end
      else (s, Raise invalid)
  | _ => (s, Raise invalid)
  end.

Definition respond (c : call) (s : state) : state * result pyval :=
  match c with
  | Api service operation kwargs =>
      if String.eqb service "cloudformation"
      then cloudformation operation kwargs s
      else (s, Raise invalid)
  | Wait _ _ _ => (s, Ok PNone)
  | Paginate _ _ _ => (s, Raise invalid)
  end.

(** the stack [name] is held under [id], deployed from these inputs *)
Definition deployed (name body : string) (params : list (string * string))
    (caps : list string) (id : pyval) (s : state) : Prop :=
  id = stack_id name /\ s !! name = Some (stack_kwargs name body params caps).

End FakeCloudFormation.

(** ** What the statements below are written with *)

(** [c] is the plain operation [operation], of whatever service *)
Definition is_operation (operation : string) (c : call) : bool :=
  match c with
  | Api _ o _ => String.eqb o operation
  | _ => false
  end.

(** no request of [t] is the operation [operation] *)
Definition never_requests (operation : string) (t : list event) : Prop :=
  Forall (fun c => is_operation operation c = false) (requests t).

(** the condition under which the probe of [ensure_stack] reads a failure
    as "the stack is absent" *)
Definition says_absent (e : exn) : bool :=
  is_ClientError e && contains "does not exist" (exn_str e).

(** the condition under which [ensure_stack] reads a failure of the update
    as "nothing to change" *)
Definition says_no_updates (e : exn) : bool :=
  is_ClientError e && contains "No updates are to be performed" (exn_str e).

(** ** Sample answers of the provider *)

Module ReconcilerExamples.

Definition absent : exn :=
  Exn ClientError ("An error occurred (ValidationError) when calling the "
                   +:+ "DescribeStacks operation: Stack with id web does not exist").

Definition denied : exn :=
  Exn ClientError ("An error occurred (AccessDenied) when calling the "
                   +:+ "DescribeStacks operation: not authorized").

Definition throttled : exn :=
  Exn ClientError ("An error occurred (Throttling) when calling the "
                   +:+ "UpdateStack operation: Rate exceeded").

Definition timed_out : exn :=
  Exn BotoCoreError "Waiter StackUpdateComplete failed: Max attempts exceeded".

Definition described : pyval :=
  PDict [("Stacks", PList [PDict [("StackId", PStr "arn:web/1")]])].

Definition accepted : pyval := PDict [("StackId", PStr "arn:web/1")].

Definition body : string := "Resources: {}".
Definition params : list (string * string) := [("Env", "prod")].
Definition caps : list string := ["CAPABILITY_IAM"].

(** the reconciler for the stack "web", against a scripted provider *)
Definition scripted (script : list (result pyval)) : run (list (result pyval)) pyval :=
  ensure_stack Scripted.respond "web" body params caps script.

(** and against the stand-in for CloudFormation *)
Definition faked (s : FakeCloudFormation.state) : run FakeCloudFormation.state pyval :=
  ensure_stack FakeCloudFormation.respond "web" body params caps s.

End ReconcilerExamples.

(** ** Sample answers for the billing reader and the lifecycle controller *)

Module BillingExamples.

Definition today : date := Date 2026 11 3.

(** an answer of the cost query with an empty list of periods *)
Definition no_periods : pyval := PDict [("ResultsByTime", PList [])].

(** an answer of the cost query without the key at all *)
Definition no_key : pyval := PDict [].

End BillingExamples.

Module LifecycleExamples.

(** the provider's answer to a request to terminate nothing, were it to
    accept one *)
Definition none_terminating : pyval := PDict [("TerminatingInstances", PList [])].

Definition launched : pyval :=
  PDict [("Instances", PList [PDict [("InstanceId", PStr "i-0abc")]])].

End LifecycleExamples.

(** a run that is turned down at once: it raises, and has asked the
    provider nothing *)
Definition rejected_before_provider {St A} (r : run St A) : Prop :=
  requests (trace r) = [] /\ exists e, value r = Raise e.

Module DeallocateExamples.

(** the provider's own refusal of an empty list *)
Definition refused : exn :=
  Exn ClientError ("An error occurred (MissingParameter) when calling the "
                   +:+ "TerminateInstances operation: The request must contain "
                   +:+ "the parameter InstanceId").

End DeallocateExamples.

(** ** What the statements about the bucket listing are written with *)

Definition is_dict (v : pyval) : bool :=
  match v with PDict _ => true | _ => false end.

(** what [b.get(k)] gives when [b] is a dictionary *)
Definition field (b : pyval) (k : string) : pyval :=
  match b with
  | PDict kvs => match assoc k kvs with Some v => v | None => PNone end
  | _ => PNone
  end.

(** the record [list_s3_buckets] makes of the bucket [b] once its region is
    settled *)
Definition bucket_entry (b loc : pyval) : pyval :=
  PDict [("Name", field b "Name"); ("CreationDate", field b "CreationDate"); ("Region", loc)].

(** the first request of [list_s3_buckets] *)
Definition list_buckets : call := Api "s3" "list_buckets" ∅.

(** the outcomes of the region lookups for the buckets [bs], made one after
    the other from the state [s], and the state after the last *)
Fixpoint region_lookups {St : Type} (respond : call -> St -> St * result pyval)
    (bs : list pyval) (s : St) : list (result pyval) * St :=
  match bs with
  | [] => ([], s)
  | b :: bs' =>
      let (s1, r) := respond (get_bucket_location (field b "Name")) s in
      let (rs, s2) := region_lookups respond bs' s1 in
      (r :: rs, s2)
  end.

(** a lookup the listing lives through: it answers with a dictionary, or it
    raises one of the provider's two error classes *)
Definition tolerated (r : result pyval) : bool :=
  match r with
  | Ok answer => is_dict answer
  | Raise e => is_ClientError_or_BotoCoreError e
  end.

(** the region read off a tolerated lookup *)
Definition region_of (r : result pyval) : pyval :=
  match r with
  | Ok answer => py_or (field answer "LocationConstraint") (PStr "us-east-1")
  | Raise _ => PStr "unknown"
  end.

Module BucketExamples.

Definition listed : pyval :=
  PDict [("Buckets",
          PList [PDict [("Name", PStr "logs"); ("CreationDate", PStr "2024-01-05")];
                 PDict [("Name", PStr "media"); ("CreationDate", PStr "2024-02-11")];
                 PDict [("Name", PStr "backup"); ("CreationDate", PStr "2025-07-30")]])].

Definition logs : pyval := PDict [("Name", PStr "logs"); ("CreationDate", PStr "2024-01-05")].
Definition media : pyval := PDict [("Name", PStr "media"); ("CreationDate", PStr "2024-02-11")].
Definition backup : pyval := PDict [("Name", PStr "backup"); ("CreationDate", PStr "2025-07-30")].

Definition forbidden : exn :=
  Exn ClientError ("An error occurred (AccessDenied) when calling the "
                   +:+ "GetBucketLocation operation: Access Denied").

(** the provider's answer for a bucket of its default region *)
Definition default_region : pyval := PDict [("LocationConstraint", PNone)].

Definition in_ireland : pyval := PDict [("LocationConstraint", PStr "eu-west-1")].

(** the listing, then the three lookups: one refused, one in the default
    region, one in Ireland *)
Definition script : list (result pyval) :=
  [Ok listed; Raise forbidden; Ok default_region; Ok in_ireland].

End BucketExamples.

(** ** What the statement about [resources list] is written with *)

(** what a call of [render.py] leaves on the console, and how it ends *)
Definition printing (console : renderable -> option exn) (o : output)
  : list event * result unit :=
  match console (rendered o) with
  | None => ([Print o], Ok tt)
  | Some e => ([], Raise e)
  end.

(** the warning of the kind [label] for the exception [e] *)
Definition warning (label : string) (e : exn) : output :=
  Warn (label +:+ ": " +:+ exn_str e).

(** what one kind leaves on the console and how its [try] statement ends:
    nothing when there are no rows; its table when there are rows; a
    warning when fetching it or laying out its rows raised, and also when
    printing its table did *)
Definition report (console : renderable -> option exn) (label title : string)
    (columns : list (string * option string)) (color : string)
    (rows : result (list (list pyval))) : list event * result unit :=
  match rows with
  | Raise e => printing console (warning label e)
  | Ok [] => ([], Ok tt)
  | Ok rows =>
      match console (rendered (Table title columns rows color)) with
      | None => ([Print (Table title columns rows color)], Ok tt)
      | Some e => printing console (warning label e)
      end
  end.

(** the same on a console that renders what it is handed *)
Definition lines (label title : string) (columns : list (string * option string))
    (color : string) (rows : result (list (list pyval))) : list event :=
  match rows with
  | Raise e => [Print (warning label e)]
  | Ok [] => []
  | Ok rows => [Print (Table title columns rows color)]
  end.

(** the kind has rows: its [try] statement sets [any_resources] *)
Definition shows_table (rows : result (list (list pyval))) : bool :=
  match rows with
  | Ok (_ :: _) => true
  | _ => false
  end.

(** the shape the four [try] statements of [list_resources] share *)
Definition block {St : Type} (console : renderable -> option exn)
    (fetch : M St (list pyval))
    (rows_of : list pyval -> result (list (list pyval)))
    (label title : string) (columns : list (string * option string)) (color : string)
  : M (St * bool) unit :=
  try_except
    (bind (outside fetch) (fun fetched =>
     bind (lift (rows_of fetched)) (fun rows =>
     if nonempty rows
     then bind (assign true) (fun _ => print console (Table title columns rows color))
     else ret tt)))
    is_Exception
    (fun e => print console (Warn (label +:+ ": " +:+ exn_str e))).

(** a console that renders whatever it is handed *)
Definition renders_all (console : renderable -> option exn) : Prop :=
  forall r, console r = None.

(** the rows of the tables of buckets, of databases and of functions, for a
    record of the listing *)
Definition s3_row (b : pyval) : list pyval :=
  [field b "Name"; field b "Region"; field b "CreationDate"].

Definition rds_record_row (d : pyval) : list pyval :=
  [field d "DBInstanceIdentifier"; field d "Engine"; field d "DBInstanceClass";
   field d "Status"; field d "MultiAZ"].

Definition lambda_row (l : pyval) : list pyval :=
  [field l "FunctionName"; field l "Runtime"; field l "LastModified"].

(** the listing request of each kind *)
Definition describe_instances : call := Api "ec2" "describe_instances" ∅.
Definition describe_db_instances : call := Api "rds" "describe_db_instances" ∅.
Definition list_functions : call := Paginate "lambda" "list_functions" ∅.

(** the row of the table of compute instances for the record [i] *)
Definition ec2_table_row (i : pyval) : list pyval :=
  [field i "InstanceId"; field i "Name"; field i "InstanceType";
   field i "State"; field i "AZ"; field i "LaunchTime"].

(** the record [i] is of an instance the table shows *)
Definition shown (i : pyval) : bool :=
  existsb (eq_str (field i "State")) shown_states.

Module InventoryExamples.

Definition reservations : pyval :=
  PDict [("Reservations",
          PList [PDict [("Instances",
                         PList [PDict [("InstanceId", PStr "i-0abc");
                                       ("InstanceType", PStr "t3.micro");
                                       ("State", PDict [("Name", PStr "running")]);
                                       ("Tags", PList [PDict [("Key", PStr "Name");
                                                              ("Value", PStr "web")]])];
                                PDict [("InstanceId", PStr "i-0def");
                                       ("State", PDict [("Name", PStr "terminated")])]])]])].

Definition not_authorized : exn :=
  Exn ClientError ("An error occurred (AccessDenied) when calling the "
                   +:+ "DescribeDBInstances operation: not authorized").

(** what botocore raises for the region [/x], as [--region "[/x]"] gives
    it: an [InvalidRegionError], which is a [BotoCoreError] *)
Definition bad_region : exn :=
  Exn BotoCoreError "Provided region_name '[/x]' doesn't match a supported format.".

Definition pages : pyval :=
  PList [PDict [("Functions", PList [PDict [("FunctionName", PStr "resize");
                                            ("Runtime", PStr "python3.12")]])];
         PDict [("Functions", PList [PDict [("FunctionName", PStr "notify")]])]].

(** compute instances, buckets with their three lookups, a refusal for the
    databases, functions *)
Definition script : list (result pyval) :=
  [Ok reservations;
   Ok BucketExamples.listed; Raise BucketExamples.forbidden;
   Ok BucketExamples.default_region; Ok BucketExamples.in_ireland;
   Raise not_authorized;
   Ok pages].

End InventoryExamples.

Module UsageExamples.

Definition group (service amount : string) : pyval :=
  PDict [("Keys", PList [PStr service]);
         ("Metrics", PDict [("UsageQuantity",
                             PDict [("Amount", PStr amount); ("Unit", PStr "N/A")])])].

(** the usage groups EC2 5.0, S3 12.0, RDS 1.0, in that order *)
Definition usage : pyval :=
  PDict [("ResultsByTime",
          PList [PDict [("Groups", PList [group "EC2" "5.0";
                                          group "S3" "12.0";
                                          group "RDS" "1.0"])]])].

(** the same with two more groups that tie with EC2 *)
Definition usage_with_ties : pyval :=
  PDict [("ResultsByTime",
          PList [PDict [("Groups", PList [group "EC2" "5.0";
                                          group "S3" "12.0";
                                          group "Lambda" "5.00";
                                          group "RDS" "1.0";
                                          group "SNS" "5"])]])].

Definition top_usage (top_n : Z) (answer : pyval)
  : result (list (usage_row Decimal.model)) :=
  value (get_top_usage Scripted.respond (Date 2026 11 3) Decimal.model top_n [Ok answer]).

Definition row (service : string) (numerator denominator : Z) : usage_row Decimal.model :=
  (PStr service, (numerator, denominator), PStr "N/A").

End UsageExamples.

(** ** The rest of [aws.py] and of [cli.py] *)

(** what a command running under [click] ends with when it raises no Python
    exception of the classes above: it returns, or it raises
    [click.ClickException], which [click] reports with its message *)
Inductive click (A : Type) : Type :=
| Done (a : A)
| ClickException (message : string).
Arguments Done {A} a.
Arguments ClickException {A} message.

(** [p.split("=", 1)] for a [p] that holds the separator: what stands
    before its first occurrence, and what stands after *)
Fixpoint split_first (sep : ascii) (s : string) : option (string * string) :=
  match s with
  | EmptyString => None
  | String c rest =>
      if Ascii.eqb c sep then Some (EmptyString, rest)
      else match split_first sep rest with
           | Some (k, v) => Some (String c k, v)
           | None => None
           end
  end.

(** [parameters[k] = v] on a dictionary given by its items in insertion
    order: a key already there keeps its place *)
Fixpoint dict_set (k v : string) (parameters : list (string * string))
  : list (string * string) :=
  match parameters with
  | [] => [(k, v)]
  | (k', v') :: rest =>
      if String.eqb k k' then (k, v) :: rest else (k', v') :: dict_set k v rest
  end.

(** the loop of [deploy_template] over the [--param] options, cli.py lines
    297-301, from the dictionary built so far *)
Fixpoint parse_params (params : list string) (parameters : list (string * string))
  : result (click (list (string * string))) :=
  match params with
  | [] => Ok (Done parameters)
  | p :: rest =>
      if negb (contains "=" p)
      then Ok (ClickException ("Invalid --param '" +:+ p +:+ "', expected KEY=VALUE"))
      else match split_first "=" p with
           | Some (k, v) => parse_params rest (dict_set k v parameters)
           | None => Raise (Exn ValueError "not enough values to unpack (expected 2, got 1)")
           end
  end.

Section MoreCode.

Context {St : Type}.
Variable respond : call -> St -> St * result pyval.
Variable console : renderable -> option exn.
Variable today : date.
(** [str(v)], as an f-string applies it to a value of the provider *)
Variable py_str : pyval -> string.

Notation "'let!' x ':=' m 'in' k" := (bind m (fun x => k))
  (at level 10, x name, m at level 100, k at level 200).

(** *** aws.py *)

(** [s3.create_bucket(Bucket=bucket_name)], with
    [CreateBucketConfiguration={"LocationConstraint": region}] when a region
    is passed *)
Definition create_bucket (bucket_name : string) (region : option string) : call :=
  Api "s3" "create_bucket"
      match region with
      | Some r =>
          <["CreateBucketConfiguration" := PDict [("LocationConstraint", PStr r)]]>
            (<["Bucket" := PStr bucket_name]> ∅)
      | None => <["Bucket" := PStr bucket_name]> ∅
      end.

(** [allocate_s3_bucket], aws.py lines 178-187; [region_name] is
    [ctx.region_name] *)
Definition allocate_s3_bucket (region_name : option string) (bucket_name : string)
  : M St unit :=
  let region := region_name in
  if given_str region
     && negb (match region with Some r => String.eqb r "us-east-1" | None => false end)
  then let! _ := invoke respond (create_bucket bucket_name region) in ret tt
  else let! _ := invoke respond (create_bucket bucket_name None) in ret tt.

(** The three actions [deallocate_s3_bucket] takes on the resource
    [s3r.Bucket(bucket_name)].  Deleting a collection is one request,
    answered when the provider has gone through the whole collection. *)
Definition delete_objects (bucket_name : string) : call :=
  Paginate "s3" "Bucket.objects.all().delete" {[ "Bucket" := PStr bucket_name ]}.

Definition delete_object_versions (bucket_name : string) : call :=
  Paginate "s3" "Bucket.object_versions.all().delete" {[ "Bucket" := PStr bucket_name ]}.

Definition delete_bucket (bucket_name : string) : call :=
  Api "s3" "Bucket.delete" {[ "Bucket" := PStr bucket_name ]}.

(** [deallocate_s3_bucket], aws.py lines 190-197 *)
Definition deallocate_s3_bucket (bucket_name : string) (force : bool) : M St unit :=
  let! _ :=
    if force then
      let! _ := invoke respond (delete_objects bucket_name) in
      (* delete versions if versioned *)
      let! _ := invoke respond (delete_object_versions bucket_name) in
      ret tt
    else ret tt in
  let! _ := invoke respond (delete_bucket bucket_name) in
  ret tt.

(** *** cli.py *)

(** [billing_show], the command [billing show], cli.py lines 161-171 *)
Definition billing_show (color : string) : M St unit :=
  try_except
    (let! cost := get_month_cost respond today in
     let amount := fst cost in
     let unit := snd cost in
     let! _ := print console (Header "Current Month Cost" color) in
     print console (Info ("Estimated spend: " +:+ py_str amount +:+ " " +:+ py_str unit)))
    is_ClientError_or_BotoCoreError
    (fun e => print console (Error (exn_str e))).

(** [allocate_ec2], the command [allocate ec2], cli.py lines 208-233 *)
Definition allocate_ec2 (ami_id instance_type : string) (key_name security_groups : option string)
    (subnet_id : option string) (count : Z) (name_tag : option string) : M St unit :=
  try_except
    (let sg_ids :=
       if given_str security_groups
       then match security_groups with
            | Some groups => Some (map strip (split_on "," groups))
            | None => None
            end
       else None in
     let! ids := allocate_ec2_instance respond ami_id instance_type key_name sg_ids
                   subnet_id count name_tag in
     let! joined := lift (join ", " ids) in
     print console (Info ("Launched instances: " +:+ joined)))
    is_ClientError_or_BotoCoreError
    (fun e => print console (Error (exn_str e))).

(** [allocate_s3], the command [allocate s3], cli.py lines 251-260;
    [region_name] is that of [ctx.obj["aws"]] *)
Definition allocate_s3 (region_name : option string) (bucket_name : string) : M St unit :=
  try_except
    (let! _ := allocate_s3_bucket region_name bucket_name in
     print console (Info ("Created bucket: " +:+ bucket_name)))
    is_ClientError_or_BotoCoreError
    (fun e => print console (Error (exn_str e))).

(** [deallocate_s3], the command [deallocate s3], cli.py lines 263-273 *)
Definition deallocate_s3 (bucket_name : string) (force : bool) : M St unit :=
  try_except
    (let! _ := deallocate_s3_bucket bucket_name force in
     print console (Info ("Deleted bucket: " +:+ bucket_name)))
    is_ClientError_or_BotoCoreError
    (fun e => print console (Error (exn_str e))).

(** [deploy_template], the command [deploy template], cli.py lines 286-311;
    [body] is what [template_file.read_text(encoding="utf-8")] returned *)
Definition deploy_template (stack_name body : string) (params capabilities : list string)
  : M St (click unit) :=
  try_except
    (let! parsed := lift (parse_params params []) in
     match parsed with
     | ClickException message => ret (ClickException message)
     | Done parameters =>
         let! stack_id := ensure_stack respond stack_name body parameters capabilities in
         let! _ := print console (Info ("Stack ready: " +:+ py_str stack_id)) in
         ret (Done tt)
     end)
    is_ClientError_or_BotoCoreError
    (fun e => let! _ := print console (Error (exn_str e)) in ret (Done tt)).

End MoreCode.

(** what the dictionary [v] holds under the key [k], if [v] is a dictionary
    and has the key *)
Definition entry (v : pyval) (k : string) : option pyval :=
  match v with
  | PDict kvs => assoc k kvs
  | _ => None
  end.

Module MoreExamples.

Definition two_launched : pyval :=
  PDict [("Instances", PList [PDict [("InstanceId", PStr "i-0abc")];
                              PDict [("InstanceId", PStr "i-0def")]])].

(** an answer of [run_instances] whose second instance has no identifier *)
Definition unnamed_launched : pyval :=
  PDict [("Instances", PList [PDict [("InstanceId", PStr "i-0abc")];
                              PDict [("InstanceType", PStr "t3.micro")]])].

Definition two_stopping : pyval :=
  PDict [("StoppingInstances", PList [PDict [("InstanceId", PStr "i-0abc")];
                                      PDict [("CurrentState", PStr "stopping")]])].

Definition not_empty : exn :=
  Exn ClientError ("An error occurred (BucketNotEmpty) when calling the "
                   +:+ "DeleteBucket operation: The bucket you tried to delete "
                   +:+ "is not empty").

Definition access_denied : exn :=
  Exn ClientError ("An error occurred (AccessDenied) when calling the "
                   +:+ "DeleteObjects operation: Access Denied").

Definition waiter_failed : exn :=
  Exn BotoCoreError "Waiter StackCreateComplete failed: Max attempts exceeded".

(** a [ClientError] with the words of a refused update, were a waiter to
    raise one *)
Definition waiter_no_updates : exn :=
  Exn ClientError "No updates are to be performed.".

End MoreExamples.

(** ** What the further statements about the inventory are written with *)

(** what [d.get(k, [])] gives when [d] is a dictionary *)
Definition listed_under (d : pyval) (k : string) : pyval :=
  match entry d k with
  | Some v => v
  | None => PList []
  end.

(** what a loop over [v] runs over, nothing when [v] cannot be looped over *)
Definition elements (v : pyval) : list pyval :=
  match iter v with
  | Ok l => l
  | Raise _ => []
  end.

(** a tag that names the instance: its key is "Name" *)
Definition names (t : pyval) : bool := eq_str (field t "Key") "Name".

(** the exception a lookup that is not tolerated ends the listing with *)
Definition fatal (r : result pyval) : exn :=
  match r with
  | Raise e => e
  | Ok answer => no_attribute answer "get"
  end.

Module TagExamples.

Definition environment : pyval := PDict [("Key", PStr "Env"); ("Value", PStr "prod")].
Definition name : pyval := PDict [("Key", PStr "Name"); ("Value", PStr "web")].
Definition second_name : pyval := PDict [("Key", PStr "Name"); ("Value", PStr "old")].
(** a tag named "Name" that holds no value *)
Definition bare_name : pyval := PDict [("Key", PStr "Name")].

End TagExamples.

(** Whole numbers for [float]: amounts written with digits alone, compared
    as integers. *)
Module Whole.

Definition parse (s : string) : option Z :=
  if nonempty_str s then Decimal.digits 0 s else None.

Definition model : float_model :=
  {| float := Z;
     float_of_string := parse;
     float_refusal := Decimal.refusal;
     float_of_Z := fun z => z;
     float_lt := Z.ltb |}.

End Whole.

Module CostExamples.

Definition period (amount unit : string) : pyval :=
  PDict [("Total", PDict [("UnblendedCost",
                           PDict [("Amount", PStr amount); ("Unit", PStr unit)])])].

(** two periods; only the first is read *)
Definition two_periods : pyval :=
  PDict [("ResultsByTime", PList [period "12.34" "EUR"; period "99.00" "USD"])].

(** a period whose cost has no unit *)
Definition no_unit : pyval :=
  PDict [("ResultsByTime",
          PList [PDict [("Total", PDict [("UnblendedCost",
                                          PDict [("Amount", PStr "7.5")])])]])].

Definition whole_usage : pyval :=
  PDict [("ResultsByTime",
          PList [PDict [("Groups", PList [UsageExamples.group "EC2" "5";
                                          UsageExamples.group "S3" "12";
                                          UsageExamples.group "SNS" "5";
                                          UsageExamples.group "RDS" "1"])]])].


End CostExamples.

(** A stand-in for [str(v)] that is right on strings, [None], booleans and
    integers, and leaves lists and dictionaries out. *)
Module Text.

Definition str (v : pyval) : string :=
  match v with
  | PStr s => s
  | PNone => "None"
  | PBool true => "True"
  | PBool false => "False"
  | PInt z => pretty z
  | PList _ => "[...]"
  | PDict _ => "{...}"
  end.

End Text.

(** A stand-in for the console of rich, which reads the strings it is
    handed as console markup: a tag is "[", a character among a to z, "#",
    "/" and "@", and what follows up to the next "]" with no "[" in
    between, unless an odd number of backslashes stands before it.  A tag
    that does not begin with "/" opens a style; "[/name]" closes the last
    open tag of that name and "[/]" the last open tag, and rich raises
    [MarkupError] when there is none.  Style names are compared as they are
    written, and the cells of a table are read with the stand-in for
    [str]. *)
Module Rich.

Definition starts_tag (c : ascii) : bool :=
  let n := nat_of_ascii c in
  ((97 <=? n) && (n <=? 122) || (n =? 35) || (n =? 47) || (n =? 64))%nat.

(** a byte that continues a character of several bytes *)
Definition continues (c : ascii) : bool :=
  let n := nat_of_ascii c in
  ((128 <=? n) && (n <=? 191))%nat.

(** where the reading stands: in plain text; after a "["; inside a tag,
    with what has been read of it, the last character first.  A bracket is
    remembered with its position and with whether it is escaped. *)
Inductive reading : Type :=
| Plain
| Bracket (position : nat) (escaped : bool)
| InTag (position : nat) (escaped : bool) (read : string).

Fixpoint reversed (acc s : string) : string :=
  match s with
  | EmptyString => acc
  | String c rest => reversed (String c acc) rest
  end.

(** the last open tag named [name], taken off the stack *)
Fixpoint pop_style (name : string) (stack : list string) : option (list string) :=
  match stack with
  | [] => None
  | top :: below =>
      if String.eqb top name then Some below
      else match pop_style name below with
           | Some below' => Some (top :: below')
           | None => None
           end
  end.

(** the tag [body] read at [position]: the stack after it, or the error *)
Definition tag (position : nat) (body : string) (stack : list string)
  : result (list string) :=
  let name := match split_first "=" body with Some (n, _) => n | None => body end in
  match name with
  | String "/" closed =>
      if nonempty_str (strip closed)
      then match pop_style (strip closed) stack with
           | Some stack' => Ok stack'
           | None => Raise (Exn MarkupError
                              ("closing tag '[" +:+ body +:+ "]' at position "
                               +:+ pretty position +:+ " doesn't match any open tag"))
           end
      else match stack with
           | _ :: below => Ok below
           | [] => Raise (Exn MarkupError
                            ("closing tag '[/]' at position " +:+ pretty position
                             +:+ " has nothing to close"))
           end
  | _ => Ok (name :: stack)
  end.

(** reading [s]: [backslashes] stand right before its head, [seen]
    characters before that *)
Fixpoint scan (state : reading) (backslashes seen : nat) (stack : list string)
    (s : string) : option exn :=
  match s with
  | EmptyString => None
  | String c rest =>
      let seen' := if continues c then seen else S seen in
      let backslashes' := if (nat_of_ascii c =? 92)%nat then S backslashes else 0%nat in
      let bracket := Bracket seen (Nat.odd backslashes) in
      match state with
      | Plain =>
          scan (if Ascii.eqb c "[" then bracket else Plain) backslashes' seen' stack rest
      | Bracket position escaped =>
          scan (if starts_tag c then InTag position escaped (String c EmptyString)
                else if Ascii.eqb c "[" then bracket
                else Plain) backslashes' seen' stack rest
      | InTag position escaped read =>
          if Ascii.eqb c "]" then
            if escaped then scan Plain backslashes' seen' stack rest
            else match tag position (reversed EmptyString read) stack with
                 | Ok stack' => scan Plain backslashes' seen' stack' rest
                 | Raise e => Some e
                 end
          else
            scan (if Ascii.eqb c "[" then bracket else InTag position escaped (String c read))
                 backslashes' seen' stack rest
      end
  end.

(** what reading [text] as markup raises *)
Definition markup (text : string) : option exn := scan Plain 0 0 [] text.

Definition first_error (checks : list (option exn)) : option exn :=
  List.fold_right (fun check later => match check with Some e => Some e | None => later end)
                  None checks.

Definition console (r : renderable) : option exn :=
  match r with
  | Markup text => markup text
  | Panel _ _ => None
  | Grid title _ columns rows =>
      first_error
        (markup title
         :: map (fun column => markup (fst column)) columns
         ++ map (fun c => match c with
                          | Blank => None
                          | StrOf v => markup (Text.str v)
                          end) (concat rows))
  end.

End Rich.

(** [k=v], as a [--param] option is written *)
Definition key_value (kv : string * string) : string := fst kv +:+ "=" +:+ snd kv.

(** a program that prints nothing, whatever the state it starts from *)
Definition silent {St A} (m : M St A) : Prop := forall s, printed (trace (m s)) = [].

(** the row of the table of databases for the instance [db] of the
    provider's answer *)
Definition rds_row (db : pyval) : list pyval :=
  [field db "DBInstanceIdentifier"; field db "Engine"; field db "DBInstanceClass";
   field db "DBInstanceStatus"; field db "MultiAZ"].

Module DatabaseExamples.

(** a database the provider describes without saying whether it is
    deployed in several zones *)
Definition orders : pyval :=
  PDict [("DBInstanceIdentifier", PStr "orders"); ("DBInstanceClass", PStr "db.t3.micro");
         ("Engine", PStr "postgres"); ("DBInstanceStatus", PStr "available")].

Definition described : pyval := PDict [("DBInstances", PList [orders])].

(** an answer whose second entry is no dictionary *)
Definition malformed : pyval := PDict [("DBInstances", PList [orders; PStr "orders-replica"])].

End DatabaseExamples.

(** what follows the white-space character [s] begins with, if it begins
    with one *)
Definition space_at (s : string) : option string :=
  match s with
  | EmptyString => None
  | String c1 rest1 =>
      if is_space c1 then Some rest1
      else match rest1 with
           | EmptyString => None
           | String c2 rest2 =>
               if is_space2 c1 c2 then Some rest2
               else match rest2 with
                    | EmptyString => None
                    | String c3 rest3 => if is_space3 c1 c2 c3 then Some rest3 else None
                    end
           end
  end.

(** ** Errors whose text rich does not take *)

Module MarkupExamples.

(** a template that CloudFormation turns down, naming the place in it *)
Definition malformed_template : exn :=
  Exn ClientError ("An error occurred (ValidationError) when calling the "
                   +:+ "CreateStack operation: Template format error: "
                   +:+ "[/Resources/Site] resource definition is malformed").

Definition quote : string := String (ascii_of_nat 34) EmptyString.
Definition newline : string := String (ascii_of_nat 10) EmptyString.

(** what botocore raises for the bucket name [My Bucket], before any
    request: a [ParamValidationError], which is a [BotoCoreError] *)
Definition invalid_bucket_name : exn :=
  Exn BotoCoreError
      ("Parameter validation failed:" +:+ newline
       +:+ "Invalid bucket name " +:+ quote +:+ "My Bucket" +:+ quote
       +:+ ": Bucket name must match the regex " +:+ quote
       +:+ "^[a-zA-Z0-9.\-_]{1,255}$" +:+ quote
       +:+ " or be an ARN matching the regex " +:+ quote
       +:+ "^arn:(aws).*:(s3|s3-object-lambda):[a-z\-0-9]*:[0-9]{12}:accesspoint"
       +:+ "[/:][a-zA-Z0-9\-.]{1,63}$|^arn:(aws).*:s3-outposts:[a-z\-0-9]+:[0-9]{12}"
       +:+ ":outpost[/:][a-zA-Z0-9\-]{1,63}[/:]accesspoint[/:][a-zA-Z0-9\-]{1,63}$"
       +:+ quote).

(** an instance identifier as no provider gives one, with a closing tag *)
Definition tagged_launched : pyval :=
  PDict [("Instances", PList [PDict [("InstanceId", PStr "i-0abc[/]")]])].

(** what rich raises on the error line for [malformed_template], on the
    one for [invalid_bucket_name], and on the line for [tagged_launched] *)
Definition unmatched (closing : string) (position : nat) : exn :=
  Exn MarkupError ("closing tag '" +:+ closing +:+ "' at position " +:+ pretty position
                   +:+ " doesn't match any open tag").

Definition nothing_to_close (position : nat) : exn :=
  Exn MarkupError ("closing tag '[/]' at position " +:+ pretty position
                   +:+ " has nothing to close").

End MarkupExamples.

(** ** What the statement about the closing line of [resources list] is
    written with *)

(** a piece of [list_resources] that keeps the closing line for a listing
    without tables: started with [any_resources] set it prints no line of
    [print_info], and when it prints one it prints no table *)
Definition closes_well {St : Type} (p : M (St * bool) unit) : Prop :=
  forall s any,
    let r := p (s, any) in
    (any = true -> forall line, Info line ∉ printed (trace r))
    /\ ((exists line, Info line ∈ printed (trace r)) ->
        forall title columns rows color,
          Table title columns rows color ∉ printed (trace r)).

(** * Properties *)

(** ** Running a sequence *)

Section Sequencing.

Context {St : Type}.

Lemma bind_returned {A B} (m : M St A) (k : A -> M St B) s s1 t a :
  m s = Run s1 t (Ok a) ->
  bind m k s = Run (final (k a s1)) (t ++ trace (k a s1)) (value (k a s1)).
Proof. intros Hm. unfold bind. rewrite Hm. reflexivity. Qed.

Lemma bind_value_Ok {A B} (m : M St A) (k : A -> M St B) s b :
  value (bind m k s) = Ok b ->
  exists a, value (m s) = Ok a /\ value (k a (final (m s))) = Ok b.
Proof.
  unfold bind. destruct (m s) as [s1 t [a | e]]; cbn; [eauto | discriminate].
Qed.

End Sequencing.

(** ** The stack reconciler *)

Section Reconciler.

Context {St : Type}.
Variable respond : call -> St -> St * result pyval.
Variables (stack_name template_body : string).
Variable parameters : list (string * string).
Variable capabilities : list string.

Let describe := describe_stacks stack_name.
Let create := create_stack stack_name template_body parameters capabilities.
Let update := update_stack stack_name template_body parameters capabilities.
Let created := wait_stack "stack_create_complete" stack_name.
Let updated := wait_stack "stack_update_complete" stack_name.
Let ensure := ensure_stack respond stack_name template_body parameters capabilities.

(** The create branch, from the state the probe left the provider in. *)
Lemma ensure_stack_absent s s1 e :
  respond describe s = (s1, Raise e) ->
  says_absent e = true ->
  ensure s =
    match respond create s1 with
    | (s2, Ok resp) =>
        match respond created s2 with
        | (s3, Ok _) => Run s3 [Request describe; Request create; Request created]
                            (item resp "StackId")
        | (s3, Raise e') => Run s3 [Request describe; Request create; Request created]
                                (Raise e')
        end
    | (s2, Raise e') => Run s2 [Request describe; Request create] (Raise e')
    end.
Proof.
  intros Hprobe Habsent. apply andb_prop in Habsent as [Hcls Hmsg].
  unfold ensure, ensure_stack, bind, try_except, invoke, ret, raise, lift.
  fold describe create created. rewrite Hprobe. cbn. rewrite Hcls, Hmsg. cbn.
  destruct (respond create s1) as [s2 [resp | e']]; cbn; [| reflexivity].
  destruct (respond created s2) as [s3 [r | e']]; reflexivity.
Qed.

(** A failure of the probe that does not say "absent" ends the call. *)
Lemma ensure_stack_probe_fails s s1 e :
  respond describe s = (s1, Raise e) ->
  says_absent e = false ->
  ensure s = Run s1 [Request describe] (Raise e).
Proof.
  intros Hprobe Hother. unfold says_absent in Hother.
  unfold ensure, ensure_stack, bind, try_except, invoke, ret, raise, lift.
  fold describe. rewrite Hprobe. cbn.
  destruct (is_ClientError e); cbn in *; [rewrite Hother |]; reflexivity.
Qed.

(** The update branch, from the state the probe left the provider in. *)
Lemma ensure_stack_present s s1 d :
  respond describe s = (s1, Ok d) ->
  ensure s =
    match respond update s1 with
    | (s2, Ok resp) =>
        match respond updated s2 with
        | (s3, Ok _) =>
            Run s3 [Request describe; Request update; Request updated] (item resp "StackId")
        | (s3, Raise e) =>
            if says_no_updates e
            then let (s4, r) := respond describe s3 in
                 Run s4 [Request describe; Request update; Request updated; Request describe]
                     (rbind r first_stack_id)
            else Run s3 [Request describe; Request update; Request updated] (Raise e)
        end
    | (s2, Raise e) =>
        if says_no_updates e
        then let (s3, r) := respond describe s2 in
             Run s3 [Request describe; Request update; Request describe]
                 (rbind r first_stack_id)
        else Run s2 [Request describe; Request update] (Raise e)
    end.
Proof.
  intros Hprobe.
  unfold ensure, ensure_stack, bind, try_except, invoke, ret, raise, lift.
  fold describe update updated. rewrite Hprobe. cbn.
  destruct (respond update s1) as [s2 [resp | e]]; cbn.
  - destruct (respond updated s2) as [s3 [r | e]]; cbn.
    + destruct (item resp "StackId") as [i | e] eqn:Hid; cbn; [reflexivity |].
      (* a missing key is a KeyError, which the handler lets through *)
      unfold item in Hid. destruct resp; try (injection Hid as <-; reflexivity).
      destruct (assoc "StackId" d0); [discriminate | injection Hid as <-; reflexivity].
    + unfold says_no_updates. destruct (is_ClientError e); cbn; [| reflexivity].
      destruct (contains _ (exn_str e)); cbn; [| reflexivity].
      destruct (respond describe s3) as [s4 [desc | e']]; reflexivity.
  - unfold says_no_updates. destruct (is_ClientError e); cbn; [| reflexivity].
    destruct (contains _ (exn_str e)); cbn; [| reflexivity].
    destruct (respond describe s2) as [s3 [desc | e']]; reflexivity.
Qed.

(** C1. The existence probe of [ensure_stack]: a [ClientError] whose text
    contains "does not exist" sends the reconciler to [create_stack] and it
    never requests [update_stack]; any other exception of the probe comes
    out as it is, after that one request; a probe that returns sends the
    reconciler to [update_stack] and it never requests [create_stack]. *)
Theorem ensure_stack_probe_classifies s s1 probe :
  respond describe s = (s1, probe) ->
  (forall e, probe = Raise e -> says_absent e = true ->
     (exists rest, trace (ensure s) = Request describe :: Request create :: rest)
     /\ never_requests "update_stack" (trace (ensure s)))
  /\ (forall e, probe = Raise e -> says_absent e = false ->
        ensure s = Run s1 [Request describe] (Raise e))
  /\ (forall d, probe = Ok d ->
        (exists rest, trace (ensure s) = Request describe :: Request update :: rest)
        /\ never_requests "create_stack" (trace (ensure s))).
Proof.
  intros Hprobe. split; [| split].
  - intros e -> Habsent. rewrite (ensure_stack_absent _ _ _ Hprobe Habsent).
    destruct (respond create s1) as [s2 [resp | e']].
    + destruct (respond created s2) as [s3 [r | e']];
        (split; [eexists; reflexivity | repeat constructor]).
    + split; [eexists; reflexivity | repeat constructor].
  - intros e -> Hother. exact (ensure_stack_probe_fails _ _ _ Hprobe Hother).
  - intros d ->. rewrite (ensure_stack_present _ _ _ Hprobe).
    destruct (respond update s1) as [s2 [resp | e]].
    + destruct (respond updated s2) as [s3 [r | e]].
      * split; [eexists; reflexivity | repeat constructor].
      * destruct (says_no_updates e).
        -- destruct (respond describe s3) as [s4 r].
           split; [eexists; reflexivity | repeat constructor].
        -- split; [eexists; reflexivity | repeat constructor].
    + destruct (says_no_updates e).
      * destruct (respond describe s2) as [s3 r].
        split; [eexists; reflexivity | repeat constructor].
      * split; [eexists; reflexivity | repeat constructor].
Qed.

(** C2. Once the probe has found the stack: when [update_stack] raises a
    [ClientError] whose text contains "No updates are to be performed",
    the reconciler asks [describe_stacks] again and its outcome is that of
    reading the first stack's identifier off the answer, so it returns that
    identifier whenever the answer holds one; any other exception of
    [update_stack], or of the wait that follows it, comes out as it is. *)
Theorem ensure_stack_absorbs_no_updates s s1 d :
  respond describe s = (s1, Ok d) ->
  (forall s2 e s3 r,
     respond update s1 = (s2, Raise e) -> says_no_updates e = true ->
     respond describe s2 = (s3, r) ->
     ensure s = Run s3 [Request describe; Request update; Request describe]
                    (rbind r first_stack_id)
     /\ (forall desc id, r = Ok desc -> first_stack_id desc = Ok id ->
           value (ensure s) = Ok id))
  /\ (forall s2 e,
        respond update s1 = (s2, Raise e) -> says_no_updates e = false ->
        ensure s = Run s2 [Request describe; Request update] (Raise e))
  /\ (forall s2 resp s3 e,
        respond update s1 = (s2, Ok resp) ->
        respond updated s2 = (s3, Raise e) -> says_no_updates e = false ->
        ensure s = Run s3 [Request describe; Request update; Request updated] (Raise e)).
Proof.
  intros Hprobe. pose proof (ensure_stack_present _ _ _ Hprobe) as Hrun.
  split; [| split].
  - intros s2 e s3 r Hupdate Hsays Hagain.
    rewrite Hupdate, Hsays, Hagain in Hrun. split; [exact Hrun |].
    intros desc id -> Hid. rewrite Hrun. cbn. exact Hid.
  - intros s2 e Hupdate Hsays. rewrite Hupdate, Hsays in Hrun. exact Hrun.
  - intros s2 resp s3 e Hupdate Hwait Hsays.
    rewrite Hupdate, Hwait, Hsays in Hrun. exact Hrun.
Qed.

End Reconciler.

(** ** Calling the reconciler twice *)

(** What is asked of the provider, for one stack and one set of inputs.
    [deployed id s] reads: in state [s] the provider holds the stack under
    the identifier [id], deployed from exactly these inputs. *)
Section Idempotence.

Context {St : Type}.
Variable respond : call -> St -> St * result pyval.
Variables (stack_name template_body : string).
Variable parameters : list (string * string).
Variable capabilities : list string.

Let describe := describe_stacks stack_name.
Let create := create_stack stack_name template_body parameters capabilities.
Let update := update_stack stack_name template_body parameters capabilities.
Let created := wait_stack "stack_create_complete" stack_name.
Let updated := wait_stack "stack_update_complete" stack_name.
Let ensure := ensure_stack respond stack_name template_body parameters capabilities.

Variable deployed : pyval -> St -> Prop.

(** a creation that was waited for leaves the stack deployed under the
    identifier [create_stack] answered with *)
Hypothesis create_deploys : forall s s1 s2 resp r id,
  respond create s = (s1, Ok resp) -> respond created s1 = (s2, Ok r) ->
  item resp "StackId" = Ok id -> deployed id s2.

(** and so does an update that was waited for *)
Hypothesis update_deploys : forall s s1 s2 resp r id,
  respond update s = (s1, Ok resp) -> respond updated s1 = (s2, Ok r) ->
  item resp "StackId" = Ok id -> deployed id s2.

(** an update refused as changing nothing means the stack is deployed from
    these inputs, under the identifier it is then described with *)
Hypothesis no_updates_means_deployed : forall s s1 e s2 desc id,
  respond update s = (s1, Raise e) -> says_no_updates e = true ->
  respond describe s1 = (s2, Ok desc) -> first_stack_id desc = Ok id ->
  deployed id s2.

(** a waiter fails with its own error class, never with a [ClientError] *)
Hypothesis waiter_errors : forall s s1 e,
  respond updated s = (s1, Raise e) -> is_ClientError e = false.

(** a deployed stack is described under its identifier, and stays deployed *)
Hypothesis describe_deployed : forall id s,
  deployed id s ->
  exists s1 desc, respond describe s = (s1, Ok desc)
                  /\ first_stack_id desc = Ok id /\ deployed id s1.

(** updating a deployed stack with the inputs it was deployed from is
    refused as changing nothing, and the stack stays deployed *)
Hypothesis update_deployed : forall id s,
  deployed id s ->
  exists s1 e, respond update s = (s1, Raise e)
               /\ says_no_updates e = true /\ deployed id s1.

(** A call that returns an identifier leaves the stack deployed under it. *)
Lemma ensure_stack_deploys s id :
  value (ensure s) = Ok id -> deployed id (final (ensure s)).
Proof.
  destruct (respond describe s) as [s1 [d | e]] eqn:Hprobe.
  - unfold ensure. rewrite (ensure_stack_present _ _ _ _ _ _ _ _ Hprobe).
    fold update updated describe.
    destruct (respond update s1) as [s2 [resp | e]] eqn:Hupdate.
    + destruct (respond updated s2) as [s3 [r | e]] eqn:Hwait.
      * cbn. intros Hid. exact (update_deploys _ _ _ _ _ _ Hupdate Hwait Hid).
      * unfold says_no_updates. rewrite (waiter_errors _ _ _ Hwait). cbn. discriminate.
    + destruct (says_no_updates e) eqn:Hsays; [| cbn; discriminate].
      destruct (respond describe s2) as [s3 [desc | e']] eqn:Hagain; cbn; [| discriminate].
      intros Hid. exact (no_updates_means_deployed _ _ _ _ _ _ Hupdate Hsays Hagain Hid).
  - destruct (says_absent e) eqn:Habsent.
    + unfold ensure. rewrite (ensure_stack_absent _ _ _ _ _ _ _ _ Hprobe Habsent).
      fold create created.
      destruct (respond create s1) as [s2 [resp | e']] eqn:Hcreate; [| cbn; discriminate].
      destruct (respond created s2) as [s3 [r | e']] eqn:Hwait; cbn; [| discriminate].
      intros Hid. exact (create_deploys _ _ _ _ _ _ Hcreate Hwait Hid).
    + unfold ensure. rewrite (ensure_stack_probe_fails _ _ _ _ _ _ _ _ Hprobe Habsent).
      cbn. discriminate.
Qed.

(** From a state where the stack is deployed, the reconciler takes the
    "no updates" branch and returns the stack's identifier. *)
Lemma ensure_stack_deployed s id :
  deployed id s ->
  value (ensure s) = Ok id
  /\ trace (ensure s) = [Request describe; Request update; Request describe]
  /\ deployed id (final (ensure s)).
Proof.
  intros Hdep.
  destruct (describe_deployed _ _ Hdep) as (s1 & d & Hprobe & _ & Hdep1).
  destruct (update_deployed _ _ Hdep1) as (s2 & e & Hupdate & Hsays & Hdep2).
  destruct (describe_deployed _ _ Hdep2) as (s3 & desc & Hagain & Hid & Hdep3).
  unfold ensure. rewrite (ensure_stack_present _ _ _ _ _ _ _ _ Hprobe).
  fold update updated describe. rewrite Hupdate, Hsays, Hagain. cbn.
  auto.
Qed.

(** C3. Against a provider that keeps to the rules above, a call of
    [ensure_stack] that returned an identifier, followed at once by a second
    call with the same inputs: the second call returns the same identifier,
    and its requests are the probe, the refused update and the describe
    that reads the identifier; it does not create. *)
Theorem ensure_stack_idempotent s id :
  value (ensure s) = Ok id ->
  value (ensure (final (ensure s))) = Ok id
  /\ trace (ensure (final (ensure s)))
     = [Request describe; Request update; Request describe]
  /\ never_requests "create_stack" (trace (ensure (final (ensure s)))).
Proof.
  intros Hfirst.
  destruct (ensure_stack_deployed _ _ (ensure_stack_deploys _ _ Hfirst))
    as (Hvalue & Htrace & _).
  repeat split; [exact Hvalue | exact Htrace |].
  rewrite Htrace. repeat constructor.
Qed.

End Idempotence.

(** The stand-in for CloudFormation keeps to the rules of the section above. *)
Module FakeCloudFormationFacts.
Import FakeCloudFormation.

Lemma stack_name_kwargs_lookup name :
  stack_name_kwargs name !! "StackName" = Some (PStr name).
Proof. unfold stack_name_kwargs. apply lookup_singleton_eq. Qed.

Lemma stack_kwargs_lookup name body params caps :
  stack_kwargs name body params caps !! "StackName" = Some (PStr name).
Proof.
  unfold stack_kwargs.
  rewrite !lookup_insert_ne by discriminate. apply lookup_insert_eq.
Qed.

Lemma respond_describe name s :
  respond (describe_stacks name) s =
    match s !! name with
    | Some _ => (s, Ok (PDict [("Stacks", PList [PDict [("StackId", stack_id name)]])]))
    | None => (s, Raise (not_found "DescribeStacks" name))
    end.
Proof.
  unfold respond, describe_stacks, cloudformation.
  rewrite stack_name_kwargs_lookup. reflexivity.
Qed.

Lemma respond_create name body params caps s :
  respond (create_stack name body params caps) s =
    match s !! name with
    | Some _ => (s, Raise (already_exists name))
    | None => (<[name := stack_kwargs name body params caps]> s,
               Ok (PDict [("StackId", stack_id name)]))
    end.
Proof.
  unfold respond, create_stack, cloudformation.
  rewrite stack_kwargs_lookup. reflexivity.
Qed.

Lemma respond_update name body params caps s :
  respond (update_stack name body params caps) s =
    match s !! name with
    | Some held =>
        if decide (held = stack_kwargs name body params caps)
        then (s, Raise no_updates)
        else (<[name := stack_kwargs name body params caps]> s,
              Ok (PDict [("StackId", stack_id name)]))
    | None => (s, Raise (not_found "UpdateStack" name))
    end.
Proof.
  unfold respond, update_stack, cloudformation.
  rewrite stack_kwargs_lookup. reflexivity.
Qed.

Lemma respond_wait waiter name s :
  respond (wait_stack waiter name) s = (s, Ok PNone).
Proof. reflexivity. Qed.

Lemma says_no_updates_no_updates : says_no_updates no_updates = true.
Proof. vm_compute. reflexivity. Qed.

Section Laws.

Variables (name body : string) (params : list (string * string)) (caps : list string).

Lemma fake_create_deploys s s1 s2 resp r id :
  respond (create_stack name body params caps) s = (s1, Ok resp) ->
  respond (wait_stack "stack_create_complete" name) s1 = (s2, Ok r) ->
  item resp "StackId" = Ok id ->
  deployed name body params caps id s2.
Proof.
  rewrite respond_create, respond_wait.
  destruct (s !! name); [discriminate |].
  intros [= <- <-] [= <- _] [= <-].
  split; [reflexivity | apply lookup_insert_eq].
Qed.

Lemma fake_update_deploys s s1 s2 resp r id :
  respond (update_stack name body params caps) s = (s1, Ok resp) ->
  respond (wait_stack "stack_update_complete" name) s1 = (s2, Ok r) ->
  item resp "StackId" = Ok id ->
  deployed name body params caps id s2.
Proof.
  rewrite respond_update, respond_wait.
  destruct (s !! name); [| discriminate].
  destruct (decide _); [discriminate |].
  intros [= <- <-] [= <- _] [= <-].
  split; [reflexivity | apply lookup_insert_eq].
Qed.

Lemma fake_no_updates_means_deployed s s1 e s2 desc id :
  respond (update_stack name body params caps) s = (s1, Raise e) ->
  says_no_updates e = true ->
  respond (describe_stacks name) s1 = (s2, Ok desc) ->
  first_stack_id desc = Ok id ->
  deployed name body params caps id s2.
Proof.
  rewrite respond_update, respond_describe.
  destruct (s !! name) as [held |] eqn:Hheld.
  - destruct (decide _) as [-> |]; [| discriminate].
    intros [= <- <-] _. rewrite Hheld. intros [= <- <-] [= <-].
    split; [reflexivity | exact Hheld].
  - intros [= <- <-] _. rewrite Hheld. discriminate.
Qed.

Lemma fake_waiter_errors s s1 e :
  respond (wait_stack "stack_update_complete" name) s = (s1, Raise e) ->
  is_ClientError e = false.
Proof. rewrite respond_wait. discriminate. Qed.

Lemma fake_describe_deployed id s :
  deployed name body params caps id s ->
  exists s1 desc, respond (describe_stacks name) s = (s1, Ok desc)
                  /\ first_stack_id desc = Ok id
                  /\ deployed name body params caps id s1.
Proof.
  intros [-> Hheld]. rewrite respond_describe, Hheld.
  eexists _, _.
  split; [reflexivity | split; [reflexivity |]].
  split; [reflexivity | exact Hheld].
Qed.

Lemma fake_update_deployed id s :
  deployed name body params caps id s ->
  exists s1 e, respond (update_stack name body params caps) s = (s1, Raise e)
               /\ says_no_updates e = true
               /\ deployed name body params caps id s1.
Proof.
  intros [-> Hheld]. rewrite respond_update, Hheld.
  destruct (decide _) as [_ | Hne]; [| contradiction].
  eexists _, _.
  split; [reflexivity | split; [apply says_no_updates_no_updates |]].
  split; [reflexivity | exact Hheld].
Qed.

End Laws.

Lemma contains_append needle before after :
  contains needle after = true -> contains needle (before +:+ after) = true.
Proof.
  intros Hafter. induction before as [| c before IH]; [exact Hafter |].
  change (contains needle (String c (before +:+ after)) = true).
  cbn [contains]. destruct (String.prefix _ _); [reflexivity | exact IH].
Qed.

Lemma says_absent_not_found operation name :
  says_absent (not_found operation name) = true.
Proof.
  unfold says_absent, not_found. cbn [exn_str exn_cls is_ClientError andb].
  do 4 apply contains_append. vm_compute. reflexivity.
Qed.

(** Against the stand-in, for every stack, every set of inputs and every
    state: the first call returns the stack's identifier, and the second
    returns it again through the "no updates" branch. *)
Lemma fake_ensure_stack_twice name body params caps s :
  let ensure := ensure_stack respond name body params caps in
  value (ensure s) = Ok (stack_id name)
  /\ value (ensure (final (ensure s))) = Ok (stack_id name)
  /\ trace (ensure (final (ensure s)))
     = [Request (describe_stacks name);
        Request (update_stack name body params caps);
        Request (describe_stacks name)].
Proof.
  intros ensure.
  assert (Hfirst : value (ensure s) = Ok (stack_id name)).
  { unfold ensure. destruct (s !! name) as [held |] eqn:Hheld.
    - erewrite ensure_stack_present by (rewrite respond_describe, Hheld; reflexivity).
      rewrite respond_update, Hheld.
      destruct (decide _) as [_ | _].
      + rewrite says_no_updates_no_updates, respond_describe, Hheld. reflexivity.
      + rewrite respond_wait. reflexivity.
    - erewrite ensure_stack_absent;
        [| rewrite respond_describe, Hheld; reflexivity | apply says_absent_not_found].
      rewrite respond_create, Hheld, respond_wait. reflexivity. }
  split; [exact Hfirst |].
  pose proof (ensure_stack_deploys respond name body params caps
                (deployed name body params caps)
                (fake_create_deploys _ _ _ _) (fake_update_deploys _ _ _ _)
                (fake_no_updates_means_deployed _ _ _ _) (fake_waiter_errors _)
                s _ Hfirst) as Hdeployed.
  destruct (ensure_stack_deployed respond name body params caps
              (deployed name body params caps)
              (fake_describe_deployed _ _ _ _) (fake_update_deployed _ _ _ _)
              _ _ Hdeployed) as (Hsecond & Htrace & _).
  split; [exact Hsecond | exact Htrace].
Qed.

End FakeCloudFormationFacts.

(** *** The three claims at the stack "web" *)

Lemma ensure_stack_probe_classifies_witness :
  ((exists rest,
      trace (ReconcilerExamples.scripted
               [Raise ReconcilerExamples.absent; Ok ReconcilerExamples.accepted; Ok PNone])
      = Request (describe_stacks "web")
          :: Request (create_stack "web" ReconcilerExamples.body ReconcilerExamples.params
                        ReconcilerExamples.caps) :: rest)
   /\ never_requests "update_stack"
        (trace (ReconcilerExamples.scripted
                  [Raise ReconcilerExamples.absent; Ok ReconcilerExamples.accepted; Ok PNone])))
  /\ ReconcilerExamples.scripted [Raise ReconcilerExamples.denied]
     = Run [] [Request (describe_stacks "web")] (Raise ReconcilerExamples.denied)
  /\ ((exists rest,
         trace (ReconcilerExamples.scripted
                  [Ok ReconcilerExamples.described; Ok ReconcilerExamples.accepted; Ok PNone])
         = Request (describe_stacks "web")
             :: Request (update_stack "web" ReconcilerExamples.body ReconcilerExamples.params
                           ReconcilerExamples.caps) :: rest)
      /\ never_requests "create_stack"
           (trace (ReconcilerExamples.scripted
                     [Ok ReconcilerExamples.described; Ok ReconcilerExamples.accepted; Ok PNone]))).
Proof.
  split; [| split].
  - refine (proj1 (ensure_stack_probe_classifies Scripted.respond "web"
                     ReconcilerExamples.body ReconcilerExamples.params ReconcilerExamples.caps
                     [Raise ReconcilerExamples.absent; Ok ReconcilerExamples.accepted; Ok PNone]
                     _ _ eq_refl) _ eq_refl _).
    vm_compute. reflexivity.
  - refine (proj1 (proj2 (ensure_stack_probe_classifies Scripted.respond "web"
                     ReconcilerExamples.body ReconcilerExamples.params ReconcilerExamples.caps
                     [Raise ReconcilerExamples.denied] _ _ eq_refl)) _ eq_refl _).
    vm_compute. reflexivity.
  - exact (proj2 (proj2 (ensure_stack_probe_classifies Scripted.respond "web"
                     ReconcilerExamples.body ReconcilerExamples.params ReconcilerExamples.caps
                     [Ok ReconcilerExamples.described; Ok ReconcilerExamples.accepted; Ok PNone]
                     _ _ eq_refl)) _ eq_refl).
Defined.

Lemma ensure_stack_absorbs_no_updates_witness :
  (ReconcilerExamples.scripted
     [Ok ReconcilerExamples.described; Raise FakeCloudFormation.no_updates;
      Ok ReconcilerExamples.described]
   = Run [] [Request (describe_stacks "web");
             Request (update_stack "web" ReconcilerExamples.body ReconcilerExamples.params
                        ReconcilerExamples.caps);
             Request (describe_stacks "web")]
         (Ok (PStr "arn:web/1")))
  /\ ReconcilerExamples.scripted
       [Ok ReconcilerExamples.described; Raise ReconcilerExamples.throttled]
     = Run [] [Request (describe_stacks "web");
               Request (update_stack "web" ReconcilerExamples.body ReconcilerExamples.params
                          ReconcilerExamples.caps)]
           (Raise ReconcilerExamples.throttled)
  /\ ReconcilerExamples.scripted
       [Ok ReconcilerExamples.described; Ok ReconcilerExamples.accepted;
        Raise ReconcilerExamples.timed_out]
     = Run [] [Request (describe_stacks "web");
               Request (update_stack "web" ReconcilerExamples.body ReconcilerExamples.params
                          ReconcilerExamples.caps);
               Request (wait_stack "stack_update_complete" "web")]
           (Raise ReconcilerExamples.timed_out).
Proof.
  split; [| split].
  - refine (proj1 (proj1 (ensure_stack_absorbs_no_updates Scripted.respond "web"
                     ReconcilerExamples.body ReconcilerExamples.params ReconcilerExamples.caps
                     [Ok ReconcilerExamples.described; Raise FakeCloudFormation.no_updates;
                      Ok ReconcilerExamples.described] _ _ eq_refl)
                   _ _ _ _ eq_refl _ eq_refl)).
    vm_compute. reflexivity.
  - refine (proj1 (proj2 (ensure_stack_absorbs_no_updates Scripted.respond "web"
                     ReconcilerExamples.body ReconcilerExamples.params ReconcilerExamples.caps
                     [Ok ReconcilerExamples.described; Raise ReconcilerExamples.throttled]
                     _ _ eq_refl))
                   _ _ eq_refl _).
    vm_compute. reflexivity.
  - refine (proj2 (proj2 (ensure_stack_absorbs_no_updates Scripted.respond "web"
                     ReconcilerExamples.body ReconcilerExamples.params ReconcilerExamples.caps
                     [Ok ReconcilerExamples.described; Ok ReconcilerExamples.accepted;
                      Raise ReconcilerExamples.timed_out] _ _ eq_refl))
                   _ _ _ _ eq_refl eq_refl _).
    vm_compute. reflexivity.
Defined.

Lemma ensure_stack_idempotent_witness :
  value (ReconcilerExamples.faked ∅) = Ok (FakeCloudFormation.stack_id "web")
  /\ value (ReconcilerExamples.faked (final (ReconcilerExamples.faked ∅)))
     = Ok (FakeCloudFormation.stack_id "web")
  /\ trace (ReconcilerExamples.faked (final (ReconcilerExamples.faked ∅)))
     = [Request (describe_stacks "web");
        Request (update_stack "web" ReconcilerExamples.body ReconcilerExamples.params
                   ReconcilerExamples.caps);
        Request (describe_stacks "web")]
  /\ never_requests "create_stack"
       (trace (ReconcilerExamples.faked (final (ReconcilerExamples.faked ∅)))).
Proof.
  assert (Hfirst : value (ReconcilerExamples.faked ∅) = Ok (FakeCloudFormation.stack_id "web"))
    by (vm_compute; reflexivity).
  split; [exact Hfirst |].
  exact (ensure_stack_idempotent FakeCloudFormation.respond "web"
           ReconcilerExamples.body ReconcilerExamples.params ReconcilerExamples.caps
           (FakeCloudFormation.deployed "web" ReconcilerExamples.body
              ReconcilerExamples.params ReconcilerExamples.caps)
           (FakeCloudFormationFacts.fake_create_deploys _ _ _ _)
           (FakeCloudFormationFacts.fake_update_deploys _ _ _ _)
           (FakeCloudFormationFacts.fake_no_updates_means_deployed _ _ _ _)
           (FakeCloudFormationFacts.fake_waiter_errors _)
           (FakeCloudFormationFacts.fake_describe_deployed _ _ _ _)
           (FakeCloudFormationFacts.fake_update_deployed _ _ _ _)
           ∅ _ Hfirst).
Defined.

(** ** The billing reader *)

Section Billing.

Context {St : Type}.
Variable respond : call -> St -> St * result pyval.
Variable today : date.

(** C6. When the cost query is answered and the answer holds no result
    periods (the key is missing, or what it holds is empty),
    [get_month_cost] returns ("0.0", "USD") after that one request, and
    raises nothing. *)
Theorem get_month_cost_no_periods s s1 resp results :
  respond (month_cost_query today) s = (s1, Ok resp) ->
  get resp "ResultsByTime" (PList []) = Ok results ->
  truthy results = false ->
  get_month_cost respond today s
  = Run s1 [Request (month_cost_query today)] (Ok (PStr "0.0", PStr "USD")).
Proof.
  intros Hquery Hresults Hnone.
  unfold get_month_cost, bind, invoke, lift, ret.
  rewrite Hquery. cbn. rewrite Hresults. cbn. rewrite Hnone. reflexivity.
Qed.

End Billing.

Lemma get_month_cost_no_periods_witness :
  get_month_cost Scripted.respond BillingExamples.today [Ok BillingExamples.no_periods]
  = Run [] [Request (month_cost_query BillingExamples.today)] (Ok (PStr "0.0", PStr "USD"))
  /\ get_month_cost Scripted.respond BillingExamples.today [Ok BillingExamples.no_key]
     = Run [] [Request (month_cost_query BillingExamples.today)] (Ok (PStr "0.0", PStr "USD")).
Proof.
  split.
  - exact (get_month_cost_no_periods Scripted.respond BillingExamples.today
             [Ok BillingExamples.no_periods] [] BillingExamples.no_periods (PList [])
             eq_refl eq_refl eq_refl).
  - exact (get_month_cost_no_periods Scripted.respond BillingExamples.today
             [Ok BillingExamples.no_key] [] BillingExamples.no_key (PList [])
             eq_refl eq_refl eq_refl).
Defined.

(** ** The lifecycle controller *)

Section Lifecycle.

Context {St : Type}.
Variable respond : call -> St -> St * result pyval.

Lemma allocate_ec2_instance_request ami_id instance_type key_name security_group_ids
    subnet_id count name_tag s :
  trace (allocate_ec2_instance respond ami_id instance_type key_name security_group_ids
           subnet_id count name_tag s)
  = [Request (Api "ec2" "run_instances"
                (run_instances_params ami_id instance_type key_name security_group_ids
                   subnet_id count name_tag))].
Proof.
  unfold allocate_ec2_instance, bind, invoke, lift.
  destruct (respond _ s) as [s1 [resp | e]]; cbn; reflexivity.
Qed.

(** reading an entry off a dictionary built by successive assignments *)
Ltac lookup_assigned :=
  repeat match goal with
         | |- context [if ?b then _ else _] => destruct b
         end;
  repeat first [ rewrite lookup_insert_eq
               | rewrite lookup_insert_ne by discriminate
               | rewrite lookup_empty ];
  reflexivity.

(** The entries that are always there. *)
Lemma run_instances_params_required ami_id instance_type key_name security_group_ids
    subnet_id count name_tag :
  let params := run_instances_params ami_id instance_type key_name security_group_ids
                  subnet_id count name_tag in
  params !! "ImageId" = Some (PStr ami_id)
  /\ params !! "InstanceType" = Some (PStr instance_type)
  /\ params !! "MinCount" = Some (PInt count)
  /\ params !! "MaxCount" = Some (PInt count).
Proof.
  unfold run_instances_params. repeat split; lookup_assigned.
Qed.

(** An optional entry is there exactly when its argument is given and not
    empty, and then it holds the argument. *)
Lemma run_instances_params_optional ami_id instance_type key_name security_group_ids
    subnet_id count name_tag :
  let params := run_instances_params ami_id instance_type key_name security_group_ids
                  subnet_id count name_tag in
  params !! "KeyName" = (if given_str key_name then Some (str_of key_name) else None)
  /\ params !! "SecurityGroupIds"
     = (if given_list security_group_ids then Some (strs_of security_group_ids) else None)
  /\ params !! "SubnetId" = (if given_str subnet_id then Some (str_of subnet_id) else None)
  /\ params !! "TagSpecifications"
     = (if given_str name_tag
        then Some (PList [PDict [("ResourceType", PStr "instance");
                                 ("Tags", PList [PDict [("Key", PStr "Name");
                                                        ("Value", str_of name_tag)]])]])
        else None).
Proof.
  unfold run_instances_params. repeat split; lookup_assigned.
Qed.

(** C8. The one request of [allocate_ec2_instance] is [run_instances] with
    the dictionary [run_instances_params]; it always holds the image, the
    type and the count as both minimum and maximum, and for each of the key
    name, the security groups, the subnet and the name tag that is not
    provided it holds no entry at all. *)
Theorem allocate_ec2_instance_omits_absent_options ami_id instance_type key_name
    security_group_ids subnet_id count name_tag s :
  let params := run_instances_params ami_id instance_type key_name security_group_ids
                  subnet_id count name_tag in
  trace (allocate_ec2_instance respond ami_id instance_type key_name security_group_ids
           subnet_id count name_tag s)
  = [Request (Api "ec2" "run_instances" params)]
  /\ (params !! "ImageId" = Some (PStr ami_id)
      /\ params !! "InstanceType" = Some (PStr instance_type)
      /\ params !! "MinCount" = Some (PInt count)
      /\ params !! "MaxCount" = Some (PInt count))
  /\ (key_name = None -> params !! "KeyName" = None)
  /\ (security_group_ids = None -> params !! "SecurityGroupIds" = None)
  /\ (subnet_id = None -> params !! "SubnetId" = None)
  /\ (name_tag = None -> params !! "TagSpecifications" = None).
Proof.
  intros params.
  destruct (run_instances_params_optional ami_id instance_type key_name security_group_ids
              subnet_id count name_tag) as (Hkey & Hsgs & Hsubnet & Htag).
  split; [apply allocate_ec2_instance_request |].
  split; [apply run_instances_params_required |].
  repeat split; intros ->; assumption.
Qed.

End Lifecycle.

Lemma allocate_ec2_instance_omits_absent_options_witness :
  let params := run_instances_params "ami-1234" "t3.micro" None None None 2 None in
  trace (allocate_ec2_instance Scripted.respond "ami-1234" "t3.micro" None None None 2 None
           [Ok LifecycleExamples.launched])
  = [Request (Api "ec2" "run_instances" params)]
  /\ dom params = {["ImageId"; "InstanceType"; "MinCount"; "MaxCount"]}
  /\ params !! "KeyName" = None
  /\ params !! "SecurityGroupIds" = None
  /\ params !! "SubnetId" = None
  /\ params !! "TagSpecifications" = None.
Proof.
  intros params.
  destruct (allocate_ec2_instance_omits_absent_options Scripted.respond
              "ami-1234" "t3.micro" None None None 2 None [Ok LifecycleExamples.launched])
    as (Htrace & _ & Hkey & Hsgs & Hsubnet & Htag).
  split; [exact Htrace |].
  split; [vm_compute; reflexivity |].
  exact (conj (Hkey eq_refl) (conj (Hsgs eq_refl) (conj (Hsubnet eq_refl) (Htag eq_refl)))).
Defined.

(** *** Deallocating nothing *)

Section Deallocate.

Context {St : Type}.
Variable respond : call -> St -> St * result pyval.

(** [deallocate_ec2_instances] makes its one request whatever the list. *)
Lemma deallocate_ec2_instances_request instance_ids terminate s :
  trace (deallocate_ec2_instances respond instance_ids terminate s)
  = [Request (if terminate then terminate_instances instance_ids
              else stop_instances instance_ids)].
Proof.
  unfold deallocate_ec2_instances, bind, invoke, lift.
  destruct terminate; destruct (respond _ s) as [s1 [resp | e]]; reflexivity.
Qed.

(** C5, as the code has it.  With an empty list of identifiers nothing is
    checked locally: [deallocate_ec2_instances] makes exactly one request,
    [terminate_instances] when the flag is set and [stop_instances]
    otherwise, carrying the empty list, and an error of the provider for it
    comes out as it is. *)
Theorem deallocate_ec2_instances_empty_ids terminate s :
  trace (deallocate_ec2_instances respond [] terminate s)
  = [Request (if terminate then terminate_instances [] else stop_instances [])]
  /\ (forall s1 e,
        respond (if terminate then terminate_instances [] else stop_instances []) s
        = (s1, Raise e) ->
        deallocate_ec2_instances respond [] terminate s
        = Run s1 [Request (if terminate then terminate_instances [] else stop_instances [])]
              (Raise e)).
Proof.
  split; [apply deallocate_ec2_instances_request |].
  intros s1 e Hrefused.
  unfold deallocate_ec2_instances, bind, invoke, lift.
  destruct terminate; rewrite Hrefused; reflexivity.
Qed.

End Deallocate.

Lemma deallocate_ec2_instances_empty_ids_witness :
  trace (deallocate_ec2_instances Scripted.respond [] true [Raise DeallocateExamples.refused])
  = [Request (terminate_instances [])]
  /\ deallocate_ec2_instances Scripted.respond [] true [Raise DeallocateExamples.refused]
     = Run [] [Request (terminate_instances [])] (Raise DeallocateExamples.refused).
Proof.
  destruct (deallocate_ec2_instances_empty_ids Scripted.respond true
              [Raise DeallocateExamples.refused]) as [Htrace Hrefused].
  split; [exact Htrace | exact (Hrefused [] DeallocateExamples.refused eq_refl)].
Defined.

(** C5 as the specification has it fails: with an empty list and a provider
    that answers, the request is made and nothing is raised; and the
    command line reaches that call from [--instance-ids ","]. *)
Lemma deallocate_ec2_instances_empty_ids_counterexample :
  ~ rejected_before_provider
      (deallocate_ec2_instances Scripted.respond [] true
         [Ok LifecycleExamples.none_terminating])
  /\ deallocate_ec2_instances Scripted.respond [] true [Ok LifecycleExamples.none_terminating]
     = Run [] [Request (terminate_instances [])] (Ok [])
  /\ deallocate_ec2 Scripted.respond Rich.console "," false
       [Ok LifecycleExamples.none_terminating]
     = Run [] [Request (terminate_instances []); Print (Info "Instances terminated: ")]
           (Ok tt).
Proof.
  split; [| split].
  - intros [Hnone _]. vm_compute in Hnone. discriminate Hnone.
  - vm_compute. reflexivity.
  - vm_compute. reflexivity.
Qed.

(** ** The bucket listing *)

Section Buckets.

Context {St : Type}.
Variable respond : call -> St -> St * result pyval.

Lemma get1_field b k : is_dict b = true -> get1 b k = Ok (field b k).
Proof. destruct b; try discriminate. reflexivity. Qed.

(** One turn of the loop, for a bucket that is a dictionary and a lookup
    that is tolerated. *)
Lemma s3_bucket_record_tolerated b s s1 r :
  is_dict b = true ->
  respond (get_bucket_location (field b "Name")) s = (s1, r) ->
  tolerated r = true ->
  s3_bucket_record respond b s
  = Run s1 [Request (get_bucket_location (field b "Name"))]
        (Ok (bucket_entry b (region_of r))).
Proof.
  intros Hb Hlookup Htol.
  unfold s3_bucket_record. rewrite !(get1_field b _ Hb).
  unfold bind, try_except, invoke, lift, ret.
  cbn. rewrite Hlookup. cbn.
  destruct r as [answer | e]; cbn in *.
  - rewrite (get1_field answer _ Htol). reflexivity.
  - rewrite Htol. reflexivity.
Qed.

(** The loop, when every bucket is a dictionary and every lookup is
    tolerated: one record per bucket, in the order of the buckets. *)
Lemma s3_bucket_records_tolerated bs : forall s,
  Forall (fun b => is_dict b = true) bs ->
  Forall (fun r => tolerated r = true) (fst (region_lookups respond bs s)) ->
  for_append (s3_bucket_record respond) bs s
  = Run (snd (region_lookups respond bs s))
        (map (fun b => Request (get_bucket_location (field b "Name"))) bs)
        (Ok (zip_with bucket_entry bs (map region_of (fst (region_lookups respond bs s))))).
Proof.
  induction bs as [| b bs IH]; intros s Hbs Htol; [reflexivity |].
  apply Forall_cons in Hbs as [Hb Hbs].
  cbn [region_lookups] in *.
  destruct (respond (get_bucket_location (field b "Name")) s) as [s1 r] eqn:Hlookup.
  specialize (IH s1 Hbs).
  destruct (region_lookups respond bs s1) as [rs s2]. cbn [fst snd] in *.
  apply Forall_cons in Htol as [Hr Hrs].
  cbn [for_append].
  rewrite (bind_returned _ _ _ _ _ _ (s3_bucket_record_tolerated _ _ _ _ Hb Hlookup Hr)).
  rewrite (bind_returned _ _ _ _ _ _ (IH Hrs)).
  cbn. rewrite app_nil_r. reflexivity.
Qed.

(** The whole listing under the same conditions. *)
Lemma list_s3_buckets_tolerated s s0 resp buckets bs :
  respond list_buckets s = (s0, Ok resp) ->
  get resp "Buckets" (PList []) = Ok buckets ->
  iter buckets = Ok bs ->
  Forall (fun b => is_dict b = true) bs ->
  Forall (fun r => tolerated r = true) (fst (region_lookups respond bs s0)) ->
  list_s3_buckets respond s
  = Run (snd (region_lookups respond bs s0))
        (Request list_buckets
           :: map (fun b => Request (get_bucket_location (field b "Name"))) bs)
        (Ok (zip_with bucket_entry bs (map region_of (fst (region_lookups respond bs s0))))).
Proof.
  intros Hlist Hbuckets Hiter Hbs Htol.
  unfold list_s3_buckets, bind, invoke, lift. fold list_buckets.
  rewrite Hlist. cbn. rewrite Hbuckets. cbn. rewrite Hiter. cbn.
  rewrite (s3_bucket_records_tolerated _ _ Hbs Htol). reflexivity.
Qed.

Lemma region_lookups_length bs : forall s,
  length (fst (region_lookups respond bs s)) = length bs.
Proof.
  induction bs as [| b bs IH]; intros s; [reflexivity |].
  cbn [region_lookups].
  destruct (respond (get_bucket_location (field b "Name")) s) as [s1 r].
  specialize (IH s1). destruct (region_lookups respond bs s1) as [rs s2].
  cbn in *. congruence.
Qed.

(** Under those conditions the listing is returned, it has one record per
    bucket, and the record at each place is made of the bucket at that
    place and of the region read off its lookup. *)
Lemma list_s3_buckets_entries s s0 resp buckets bs :
  respond list_buckets s = (s0, Ok resp) ->
  get resp "Buckets" (PList []) = Ok buckets ->
  iter buckets = Ok bs ->
  Forall (fun b => is_dict b = true) bs ->
  Forall (fun r => tolerated r = true) (fst (region_lookups respond bs s0)) ->
  exists listing,
    value (list_s3_buckets respond s) = Ok listing
    /\ length listing = length bs
    /\ forall i b r,
         bs !! i = Some b ->
         fst (region_lookups respond bs s0) !! i = Some r ->
         listing !! i = Some (bucket_entry b (region_of r)).
Proof.
  intros Hlist Hbuckets Hiter Hbs Htol.
  rewrite (list_s3_buckets_tolerated _ _ _ _ _ Hlist Hbuckets Hiter Hbs Htol).
  eexists. split; [reflexivity |]. split.
  - rewrite length_zip_with, length_map, region_lookups_length. lia.
  - intros i b r Hb Hr.
    rewrite lookup_zip_with, Hb. cbn.
    change (map region_of ?l) with (region_of <$> l).
    rewrite list_lookup_fmap, Hr. reflexivity.
Qed.

(** C7. When the list of buckets is answered with dictionaries and every
    region lookup is tolerated, the listing is returned with one record per
    bucket, in order, and a bucket whose lookup raised (an error of the
    provider, as every tolerated failure is) has the record of its name and
    creation date with the region "unknown". *)
Theorem list_s3_buckets_unknown_region s s0 resp buckets bs :
  respond list_buckets s = (s0, Ok resp) ->
  get resp "Buckets" (PList []) = Ok buckets ->
  iter buckets = Ok bs ->
  Forall (fun b => is_dict b = true) bs ->
  Forall (fun r => tolerated r = true) (fst (region_lookups respond bs s0)) ->
  exists listing,
    value (list_s3_buckets respond s) = Ok listing
    /\ length listing = length bs
    /\ forall i b e,
         bs !! i = Some b ->
         fst (region_lookups respond bs s0) !! i = Some (Raise e) ->
         is_ClientError_or_BotoCoreError e = true
         /\ listing !! i = Some (bucket_entry b (PStr "unknown"))
         /\ get1 (bucket_entry b (PStr "unknown")) "Region" = Ok (PStr "unknown")
         /\ get1 (bucket_entry b (PStr "unknown")) "Name" = get1 b "Name".
Proof.
  intros Hlist Hbuckets Hiter Hbs Htol.
  destruct (list_s3_buckets_entries _ _ _ _ _ Hlist Hbuckets Hiter Hbs Htol)
    as (listing & Hvalue & Hlength & Hentries).
  exists listing. split; [exact Hvalue |]. split; [exact Hlength |].
  intros i b e Hb Hr. split; [| split; [| split]].
  - rewrite Forall_forall in Htol. apply (Htol (Raise e)).
    eapply list_elem_of_lookup_2. exact Hr.
  - exact (Hentries i b (Raise e) Hb Hr).
  - reflexivity.
  - rewrite Forall_forall in Hbs.
    rewrite (get1_field b "Name"); [reflexivity |].
    apply Hbs. eapply list_elem_of_lookup_2. exact Hb.
Qed.

(** C10. Under the same conditions, a bucket whose lookup is answered with
    no location constraint ([None], the empty string, or no such key) has
    its record with the region "us-east-1". *)
Theorem list_s3_buckets_default_region s s0 resp buckets bs :
  respond list_buckets s = (s0, Ok resp) ->
  get resp "Buckets" (PList []) = Ok buckets ->
  iter buckets = Ok bs ->
  Forall (fun b => is_dict b = true) bs ->
  Forall (fun r => tolerated r = true) (fst (region_lookups respond bs s0)) ->
  exists listing,
    value (list_s3_buckets respond s) = Ok listing
    /\ forall i b answer,
         bs !! i = Some b ->
         fst (region_lookups respond bs s0) !! i = Some (Ok answer) ->
         truthy (field answer "LocationConstraint") = false ->
         listing !! i = Some (bucket_entry b (PStr "us-east-1"))
         /\ get1 (bucket_entry b (PStr "us-east-1")) "Region" = Ok (PStr "us-east-1").
Proof.
  intros Hlist Hbuckets Hiter Hbs Htol.
  destruct (list_s3_buckets_entries _ _ _ _ _ Hlist Hbuckets Hiter Hbs Htol)
    as (listing & Hvalue & _ & Hentries).
  exists listing. split; [exact Hvalue |].
  intros i b answer Hb Hr Hnone. split; [| reflexivity].
  rewrite (Hentries i b (Ok answer) Hb Hr).
  unfold region_of, py_or. rewrite Hnone. reflexivity.
Qed.

End Buckets.

Lemma list_s3_buckets_unknown_region_witness :
  exists listing,
    value (list_s3_buckets Scripted.respond BucketExamples.script) = Ok listing
    /\ length listing = 3%nat
    /\ listing !! 0%nat = Some (bucket_entry BucketExamples.logs (PStr "unknown")).
Proof.
  destruct (list_s3_buckets_unknown_region Scripted.respond BucketExamples.script
              _ BucketExamples.listed _
              [BucketExamples.logs; BucketExamples.media; BucketExamples.backup]
              eq_refl eq_refl eq_refl)
    as (listing & Hvalue & Hlength & Hentries).
  - repeat constructor.
  - vm_compute. repeat constructor.
  - exists listing. split; [exact Hvalue |]. split; [exact Hlength |].
    exact (proj1 (proj2 (Hentries 0%nat BucketExamples.logs BucketExamples.forbidden
                           eq_refl eq_refl))).
Defined.

Lemma list_s3_buckets_default_region_witness :
  exists listing,
    value (list_s3_buckets Scripted.respond BucketExamples.script) = Ok listing
    /\ listing !! 1%nat = Some (bucket_entry BucketExamples.media (PStr "us-east-1")).
Proof.
  destruct (list_s3_buckets_default_region Scripted.respond BucketExamples.script
              _ BucketExamples.listed _
              [BucketExamples.logs; BucketExamples.media; BucketExamples.backup]
              eq_refl eq_refl eq_refl)
    as (listing & Hvalue & Hentries).
  - repeat constructor.
  - vm_compute. repeat constructor.
  - exists listing. split; [exact Hvalue |].
    exact (proj1 (Hentries 1%nat BucketExamples.media BucketExamples.default_region
                    eq_refl eq_refl eq_refl)).
Defined.

(** ** The listing of all resources *)

Section Inventory.

Context {St : Type}.
Variable respond : call -> St -> St * result pyval.

Lemma rbind_Ok {A B} (r : result A) (k : A -> result B) b :
  rbind r k = Ok b -> exists a, r = Ok a /\ k a = Ok b.
Proof. destruct r as [a | e]; [eauto | discriminate]. Qed.

Lemma rmap_Forall {A B} (f : A -> result B) (P : B -> Prop) :
  (forall a b, f a = Ok b -> P b) ->
  forall l out, rmap f l = Ok out -> Forall P out.
Proof.
  intros Hf. induction l as [| a l IH]; intros out Hout; cbn in Hout.
  - injection Hout as <-. constructor.
  - apply rbind_Ok in Hout as (b & Hb & Hout).
    apply rbind_Ok in Hout as (bs & Hbs & Hout).
    injection Hout as <-. constructor; eauto.
Qed.

Lemma rmap_returns {A B} (f : A -> result B) (P : A -> Prop) :
  (forall a, P a -> exists b, f a = Ok b) ->
  forall l, Forall P l -> exists out, rmap f l = Ok out /\ length out = length l.
Proof.
  intros Hf. induction l as [| a l IH]; intros Hl.
  - exists []. split; reflexivity.
  - apply Forall_cons in Hl as [Ha Hl].
    destruct (Hf a Ha) as [b Hb]. destruct (IH Hl) as (bs & Hbs & Hlen).
    exists (b :: bs). cbn. rewrite Hb. cbn. rewrite Hbs. cbn.
    split; [reflexivity | congruence].
Qed.

(** *** Each fetch begins with the listing request of its kind *)

Lemma list_ec2_instances_trace s :
  trace (list_ec2_instances respond s) = [Request describe_instances].
Proof.
  unfold list_ec2_instances, bind, invoke, lift. fold describe_instances.
  destruct (respond describe_instances s) as [s1 [resp | e]]; reflexivity.
Qed.

Lemma list_s3_buckets_trace s :
  exists lookups, trace (list_s3_buckets respond s) = Request list_buckets :: lookups.
Proof.
  unfold list_s3_buckets, bind, invoke, lift. fold list_buckets.
  destruct (respond list_buckets s) as [s1 [resp | e]]; cbn; [| eauto].
  destruct (get resp "Buckets" (PList [])) as [buckets | e]; cbn; [| eauto].
  destruct (iter buckets) as [bs | e]; cbn; eauto.
Qed.

Lemma list_rds_instances_trace s :
  trace (list_rds_instances respond s) = [Request describe_db_instances].
Proof.
  unfold list_rds_instances, bind, invoke, lift. fold describe_db_instances.
  destruct (respond describe_db_instances s) as [s1 [resp | e]]; reflexivity.
Qed.

Lemma list_lambda_functions_trace s :
  trace (list_lambda_functions respond s) = [Request list_functions].
Proof.
  unfold list_lambda_functions, bind, invoke, lift. fold list_functions.
  destruct (respond list_functions s) as [s1 [resp | e]]; reflexivity.
Qed.

(** *** What a fetch returns is a list of dictionaries *)

Ltac open_rbinds H :=
  repeat match type of H with
         | rbind _ _ = Ok _ => apply rbind_Ok in H as (? & _ & H); cbv beta in H
         end.

Lemma s3_bucket_record_dict b s rec :
  value (s3_bucket_record respond b s) = Ok rec -> is_dict rec = true.
Proof.
  unfold s3_bucket_record. intros H.
  apply bind_value_Ok in H as (name & _ & H).
  apply bind_value_Ok in H as (loc & _ & H).
  apply bind_value_Ok in H as (created & _ & H).
  injection H as <-. reflexivity.
Qed.

Lemma for_append_Forall {A} (body : pyval -> M St A) (P : A -> Prop) :
  (forall b s a, value (body b s) = Ok a -> P a) ->
  forall l s out, value (for_append body l s) = Ok out -> Forall P out.
Proof.
  intros Hbody. induction l as [| b l IH]; intros s out; cbn [for_append].
  - intros [= <-]. constructor.
  - unfold bind at 1. destruct (body b s) as [s1 t [a | e]] eqn:Hb; cbn; [| discriminate].
    unfold bind at 1. destruct (for_append body l s1) as [s2 t' [rest | e]] eqn:Hrest;
      cbn; [| discriminate].
    intros [= <-]. constructor.
    + apply (Hbody b s). rewrite Hb. reflexivity.
    + apply (IH s1). rewrite Hrest. reflexivity.
Qed.

Lemma list_s3_buckets_dicts s recs :
  value (list_s3_buckets respond s) = Ok recs -> Forall (fun r => is_dict r = true) recs.
Proof.
  unfold list_s3_buckets, bind, invoke, lift.
  destruct (respond _ s) as [s1 [resp | e]]; cbn; [| discriminate].
  destruct (get resp "Buckets" (PList [])) as [buckets | e]; cbn; [| discriminate].
  destruct (iter buckets) as [bs | e]; cbn; [| discriminate].
  apply for_append_Forall. apply s3_bucket_record_dict.
Qed.

Lemma ec2_instance_record_dict inst rec :
  ec2_instance_record inst = Ok rec -> is_dict rec = true.
Proof.
  unfold ec2_instance_record. intros H. open_rbinds H. injection H as <-. reflexivity.
Qed.

Lemma Forall_concat {A} (P : A -> Prop) (ls : list (list A)) :
  Forall (Forall P) ls -> Forall P (concat ls).
Proof.
  induction 1 as [| l ls Hl _ IH]; cbn; [constructor |].
  apply Forall_app. split; assumption.
Qed.

Lemma list_ec2_instances_dicts s recs :
  value (list_ec2_instances respond s) = Ok recs -> Forall (fun r => is_dict r = true) recs.
Proof.
  unfold list_ec2_instances, bind, invoke, lift.
  destruct (respond _ s) as [s1 [resp | e]]; cbn; [| discriminate].
  intros H.
  apply rbind_Ok in H as (reservations & _ & H).
  apply rbind_Ok in H as (rs & _ & H).
  apply rbind_Ok in H as (per_reservation & Hper & H). injection H as <-.
  apply Forall_concat.
  refine (rmap_Forall _ _ _ _ _ Hper). intros res out Hres.
  unfold ec2_reservation_records in Hres.
  apply rbind_Ok in Hres as (insts & _ & Hres).
  apply rbind_Ok in Hres as (instances & _ & Hres).
  exact (rmap_Forall _ _ ec2_instance_record_dict _ _ Hres).
Qed.

Lemma rds_instance_record_dict db rec :
  rds_instance_record db = Ok rec -> is_dict rec = true.
Proof.
  unfold rds_instance_record. intros H. open_rbinds H. injection H as <-. reflexivity.
Qed.

Lemma list_rds_instances_dicts s recs :
  value (list_rds_instances respond s) = Ok recs -> Forall (fun r => is_dict r = true) recs.
Proof.
  unfold list_rds_instances, bind, invoke, lift.
  destruct (respond _ s) as [s1 [resp | e]]; cbn; [| discriminate].
  intros H.
  apply rbind_Ok in H as (dbs & _ & H).
  apply rbind_Ok in H as (ds & _ & H).
  exact (rmap_Forall _ _ rds_instance_record_dict _ _ H).
Qed.

Lemma lambda_function_record_dict fn rec :
  lambda_function_record fn = Ok rec -> is_dict rec = true.
Proof.
  unfold lambda_function_record. intros H. open_rbinds H. injection H as <-. reflexivity.
Qed.

Lemma list_lambda_functions_dicts s recs :
  value (list_lambda_functions respond s) = Ok recs ->
  Forall (fun r => is_dict r = true) recs.
Proof.
  unfold list_lambda_functions, bind, invoke, lift.
  destruct (respond _ s) as [s1 [pages | e]]; cbn; [| discriminate].
  intros H.
  apply rbind_Ok in H as (ps & _ & H).
  apply rbind_Ok in H as (per_page & Hper & H). injection H as <-.
  apply Forall_concat.
  refine (rmap_Forall _ _ _ _ _ Hper). intros page out Hpage.
  unfold lambda_page_records in Hpage.
  apply rbind_Ok in Hpage as (fns & _ & Hpage).
  apply rbind_Ok in Hpage as (fs & _ & Hpage).
  exact (rmap_Forall _ _ lambda_function_record_dict _ _ Hpage).
Qed.

(** *** Laying out the rows of what a fetch returned never fails, but for
    a compute instance whose state cannot be looked up in a set *)

Lemma ec2_table_rows_returned recs :
  Forall (fun r => is_dict r = true) recs ->
  Forall (fun r => hashable (field r "State") = true) recs ->
  ec2_table_rows recs = Ok (map ec2_table_row (List.filter shown recs)).
Proof.
  induction 1 as [| rec recs Hdict _ IH]; intros Hhash; [reflexivity |].
  apply Forall_cons in Hhash as [Hstate Hhash].
  cbn [ec2_table_rows List.filter].
  rewrite !(get1_field rec _ Hdict). cbn [rbind].
  unfold in_str_set. rewrite Hstate. cbn [rbind]. fold (shown rec).
  destruct (shown rec); [| exact (IH Hhash)].
  rewrite (IH Hhash). reflexivity.
Qed.

Lemma requests_app t1 t2 : requests (t1 ++ t2) = (requests t1 ++ requests t2)%list.
Proof. unfold requests. apply omap_app. Qed.

End Inventory.

(** ** The command [resources list] *)

Section ResourceListing.

Context {St : Type}.
Variable respond : call -> St -> St * result pyval.
Variable console : renderable -> option exn.

(** *** One [try] statement of [list_resources] *)

Lemma print_run {S : Type} o (s : S) :
  print console o s = Run s (fst (printing console o)) (snd (printing console o)).
Proof. unfold print, printing. destruct (console (rendered o)); reflexivity. Qed.

(** Whatever the fetch does, the statement leaves the fetch's requests and
    the kind's report, the variable is set when the kind has rows, and the
    statement raises only what printing the warning raised. *)
Lemma block_run (fetch : M St (list pyval)) rows_of label title columns color s any :
  let rows := rbind (value (fetch s)) rows_of in
  block console fetch rows_of label title columns color (s, any)
  = Run (final (fetch s), any || shows_table rows)
        (trace (fetch s) ++ fst (report console label title columns color rows))
        (snd (report console label title columns color rows)).
Proof.
  unfold block, try_except, bind, outside, lift, assign, ret, is_Exception, report, warning.
  cbv zeta. cbn [fst snd].
  destruct (fetch s) as [s1 t [fetched | e]]; cbn [value final trace fst snd rbind].
  - destruct (rows_of fetched) as [[| row rows] | e];
      cbn [value final trace fst snd rbind nonempty shows_table app].
    + rewrite !app_nil_r, orb_false_r. reflexivity.
    + rewrite print_run, orb_true_r. unfold printing.
      destruct (console (rendered (Table title columns (row :: rows) color))) as [e |];
        cbn [value final trace fst snd app]; rewrite ?app_nil_r; [| reflexivity].
      rewrite print_run. unfold printing.
      destruct (console (rendered (Warn (label +:+ ": " +:+ exn_str e)))); reflexivity.
    + rewrite print_run, !app_nil_r, orb_false_r. reflexivity.
  - rewrite print_run, orb_false_r. reflexivity.
Qed.

(** [list_resources] is its header, the four statements, and the closing
    line. *)
Lemma list_resources_blocks color :
  list_resources respond console color
  = with_local false
      (bind (print console (Header "Active Resources" color)) (fun _ =>
       bind (assign false) (fun _ =>
       bind (block console (list_ec2_instances respond) ec2_table_rows
               "EC2" "EC2 Instances" ec2_columns color) (fun _ =>
       bind (block console (list_s3_buckets respond) (rmap s3_table_row)
               "S3" "S3 Buckets" s3_columns color) (fun _ =>
       bind (block console (list_rds_instances respond) (rmap rds_table_row)
               "RDS" "RDS Instances" rds_columns color) (fun _ =>
       bind (block console (list_lambda_functions respond) (rmap lambda_table_row)
               "Lambda" "Lambda Functions" lambda_columns color) (fun _ =>
       bind read (fun any_resources =>
       if negb any_resources then print console (Info "No resource is allocated")
       else ret tt)))))))).
Proof. reflexivity. Qed.

Lemma bind_flat {S A B} (m : M S A) (k : A -> M S B) s s1 t a s2 t2 v :
  m s = Run s1 t (Ok a) -> k a s1 = Run s2 t2 v -> bind m k s = Run s2 (t ++ t2) v.
Proof. intros Hm Hk. unfold bind. rewrite Hm. cbn [value final trace]. rewrite Hk. reflexivity. Qed.

Lemma bind_raised {S A B} (m : M S A) (k : A -> M S B) s s1 t e :
  m s = Run s1 t (Raise e) -> bind m k s = Run s1 t (Raise e).
Proof. intros Hm. unfold bind. rewrite Hm. reflexivity. Qed.

(** *** Laying out the rows of the records of a fetch *)

Lemma rmap_dicts (f : pyval -> result (list pyval)) (g : pyval -> list pyval) recs :
  (forall r, is_dict r = true -> f r = Ok (g r)) ->
  Forall (fun r => is_dict r = true) recs ->
  rmap f recs = Ok (map g recs).
Proof.
  intros Hf. induction 1 as [| r recs Hr _ IH]; [reflexivity |].
  cbn [rmap map]. rewrite (Hf r Hr). cbn [rbind]. rewrite IH. reflexivity.
Qed.

Lemma s3_table_rows_returned recs :
  Forall (fun r => is_dict r = true) recs ->
  rmap s3_table_row recs = Ok (map s3_row recs).
Proof. apply rmap_dicts. intros [] Hr; try discriminate. reflexivity. Qed.

Lemma rds_table_rows_returned recs :
  Forall (fun r => is_dict r = true) recs ->
  rmap rds_table_row recs = Ok (map rds_record_row recs).
Proof. apply rmap_dicts. intros [] Hr; try discriminate. reflexivity. Qed.

Lemma lambda_table_rows_returned recs :
  Forall (fun r => is_dict r = true) recs ->
  rmap lambda_table_row recs = Ok (map lambda_row recs).
Proof. apply rmap_dicts. intros [] Hr; try discriminate. reflexivity. Qed.

(** *** On a console that renders what it is handed *)

Lemma print_rendered {S : Type} o (s : S) :
  renders_all console -> print console o s = Run s [Print o] (Ok tt).
Proof. intros Hall. unfold print. rewrite Hall. reflexivity. Qed.

Lemma report_rendered label title columns color rows :
  renders_all console ->
  report console label title columns color rows
  = (lines label title columns color rows, Ok tt).
Proof.
  intros Hall. unfold report, printing, lines.
  destruct rows as [[| row rows] | e]; rewrite ?Hall; reflexivity.
Qed.

Lemma block_rendered (fetch : M St (list pyval)) rows_of label title columns color s any :
  renders_all console ->
  block console fetch rows_of label title columns color (s, any)
  = Run (final (fetch s), any || shows_table (rbind (value (fetch s)) rows_of))
        (trace (fetch s) ++ lines label title columns color (rbind (value (fetch s)) rows_of))
        (Ok tt).
Proof.
  intros Hall. pose proof (block_run fetch rows_of label title columns color s any) as Hrun.
  cbv zeta in Hrun. rewrite Hrun, (report_rendered _ _ _ _ _ Hall). reflexivity.
Qed.

Lemma requests_lines label title columns color rows :
  requests (lines label title columns color rows) = [].
Proof. destruct rows as [[| row rows] | e]; reflexivity. Qed.

Lemma closing_rendered (s : St) any :
  renders_all console ->
  bind read (fun any_resources : bool =>
               if negb any_resources then print console (Info "No resource is allocated")
               else ret tt) (s, any)
  = Run (s, any) (if any then [] else [Print (Info "No resource is allocated")]) (Ok tt).
Proof.
  intros Hall. unfold bind, read. cbn [value final trace snd].
  destruct any; cbn [negb]; [reflexivity |].
  rewrite (print_rendered _ _ Hall). reflexivity.
Qed.

(** The whole command, in terms of the four fetches made one after the
    other. *)
Lemma list_resources_run color s :
  renders_all console ->
  let ec2 := list_ec2_instances respond s in
  let s3 := list_s3_buckets respond (final ec2) in
  let rds := list_rds_instances respond (final s3) in
  let lam := list_lambda_functions respond (final rds) in
  let ec2_rows := rbind (value ec2) ec2_table_rows in
  let s3_rows := rbind (value s3) (rmap s3_table_row) in
  let rds_rows := rbind (value rds) (rmap rds_table_row) in
  let lam_rows := rbind (value lam) (rmap lambda_table_row) in
  list_resources respond console color s
  = Run (final lam)
        (Print (Header "Active Resources" color)
           :: (trace ec2 ++ lines "EC2" "EC2 Instances" ec2_columns color ec2_rows)
           ++ (trace s3 ++ lines "S3" "S3 Buckets" s3_columns color s3_rows)
           ++ (trace rds ++ lines "RDS" "RDS Instances" rds_columns color rds_rows)
           ++ (trace lam ++ lines "Lambda" "Lambda Functions" lambda_columns color lam_rows)
           ++ (if shows_table ec2_rows || shows_table s3_rows
                  || shows_table rds_rows || shows_table lam_rows
               then []
               else [Print (Info "No resource is allocated")]))
        (Ok tt).
Proof.
  intros Hall ec2 s3 rds lam ec2_rows s3_rows rds_rows lam_rows.
  rewrite list_resources_blocks. unfold with_local.
  erewrite bind_flat;
    [ | apply (print_rendered _ _ Hall)
      | eapply bind_flat; [reflexivity |];
        eapply bind_flat; [apply (block_rendered _ _ _ _ _ _ _ _ Hall) |];
        eapply bind_flat; [apply (block_rendered _ _ _ _ _ _ _ _ Hall) |];
        eapply bind_flat; [apply (block_rendered _ _ _ _ _ _ _ _ Hall) |];
        eapply bind_flat; [apply (block_rendered _ _ _ _ _ _ _ _ Hall) |];
        apply (closing_rendered _ _ Hall) ].
  cbn [final trace value fst]. fold ec2 ec2_rows s3 s3_rows rds rds_rows lam lam_rows.
  cbn [orb app].
  destruct (shows_table ec2_rows || shows_table s3_rows
            || shows_table rds_rows || shows_table lam_rows);
    rewrite <- ?app_assoc; reflexivity.
Qed.

(** When the console renders what it is handed, [list_resources] returns.
    It runs the four fetches one after the other whatever the earlier ones
    did, so the listing request of each kind is made; a kind whose fetch
    raised leaves one warning with its label and the text of the exception;
    a kind whose fetch returned records has its table printed, with one row
    per record holding the record's fields in the order of the columns (for
    compute instances: of those in a shown state, when their states are
    values a set can hold). *)
Lemma list_resources_rendered color s :
  renders_all console ->
  let ec2 := list_ec2_instances respond s in
  let s3 := list_s3_buckets respond (final ec2) in
  let rds := list_rds_instances respond (final s3) in
  let lam := list_lambda_functions respond (final rds) in
  let listing := list_resources respond console color s in
  (value listing = Ok tt /\ final listing = final lam)
  /\ (requests (trace listing)
      = (requests (trace ec2) ++ requests (trace s3)
           ++ requests (trace rds) ++ requests (trace lam))%list
      /\ describe_instances ∈ requests (trace listing)
      /\ list_buckets ∈ requests (trace listing)
      /\ describe_db_instances ∈ requests (trace listing)
      /\ list_functions ∈ requests (trace listing))
  /\ ((forall e, value ec2 = Raise e ->
         Print (Warn ("EC2: " +:+ exn_str e)) ∈ trace listing)
      /\ (forall e, value s3 = Raise e ->
            Print (Warn ("S3: " +:+ exn_str e)) ∈ trace listing)
      /\ (forall e, value rds = Raise e ->
            Print (Warn ("RDS: " +:+ exn_str e)) ∈ trace listing)
      /\ (forall e, value lam = Raise e ->
            Print (Warn ("Lambda: " +:+ exn_str e)) ∈ trace listing))
  /\ ((forall recs, value ec2 = Ok recs ->
         Forall (fun r => hashable (field r "State") = true) recs ->
         List.filter shown recs <> [] ->
         Print (Table "EC2 Instances" ec2_columns
                  (map ec2_table_row (List.filter shown recs)) color) ∈ trace listing)
      /\ (forall recs, value s3 = Ok recs -> recs <> [] ->
            Print (Table "S3 Buckets" s3_columns (map s3_row recs) color) ∈ trace listing)
      /\ (forall recs, value rds = Ok recs -> recs <> [] ->
            Print (Table "RDS Instances" rds_columns (map rds_record_row recs) color)
              ∈ trace listing)
      /\ (forall recs, value lam = Ok recs -> recs <> [] ->
            Print (Table "Lambda Functions" lambda_columns (map lambda_row recs) color)
              ∈ trace listing)).
Proof.
  intros Hall ec2 s3 rds lam listing.
  pose proof (list_resources_run color s Hall) as Hrun. cbv zeta in Hrun.
  fold ec2 s3 rds lam listing in Hrun.
  assert (Hrequests :
            requests (trace listing)
            = (requests (trace ec2) ++ requests (trace s3)
                 ++ requests (trace rds) ++ requests (trace lam))%list).
  { rewrite Hrun. cbn [trace]. change (Print ?o :: ?t) with ([Print o] ++ t)%list.
    rewrite !requests_app, !requests_lines.
    destruct (_ || _); cbn; rewrite ?app_nil_r; reflexivity. }
  split; [rewrite Hrun; split; reflexivity |].
  split.
  { split; [exact Hrequests |]. rewrite Hrequests.
    unfold ec2, rds, lam.
    rewrite list_ec2_instances_trace, list_rds_instances_trace, list_lambda_functions_trace.
    destruct (list_s3_buckets_trace respond (final ec2)) as [lookups Hs3].
    fold s3 in Hs3. rewrite Hs3. cbn.
    repeat split; set_solver. }
  split.
  { repeat split; intros e He; rewrite Hrun; cbn [trace]; rewrite He;
      cbn [rbind lines warning]; set_solver. }
  repeat split.
  - intros recs Hrecs Hhash Hshown. rewrite Hrun. cbn [trace]. rewrite Hrecs. cbn [rbind].
    rewrite (ec2_table_rows_returned recs (list_ec2_instances_dicts _ _ _ Hrecs) Hhash).
    destruct (List.filter shown recs) as [| rec shown_recs]; [contradiction |].
    cbn [map lines]. set_solver.
  - intros recs Hrecs Hsome.
    rewrite Hrun. cbn [trace]. rewrite Hrecs. cbn [rbind].
    rewrite (s3_table_rows_returned recs (list_s3_buckets_dicts _ _ _ Hrecs)).
    destruct recs as [| rec recs]; [contradiction |]. cbn [map lines]. set_solver.
  - intros recs Hrecs Hsome.
    rewrite Hrun. cbn [trace]. rewrite Hrecs. cbn [rbind].
    rewrite (rds_table_rows_returned recs (list_rds_instances_dicts _ _ _ Hrecs)).
    destruct recs as [| rec recs]; [contradiction |]. cbn [map lines]. set_solver.
  - intros recs Hrecs Hsome.
    rewrite Hrun. cbn [trace]. rewrite Hrecs. cbn [rbind].
    rewrite (lambda_table_rows_returned recs (list_lambda_functions_dicts _ _ _ Hrecs)).
    destruct recs as [| rec recs]; [contradiction |]. cbn [map lines]. set_solver.
Qed.

(** C9. [list_resources] does not always live through a failing kind.  The
    warning for the kind is handed to rich as console markup with the text
    of the exception in it; when rich raises on it, as it does for a text
    that holds a closing tag, the exception leaves the handler and the
    command: here for compute instances, the first kind, after whose
    failure no other kind is asked for and nothing more is printed. *)
Theorem list_resources_warning_markup color s e err :
  console (rendered (Header "Active Resources" color)) = None ->
  value (list_ec2_instances respond s) = Raise e ->
  console (rendered (Warn ("EC2: " +:+ exn_str e))) = Some err ->
  let listing := list_resources respond console color s in
  listing
  = Run (final (list_ec2_instances respond s))
        [Print (Header "Active Resources" color); Request describe_instances]
        (Raise err)
  /\ (list_buckets ∉ requests (trace listing))
  /\ (describe_db_instances ∉ requests (trace listing))
  /\ (list_functions ∉ requests (trace listing)).
Proof.
  intros Hheader Hfetch Hwarning listing.
  assert (Hrun : listing
                 = Run (final (list_ec2_instances respond s))
                       [Print (Header "Active Resources" color); Request describe_instances]
                       (Raise err)).
  { unfold listing. rewrite list_resources_blocks. unfold with_local.
    pose proof (block_run (list_ec2_instances respond) ec2_table_rows
                  "EC2" "EC2 Instances" ec2_columns color s false) as Hblock.
    cbv zeta in Hblock. rewrite Hfetch in Hblock. cbn [rbind report] in Hblock.
    unfold printing, warning in Hblock.
    change ("EC2" +:+ ": " +:+ exn_str e) with ("EC2: " +:+ exn_str e) in Hblock.
    rewrite Hwarning in Hblock.
    cbn [fst snd shows_table orb] in Hblock.
    rewrite list_ec2_instances_trace, app_nil_r in Hblock.
    erewrite bind_flat;
      [ | rewrite print_run; unfold printing; rewrite Hheader; reflexivity
        | eapply bind_flat; [reflexivity |];
          apply bind_raised; exact Hblock ].
    reflexivity. }
  split; [exact Hrun |]. rewrite Hrun. cbn.
  repeat split; intros [H | H]%elem_of_cons; solve [discriminate H | inversion H].
Qed.

End ResourceListing.

Lemma list_resources_warning_markup_witness :
  list_resources Scripted.respond Rich.console "cyan"
    [Raise InventoryExamples.bad_region; Ok BucketExamples.listed]
  = Run [Ok BucketExamples.listed]
        [Print (Header "Active Resources" "cyan"); Request describe_instances]
        (Raise (Exn MarkupError
                  "closing tag '[/x]' at position 56 doesn't match any open tag")).
Proof.
  refine (proj1 (list_resources_warning_markup Scripted.respond Rich.console "cyan"
                   [Raise InventoryExamples.bad_region; Ok BucketExamples.listed]
                   InventoryExamples.bad_region
                   (Exn MarkupError
                      "closing tag '[/x]' at position 56 doesn't match any open tag")
                   _ _ _)); vm_compute; reflexivity.
Defined.

(** ** The usage ranking *)

(** *** Sorting by a key, for a comparison that is a strict weak order *)

Section Sorting.

Context {A K : Type}.
Variable lt : K -> K -> bool.
Variable key : A -> K.

Hypothesis lt_irreflexive : forall a, lt a a = false.
Hypothesis lt_transitive : forall a b c, lt a b = true -> lt b c = true -> lt a c = true.
Hypothesis not_lt_transitive :
  forall a b c, lt a b = false -> lt b c = false -> lt a c = false.

(** [x] may stand before [y] in ascending order *)
Let ascending (x y : A) : Prop := lt (key y) (key x) = false.

(** [x] may stand before [y] in descending order *)
Let descending (x y : A) : Prop := lt (key x) (key y) = false.

(** the key of [x] ties with [k] *)
Let ties (k : K) (x : A) : bool := negb (lt (key x) k) && negb (lt k (key x)).

Lemma lt_asymmetric a b : lt a b = true -> lt b a = false.
Proof.
  intros Hab. destruct (lt b a) eqn:Hba; [| reflexivity].
  rewrite <- (lt_irreflexive a). symmetry. exact (lt_transitive _ _ _ Hab Hba).
Qed.

Lemma insert_by_Permutation x l : Permutation (insert_by lt key x l) (x :: l).
Proof.
  induction l as [| y l IH]; cbn; [reflexivity |].
  destruct (lt (key y) (key x)); [| reflexivity].
  rewrite IH. apply perm_swap.
Qed.

Lemma sort_by_Permutation l : Permutation (sort_by lt key l) l.
Proof.
  induction l as [| x l IH]; cbn; [reflexivity |].
  rewrite insert_by_Permutation. constructor. exact IH.
Qed.

Lemma sort_by_reverse_Permutation l : Permutation (sort_by_reverse lt key l) l.
Proof.
  unfold sort_by_reverse.
  rewrite <- Permutation_rev, sort_by_Permutation, <- Permutation_rev. reflexivity.
Qed.

Lemma insert_by_sorted x l :
  StronglySorted ascending l -> StronglySorted ascending (insert_by lt key x l).
Proof.
  induction 1 as [| y l Hsorted IH Hy]; cbn; [repeat constructor |].
  destruct (lt (key y) (key x)) eqn:Hyx.
  - constructor; [exact IH |].
    rewrite insert_by_Permutation. constructor; [| exact Hy].
    exact (lt_asymmetric _ _ Hyx).
  - constructor; [constructor; assumption |].
    constructor; [exact Hyx |].
    eapply List.Forall_impl; [| exact Hy]. intros z Hz.
    exact (not_lt_transitive _ _ _ Hz Hyx).
Qed.

Lemma sort_by_sorted l : StronglySorted ascending (sort_by lt key l).
Proof.
  induction l as [| x l IH]; cbn; [constructor |].
  apply insert_by_sorted. exact IH.
Qed.

Lemma StronglySorted_app_inv (R : A -> A -> Prop) l1 l2 :
  StronglySorted R l1 -> StronglySorted R l2 ->
  (forall x y, In x l1 -> In y l2 -> R x y) ->
  StronglySorted R (l1 ++ l2).
Proof.
  induction 1 as [| x l1 Hl1 IH Hx]; intros Hl2 Hcross; cbn; [exact Hl2 |].
  constructor.
  - apply IH; [exact Hl2 |]. intros a b Ha Hb. apply Hcross; [right |]; assumption.
  - apply Forall_app. split; [exact Hx |].
    apply List.Forall_forall. intros b Hb. apply Hcross; [left; reflexivity | exact Hb].
Qed.

Lemma StronglySorted_rev (R : A -> A -> Prop) l :
  StronglySorted R l -> StronglySorted (fun x y => R y x) (rev l).
Proof.
  induction 1 as [| x l Hl IH Hx]; cbn; [constructor |].
  apply StronglySorted_app_inv; [exact IH | repeat constructor |].
  intros a b Ha [<- | []].
  rewrite List.Forall_forall in Hx. apply Hx. apply in_rev. exact Ha.
Qed.

(** In the order [list.sort(reverse=True)] leaves, no element has a key
    below the key of an element after it. *)
Lemma sort_by_reverse_sorted l : StronglySorted descending (sort_by_reverse lt key l).
Proof.
  unfold sort_by_reverse.
  exact (StronglySorted_rev _ _ (sort_by_sorted (rev l))).
Qed.

Lemma filter_rev (P : A -> bool) l : List.filter P (rev l) = rev (List.filter P l).
Proof.
  induction l as [| x l IH]; cbn; [reflexivity |].
  rewrite List.filter_app, IH. cbn. destruct (P x); cbn; [reflexivity |].
  apply app_nil_r.
Qed.

Lemma ties_apart k x y : lt (key y) (key x) = true -> ties k x && ties k y = false.
Proof.
  intros Hyx. unfold ties.
  destruct (lt (key x) k) eqn:Hxk; [reflexivity |].
  destruct (lt k (key x)) eqn:Hkx; [reflexivity |].
  destruct (lt (key y) k) eqn:Hyk; [reflexivity |].
  destruct (lt k (key y)) eqn:Hky; [apply andb_false_r |].
  (* y ties with k and k ties with x, so y is not below x *)
  rewrite (not_lt_transitive _ _ _ Hyk Hkx) in Hyx. discriminate.
Qed.

Lemma insert_by_stable k x l :
  List.filter (ties k) (insert_by lt key x l) = List.filter (ties k) (x :: l).
Proof.
  induction l as [| y l IH]; [reflexivity |].
  cbn [insert_by]. destruct (lt (key y) (key x)) eqn:Hyx; [| reflexivity].
  pose proof (ties_apart k x y Hyx) as Hapart.
  cbn [List.filter] in *. rewrite IH.
  destruct (ties k x), (ties k y); try reflexivity. discriminate.
Qed.

Lemma sort_by_stable k l :
  List.filter (ties k) (sort_by lt key l) = List.filter (ties k) l.
Proof.
  induction l as [| x l IH]; [reflexivity |].
  cbn [sort_by foldr]. fold (sort_by lt key l).
  rewrite insert_by_stable. cbn [List.filter]. rewrite IH. reflexivity.
Qed.

(** The elements that tie on a key keep the order they came in. *)
Lemma sort_by_reverse_stable k l :
  List.filter (ties k) (sort_by_reverse lt key l) = List.filter (ties k) l.
Proof.
  unfold sort_by_reverse.
  rewrite filter_rev, sort_by_stable, filter_rev. apply rev_involutive.
Qed.

End Sorting.

(** *** Taking the first rows *)

Section Slicing.

Context {A : Type}.

Lemma slice_to_nonnegative (n : Z) (l : list A) :
  0 <= n -> slice_to n l = firstn (Z.to_nat n) l.
Proof. intros Hn. unfold slice_to. rewrite (proj2 (Z.leb_le 0 n) Hn). reflexivity. Qed.

Lemma slice_to_zero (l : list A) : slice_to 0 l = [].
Proof. reflexivity. Qed.

Lemma slice_to_all (n : Z) (l : list A) :
  Z.of_nat (length l) <= n -> slice_to n l = l.
Proof.
  intros Hn. rewrite slice_to_nonnegative by lia.
  apply firstn_all2. lia.
Qed.

(** A negative bound counts from the end: that many rows are dropped from
    the tail and the others are kept. *)
Lemma slice_to_negative (n : Z) (l : list A) :
  n < 0 -> slice_to n l = firstn (length l - Z.to_nat (- n)) l.
Proof.
  intros Hn. unfold slice_to. rewrite (proj2 (Z.leb_gt 0 n) Hn). reflexivity.
Qed.

Lemma slice_to_negative_length (n : Z) (l : list A) :
  n < 0 -> length (slice_to n l) = (length l - Z.to_nat (- n))%nat.
Proof.
  intros Hn. rewrite slice_to_negative by exact Hn.
  rewrite length_firstn. lia.
Qed.

End Slicing.

(** *** [get_top_usage] *)

Section TopUsage.

Context {St : Type}.
Variable respond : call -> St -> St * result pyval.
Variable today : date.
Variable fm : float_model.

(** What [get_top_usage] returns once the query is answered with groups
    whose amounts can be read. *)
Lemma get_top_usage_rows top_n s s1 resp periods first groups gs rows :
  respond (top_usage_query today) s = (s1, Ok resp) ->
  get resp "ResultsByTime" (PList [PDict []]) = Ok periods ->
  item0 periods = Ok first ->
  get first "Groups" (PList []) = Ok groups ->
  iter groups = Ok gs ->
  rmap (usage_group_row fm) gs = Ok rows ->
  get_top_usage respond today fm top_n s
  = Run s1 [Request (top_usage_query today)]
        (Ok (slice_to top_n (sort_by_reverse (float_lt fm) usage_amount rows))).
Proof.
  intros Hquery Hperiods Hfirst Hgroups Hiter Hrows.
  unfold get_top_usage, bind, invoke, lift.
  rewrite Hquery. cbn [value final trace].
  rewrite Hperiods. cbn [rbind]. rewrite Hfirst. cbn [rbind].
  rewrite Hgroups. cbn [rbind]. rewrite Hiter. cbn [rbind].
  rewrite Hrows. reflexivity.
Qed.

Hypothesis lt_irreflexive : forall a, float_lt fm a a = false.
Hypothesis lt_transitive :
  forall a b c, float_lt fm a b = true -> float_lt fm b c = true -> float_lt fm a c = true.
Hypothesis not_lt_transitive :
  forall a b c, float_lt fm a b = false -> float_lt fm b c = false -> float_lt fm a c = false.

(** The part of C4 the code keeps.  When amounts compare as numbers do (a
    strict weak order, which leaves out NaN), the rows are ranked: the
    ranking holds the rows that were read and no other, no row in it has an
    amount below that of a row after it, and rows that tie stand in the
    order the provider gave them.  With a bound that is not negative the
    result is the first [top_n] rows of the ranking: none for 0, all of
    them when the bound is at least their number. *)
Lemma get_top_usage_ranking top_n s s1 resp periods first groups gs rows :
  respond (top_usage_query today) s = (s1, Ok resp) ->
  get resp "ResultsByTime" (PList [PDict []]) = Ok periods ->
  item0 periods = Ok first ->
  get first "Groups" (PList []) = Ok groups ->
  iter groups = Ok gs ->
  rmap (usage_group_row fm) gs = Ok rows ->
  0 <= top_n ->
  exists ranking,
    value (get_top_usage respond today fm top_n s) = Ok (firstn (Z.to_nat top_n) ranking)
    /\ Permutation ranking rows
    /\ StronglySorted
         (fun r1 r2 => float_lt fm (usage_amount r1) (usage_amount r2) = false) ranking
    /\ (forall k,
          let ties r := negb (float_lt fm (usage_amount r) k)
                        && negb (float_lt fm k (usage_amount r)) in
          List.filter ties ranking = List.filter ties rows)
    /\ (top_n = 0 -> value (get_top_usage respond today fm top_n s) = Ok [])
    /\ (Z.of_nat (length rows) <= top_n ->
        value (get_top_usage respond today fm top_n s) = Ok ranking).
Proof.
  intros Hquery Hperiods Hfirst Hgroups Hiter Hrows Hn.
  rewrite (get_top_usage_rows top_n _ _ _ _ _ _ _ _
             Hquery Hperiods Hfirst Hgroups Hiter Hrows).
  cbn [value].
  pose proof (sort_by_reverse_Permutation (float_lt fm) (@usage_amount fm) rows) as Hperm.
  exists (sort_by_reverse (float_lt fm) usage_amount rows).
  split; [rewrite slice_to_nonnegative by exact Hn; reflexivity |].
  split; [exact Hperm |].
  split; [apply sort_by_reverse_sorted; assumption |].
  split; [intros k; apply sort_by_reverse_stable; assumption |].
  split.
  - intros ->. reflexivity.
  - intros Hall. rewrite slice_to_all; [reflexivity |].
    rewrite (Permutation_length Hperm). exact Hall.
Qed.

(** With a negative bound the result is the ranking without its last
    [- top_n] rows, not the empty list. *)
Lemma get_top_usage_negative top_n s s1 resp periods first groups gs rows :
  respond (top_usage_query today) s = (s1, Ok resp) ->
  get resp "ResultsByTime" (PList [PDict []]) = Ok periods ->
  item0 periods = Ok first ->
  get first "Groups" (PList []) = Ok groups ->
  iter groups = Ok gs ->
  rmap (usage_group_row fm) gs = Ok rows ->
  top_n < 0 ->
  exists listed,
    value (get_top_usage respond today fm top_n s) = Ok listed
    /\ length listed = (length rows - Z.to_nat (- top_n))%nat.
Proof.
  intros Hquery Hperiods Hfirst Hgroups Hiter Hrows Hn.
  rewrite (get_top_usage_rows top_n _ _ _ _ _ _ _ _
             Hquery Hperiods Hfirst Hgroups Hiter Hrows).
  eexists. split; [reflexivity |].
  rewrite slice_to_negative_length by exact Hn.
  rewrite (Permutation_length (sort_by_reverse_Permutation _ _ rows)). reflexivity.
Qed.

End TopUsage.

(** The example of the specification: the two highest of EC2 5.0, S3 12.0
    and RDS 1.0. *)
Example get_top_usage_two_of_three :
  UsageExamples.top_usage 2 UsageExamples.usage
  = Ok [UsageExamples.row "S3" 120 10; UsageExamples.row "EC2" 50 10].
Proof. vm_compute. reflexivity. Qed.

(** Rows that tie keep the provider's order, and a bound above their number
    gives them all. *)
Example get_top_usage_ties :
  UsageExamples.top_usage 10 UsageExamples.usage_with_ties
  = Ok [UsageExamples.row "S3" 120 10; UsageExamples.row "EC2" 50 10;
        UsageExamples.row "Lambda" 500 100; UsageExamples.row "SNS" 5 1;
        UsageExamples.row "RDS" 10 10].
Proof. vm_compute. reflexivity. Qed.

Example get_top_usage_none : UsageExamples.top_usage 0 UsageExamples.usage = Ok [].
Proof. vm_compute. reflexivity. Qed.

(** C4 at [top_n = -1], where the claim has the empty sequence:
    [rows[:-1]] is the ranking without its last row, so [get_top_usage]
    returns S3 and EC2. *)
Theorem get_top_usage_negative_top_n :
  UsageExamples.top_usage (-1) UsageExamples.usage
  = Ok [UsageExamples.row "S3" 120 10; UsageExamples.row "EC2" 50 10]
  /\ UsageExamples.top_usage (-1) UsageExamples.usage <> Ok [].
Proof. split; [vm_compute; reflexivity | vm_compute; discriminate]. Qed.

(** * Further properties *)

(** ** The reconciler's requests *)

Section ReconcilerRequests.

Context {St : Type}.
Variable respond : call -> St -> St * result pyval.
Variables (stack_name template_body : string).
Variable parameters : list (string * string).
Variable capabilities : list string.

Let describe := describe_stacks stack_name.
Let create := create_stack stack_name template_body parameters capabilities.
Let update := update_stack stack_name template_body parameters capabilities.
Let created := wait_stack "stack_create_complete" stack_name.
Let updated := wait_stack "stack_update_complete" stack_name.
Let ensure := ensure_stack respond stack_name template_body parameters capabilities.

(** X1. Whatever the provider answers, [ensure_stack] begins with
    [describe_stacks], makes at most three requests after it, and never
    requests both [create_stack] and [update_stack]. *)
Theorem ensure_stack_requests s :
  exists rest,
    trace (ensure s) = Request describe :: rest
    /\ (length rest <= 3)%nat
    /\ (never_requests "create_stack" (trace (ensure s))
        \/ never_requests "update_stack" (trace (ensure s))).
Proof.
  destruct (respond describe s) as [s1 [d | e]] eqn:Hprobe.
  - unfold ensure. rewrite (ensure_stack_present _ _ _ _ _ _ _ _ Hprobe).
    fold describe update updated.
    destruct (respond update s1) as [s2 [resp | e]].
    + destruct (respond updated s2) as [s3 [r | e]].
      * eexists. split; [reflexivity |]. split; [cbn; lia | left; repeat constructor].
      * destruct (says_no_updates e).
        -- destruct (respond describe s3) as [s4 r].
           eexists. split; [reflexivity |]. split; [cbn; lia | left; repeat constructor].
        -- eexists. split; [reflexivity |]. split; [cbn; lia | left; repeat constructor].
    + destruct (says_no_updates e).
      * destruct (respond describe s2) as [s3 r].
        eexists. split; [reflexivity |]. split; [cbn; lia | left; repeat constructor].
      * eexists. split; [reflexivity |]. split; [cbn; lia | left; repeat constructor].
  - destruct (says_absent e) eqn:Habsent.
    + unfold ensure. rewrite (ensure_stack_absent _ _ _ _ _ _ _ _ Hprobe Habsent).
      fold describe create created.
      destruct (respond create s1) as [s2 [resp | e']].
      * destruct (respond created s2) as [s3 [r | e']];
          (eexists; split; [reflexivity |]; split; [cbn; lia | right; repeat constructor]).
      * eexists. split; [reflexivity |]. split; [cbn; lia | right; repeat constructor].
    + unfold ensure. rewrite (ensure_stack_probe_fails _ _ _ _ _ _ _ _ Hprobe Habsent).
      eexists. split; [reflexivity |]. split; [cbn; lia | left; repeat constructor].
Qed.

(** X2. On the create branch the identifier returned is the one
    [create_stack] answered with, and it is returned after the waiter has
    returned; an exception of [create_stack] ends the call before any wait,
    and an exception of the waiter is the outcome of the call. *)
Theorem ensure_stack_creates s s1 e :
  respond describe s = (s1, Raise e) ->
  says_absent e = true ->
  (forall s2 e', respond create s1 = (s2, Raise e') ->
     ensure s = Run s2 [Request describe; Request create] (Raise e'))
  /\ (forall s2 resp s3 e',
        respond create s1 = (s2, Ok resp) -> respond created s2 = (s3, Raise e') ->
        ensure s = Run s3 [Request describe; Request create; Request created] (Raise e'))
  /\ (forall s2 resp s3 r id,
        respond create s1 = (s2, Ok resp) -> respond created s2 = (s3, Ok r) ->
        item resp "StackId" = Ok id ->
        ensure s = Run s3 [Request describe; Request create; Request created] (Ok id)).
Proof.
  intros Hprobe Habsent.
  pose proof (ensure_stack_absent respond stack_name template_body parameters
                capabilities s s1 e Hprobe Habsent) as Hrun.
  fold describe create created ensure in Hrun.
  split; [| split].
  - intros s2 e' Hcreate. rewrite Hcreate in Hrun. exact Hrun.
  - intros s2 resp s3 e' Hcreate Hwait. rewrite Hcreate, Hwait in Hrun. exact Hrun.
  - intros s2 resp s3 r id Hcreate Hwait Hid.
    rewrite Hcreate, Hwait, Hid in Hrun. exact Hrun.
Qed.

(** X3. The handler around the update also covers the wait: when the
    update is accepted and the waiter raises a [ClientError] whose text
    contains "No updates are to be performed", that error is absorbed like
    one of the update itself, and the outcome is that of describing the
    stack again. *)
Theorem ensure_stack_absorbs_waiter_error s s1 d s2 resp s3 e s4 r :
  respond describe s = (s1, Ok d) ->
  respond update s1 = (s2, Ok resp) ->
  respond updated s2 = (s3, Raise e) ->
  says_no_updates e = true ->
  respond describe s3 = (s4, r) ->
  ensure s = Run s4 [Request describe; Request update; Request updated; Request describe]
                 (rbind r first_stack_id).
Proof.
  intros Hprobe Hupdate Hwait Hsays Hagain.
  unfold ensure. rewrite (ensure_stack_present _ _ _ _ _ _ _ _ Hprobe).
  fold describe update updated. rewrite Hupdate, Hwait, Hsays, Hagain. reflexivity.
Qed.

End ReconcilerRequests.

Lemma ensure_stack_creates_witness :
  ReconcilerExamples.scripted [Raise ReconcilerExamples.absent; Raise ReconcilerExamples.throttled]
  = Run [] [Request (describe_stacks "web");
            Request (create_stack "web" ReconcilerExamples.body ReconcilerExamples.params
                       ReconcilerExamples.caps)]
        (Raise ReconcilerExamples.throttled)
  /\ ReconcilerExamples.scripted
       [Raise ReconcilerExamples.absent; Ok ReconcilerExamples.accepted;
        Raise MoreExamples.waiter_failed]
     = Run [] [Request (describe_stacks "web");
               Request (create_stack "web" ReconcilerExamples.body ReconcilerExamples.params
                          ReconcilerExamples.caps);
               Request (wait_stack "stack_create_complete" "web")]
           (Raise MoreExamples.waiter_failed)
  /\ ReconcilerExamples.scripted
       [Raise ReconcilerExamples.absent; Ok ReconcilerExamples.accepted; Ok PNone]
     = Run [] [Request (describe_stacks "web");
               Request (create_stack "web" ReconcilerExamples.body ReconcilerExamples.params
                          ReconcilerExamples.caps);
               Request (wait_stack "stack_create_complete" "web")]
           (Ok (PStr "arn:web/1")).
Proof.
  split; [| split].
  - refine (proj1 (ensure_stack_creates Scripted.respond "web" ReconcilerExamples.body
                     ReconcilerExamples.params ReconcilerExamples.caps
                     [Raise ReconcilerExamples.absent; Raise ReconcilerExamples.throttled]
                     _ _ eq_refl _) _ _ eq_refl).
    vm_compute. reflexivity.
  - refine (proj1 (proj2 (ensure_stack_creates Scripted.respond "web" ReconcilerExamples.body
                     ReconcilerExamples.params ReconcilerExamples.caps
                     [Raise ReconcilerExamples.absent; Ok ReconcilerExamples.accepted;
                      Raise MoreExamples.waiter_failed]
                     _ _ eq_refl _)) _ _ _ _ eq_refl eq_refl).
    vm_compute. reflexivity.
  - refine (proj2 (proj2 (ensure_stack_creates Scripted.respond "web" ReconcilerExamples.body
                     ReconcilerExamples.params ReconcilerExamples.caps
                     [Raise ReconcilerExamples.absent; Ok ReconcilerExamples.accepted; Ok PNone]
                     _ _ eq_refl _)) _ _ _ _ _ eq_refl eq_refl eq_refl).
    vm_compute. reflexivity.
Defined.

Lemma ensure_stack_absorbs_waiter_error_witness :
  ReconcilerExamples.scripted
    [Ok ReconcilerExamples.described; Ok ReconcilerExamples.accepted;
     Raise MoreExamples.waiter_no_updates; Ok ReconcilerExamples.described]
  = Run [] [Request (describe_stacks "web");
            Request (update_stack "web" ReconcilerExamples.body ReconcilerExamples.params
                       ReconcilerExamples.caps);
            Request (wait_stack "stack_update_complete" "web");
            Request (describe_stacks "web")]
        (Ok (PStr "arn:web/1")).
Proof.
  exact (ensure_stack_absorbs_waiter_error Scripted.respond "web" ReconcilerExamples.body
           ReconcilerExamples.params ReconcilerExamples.caps
           [Ok ReconcilerExamples.described; Ok ReconcilerExamples.accepted;
            Raise MoreExamples.waiter_no_updates; Ok ReconcilerExamples.described]
           _ _ _ _ _ _ _ _ eq_refl eq_refl eq_refl eq_refl eq_refl).
Defined.

(** ** The lifecycle controller, further *)

Section LifecycleMore.

Context {St : Type}.
Variable respond : call -> St -> St * result pyval.

(** X4. The request of [allocate_ec2_instance] holds the four required
    entries, one entry for each option that is given and not empty, and
    nothing else; an option that is given holds the value that was
    passed. *)
Theorem run_instances_params_fields ami_id instance_type key_name security_group_ids
    subnet_id count name_tag :
  let params := run_instances_params ami_id instance_type key_name security_group_ids
                  subnet_id count name_tag in
  dom params
  = {["ImageId"; "InstanceType"; "MinCount"; "MaxCount"]}
      ∪ (if given_str key_name then {["KeyName"]} else ∅)
      ∪ (if given_list security_group_ids then {["SecurityGroupIds"]} else ∅)
      ∪ (if given_str subnet_id then {["SubnetId"]} else ∅)
      ∪ (if given_str name_tag then {["TagSpecifications"]} else ∅)
  /\ (forall k, key_name = Some k -> k <> EmptyString ->
        params !! "KeyName" = Some (PStr k))
  /\ (forall g gs, security_group_ids = Some (g :: gs) ->
        params !! "SecurityGroupIds" = Some (PList (map PStr (g :: gs))))
  /\ (forall n, subnet_id = Some n -> n <> EmptyString ->
        params !! "SubnetId" = Some (PStr n))
  /\ (forall t, name_tag = Some t -> t <> EmptyString ->
        params !! "TagSpecifications"
        = Some (PList [PDict [("ResourceType", PStr "instance");
                              ("Tags", PList [PDict [("Key", PStr "Name");
                                                     ("Value", PStr t)]])]])).
Proof.
  intros params.
  destruct (run_instances_params_optional ami_id instance_type key_name security_group_ids
              subnet_id count name_tag) as (Hkey & Hsgs & Hsubnet & Htag).
  fold params in Hkey, Hsgs, Hsubnet, Htag.
  split.
  - unfold params, run_instances_params.
    destruct (given_str key_name), (given_list security_group_ids),
      (given_str subnet_id), (given_str name_tag);
      rewrite ?dom_insert_L, dom_empty_L; set_solver.
  - assert (Hgiven : forall x, x <> EmptyString -> given_str (Some x) = true).
    { intros x Hx. cbn. destruct (String.eqb_spec x EmptyString); [contradiction | reflexivity]. }
    repeat split.
    + intros k -> Hk. rewrite Hkey, (Hgiven k Hk). reflexivity.
    + intros g gs ->. rewrite Hsgs. reflexivity.
    + intros n -> Hn. rewrite Hsubnet, (Hgiven n Hn). reflexivity.
    + intros t -> Ht. rewrite Htag, (Hgiven t Ht). reflexivity.
Qed.

(** reading an entry off keyword arguments built by successive assignments *)
Ltac read_kwargs :=
  repeat first [ rewrite lookup_insert_eq
               | rewrite lookup_insert_ne by discriminate
               | rewrite lookup_empty ].

Lemma rmap_map {A B} (f : A -> result B) (g : A -> B) l :
  Forall (fun x => f x = Ok (g x)) l -> rmap f l = Ok (map g l).
Proof.
  induction 1 as [| x l Hx _ IH]; [reflexivity |].
  cbn. rewrite Hx. cbn. rewrite IH. reflexivity.
Qed.

Lemma rmap_raises {A B} (f : A -> result B) (g : A -> B) before x after e :
  Forall (fun x => f x = Ok (g x)) before ->
  f x = Raise e ->
  rmap f (before ++ x :: after) = Raise e.
Proof.
  intros Hbefore Hx. induction Hbefore as [| y before Hy _ IH]; cbn.
  - rewrite Hx. reflexivity.
  - rewrite Hy. cbn. rewrite IH. reflexivity.
Qed.

Lemma item_entry v k x : entry v k = Some x -> item v k = Ok x.
Proof. destruct v; try discriminate. cbn. intros ->. reflexivity. Qed.

Lemma item_missing v k :
  is_dict v = true -> entry v k = None -> item v k = Raise (Exn KeyError ("'" +:+ k +:+ "'")).
Proof. destruct v; try discriminate. cbn. intros _ ->. reflexivity. Qed.

(** X5. [allocate_ec2_instance] returns the identifier of every instance
    of the provider's answer, in the answer's order, so as many as the
    answer lists whatever [count] was; when an instance of the answer has
    no "InstanceId" the call raises [KeyError], the request having been
    made. *)
Theorem allocate_ec2_instance_ids ami_id instance_type key_name security_group_ids
    subnet_id count name_tag s s1 resp insts instances :
  let launch := Api "ec2" "run_instances"
                    (run_instances_params ami_id instance_type key_name security_group_ids
                       subnet_id count name_tag) in
  let allocated := allocate_ec2_instance respond ami_id instance_type key_name
                     security_group_ids subnet_id count name_tag s in
  respond launch s = (s1, Ok resp) ->
  get resp "Instances" (PList []) = Ok insts ->
  iter insts = Ok instances ->
  (Forall (fun i => is_Some (entry i "InstanceId")) instances ->
   allocated = Run s1 [Request launch] (Ok (map (fun i => field i "InstanceId") instances)))
  /\ (forall before i after,
        instances = (before ++ i :: after)%list ->
        Forall (fun i => is_Some (entry i "InstanceId")) before ->
        is_dict i = true -> entry i "InstanceId" = None ->
        allocated = Run s1 [Request launch] (Raise (Exn KeyError "'InstanceId'"))).
Proof.
  intros launch allocated Hlaunch Hinsts Hiter.
  assert (Hread : forall l,
             Forall (fun i => is_Some (entry i "InstanceId")) l ->
             Forall (fun i => item i "InstanceId" = Ok (field i "InstanceId")) l).
  { intros l. apply List.Forall_impl. intros i [x Hx].
    rewrite (item_entry _ _ _ Hx). destruct i; try discriminate.
    cbn in Hx |- *. rewrite Hx. reflexivity. }
  assert (Hrun : allocated
                 = Run s1 [Request launch] (rmap (fun i => item i "InstanceId") instances)).
  { unfold allocated, allocate_ec2_instance, bind, invoke, lift. fold launch.
    rewrite Hlaunch. cbn [value final trace]. rewrite Hinsts. cbn [rbind].
    rewrite Hiter. reflexivity. }
  split.
  - intros Hall. rewrite Hrun, (rmap_map _ _ _ (Hread _ Hall)). reflexivity.
  - intros before i after -> Hbefore Hdict Hmissing.
    rewrite Hrun.
    rewrite (rmap_raises _ _ _ _ _ _ (Hread _ Hbefore) (item_missing _ _ Hdict Hmissing)).
    reflexivity.
Qed.

(** X6. [deallocate_ec2_instances] reads the list of its own operation
    ("TerminatingInstances" for a termination, "StoppingInstances" for a
    stop) and returns the "InstanceId" of each of its entries, in order,
    with [None] for an entry that has none: no entry makes it raise. *)
Theorem deallocate_ec2_instances_acted instance_ids (terminate : bool) s s1 resp insts
    entries :
  let request := if terminate then terminate_instances instance_ids
                 else stop_instances instance_ids in
  respond request s = (s1, Ok resp) ->
  get resp (if terminate then "TerminatingInstances" else "StoppingInstances") (PList [])
  = Ok insts ->
  iter insts = Ok entries ->
  Forall (fun i => is_dict i = true) entries ->
  deallocate_ec2_instances respond instance_ids terminate s
  = Run s1 [Request request] (Ok (map (fun i => field i "InstanceId") entries)).
Proof.
  intros request Hrequest Hinsts Hiter Hdicts.
  assert (Hread : Forall (fun i => get1 i "InstanceId" = Ok (field i "InstanceId")) entries).
  { eapply List.Forall_impl; [| exact Hdicts]. intros i Hi. exact (get1_field i _ Hi). }
  unfold deallocate_ec2_instances, bind, invoke, lift.
  destruct terminate; unfold request in Hrequest; rewrite Hrequest;
    cbn [value final trace]; rewrite Hinsts; cbn [rbind]; rewrite Hiter; cbn [rbind];
    rewrite (rmap_map _ _ _ Hread); reflexivity.
Qed.

(** X7. [allocate_s3_bucket] makes one [create_bucket] request naming the
    bucket.  It carries a location constraint exactly when the context has a
    region that is not empty and is not "us-east-1", and then the constraint
    is that region. *)
Theorem allocate_s3_bucket_location region_name bucket_name s :
  exists kwargs,
    trace (allocate_s3_bucket respond region_name bucket_name s)
    = [Request (Api "s3" "create_bucket" kwargs)]
    /\ kwargs !! "Bucket" = Some (PStr bucket_name)
    /\ (kwargs !! "CreateBucketConfiguration" = None
        <-> region_name = None \/ region_name = Some EmptyString
            \/ region_name = Some "us-east-1")
    /\ (forall r, kwargs !! "CreateBucketConfiguration" <> None ->
          region_name = Some r ->
          kwargs !! "CreateBucketConfiguration"
          = Some (PDict [("LocationConstraint", PStr r)])).
Proof.
  assert (Htrace :
            trace (allocate_s3_bucket respond region_name bucket_name s)
            = [Request (create_bucket bucket_name
                          (if given_str region_name
                              && negb (match region_name with
                                       | Some r => String.eqb r "us-east-1"
                                       | None => false
                                       end)
                           then region_name else None))]).
  { unfold allocate_s3_bucket, bind, invoke, ret.
    destruct (given_str region_name && _);
      destruct (respond _ s) as [s1 [x | e]]; reflexivity. }
  eexists. split; [exact Htrace |].
  unfold create_bucket.
  destruct region_name as [r |]; cbn [given_str andb negb].
  - destruct (String.eqb_spec r EmptyString) as [-> | Hempty]; cbn [negb andb].
    + repeat split; read_kwargs; try reflexivity; auto.
      intros r' Hsent. contradict Hsent. read_kwargs. reflexivity.
    + destruct (String.eqb_spec r "us-east-1") as [-> | Hdefault]; cbn [negb].
      * repeat split; read_kwargs; try reflexivity; auto.
        intros r' Hsent. contradict Hsent. read_kwargs. reflexivity.
      * split; [read_kwargs; reflexivity |]. split; [split |].
        -- read_kwargs. discriminate.
        -- intros [Hn | [Hn | Hn]]; [discriminate | |]; injection Hn; contradiction.
        -- intros r' _ [= <-]. read_kwargs. reflexivity.
  - repeat split; read_kwargs; try reflexivity; auto.
    intros r' Hsent. contradict Hsent. read_kwargs. reflexivity.
Qed.

(** X8. Without [force], [deallocate_s3_bucket] makes one request, the
    deletion of the bucket itself: it never asks for objects or versions to
    be deleted, and what the provider says of that one request (a refusal
    of a bucket that is not empty, say) is the outcome. *)
Theorem deallocate_s3_bucket_without_force bucket_name s :
  trace (deallocate_s3_bucket respond bucket_name false s)
  = [Request (delete_bucket bucket_name)]
  /\ final (deallocate_s3_bucket respond bucket_name false s)
     = fst (respond (delete_bucket bucket_name) s)
  /\ value (deallocate_s3_bucket respond bucket_name false s)
     = rbind (snd (respond (delete_bucket bucket_name) s)) (fun _ => Ok tt).
Proof.
  unfold deallocate_s3_bucket, bind, invoke, ret. cbn [value final trace app].
  destruct (respond (delete_bucket bucket_name) s) as [s1 [x | e]];
    repeat split; reflexivity.
Qed.

(** X9. With [force], [deallocate_s3_bucket] asks for the objects to be
    deleted, then the versions, then the bucket, in that order; when
    deleting the objects or the versions raises, that exception is the
    outcome and the deletion of the bucket is never requested. *)
Theorem deallocate_s3_bucket_with_force bucket_name s :
  let emptied := deallocate_s3_bucket respond bucket_name true s in
  (forall s1 e,
     respond (delete_objects bucket_name) s = (s1, Raise e) ->
     emptied = Run s1 [Request (delete_objects bucket_name)] (Raise e))
  /\ (forall s1 x s2 e,
        respond (delete_objects bucket_name) s = (s1, Ok x) ->
        respond (delete_object_versions bucket_name) s1 = (s2, Raise e) ->
        emptied = Run s2 [Request (delete_objects bucket_name);
                          Request (delete_object_versions bucket_name)] (Raise e))
  /\ (forall s1 x s2 y s3 r,
        respond (delete_objects bucket_name) s = (s1, Ok x) ->
        respond (delete_object_versions bucket_name) s1 = (s2, Ok y) ->
        respond (delete_bucket bucket_name) s2 = (s3, r) ->
        emptied = Run s3 [Request (delete_objects bucket_name);
                          Request (delete_object_versions bucket_name);
                          Request (delete_bucket bucket_name)]
                      (rbind r (fun _ => Ok tt))).
Proof.
  intros emptied. unfold emptied, deallocate_s3_bucket, bind, invoke, ret.
  split; [| split].
  - intros s1 e Hobjects. rewrite Hobjects. reflexivity.
  - intros s1 x s2 e Hobjects Hversions. rewrite Hobjects. cbn [value final trace app].
    rewrite Hversions. reflexivity.
  - intros s1 x s2 y s3 r Hobjects Hversions Hbucket. rewrite Hobjects.
    cbn [value final trace app]. rewrite Hversions. cbn [value final trace app].
    rewrite Hbucket. destruct r; reflexivity.
Qed.

End LifecycleMore.

Lemma run_instances_params_fields_witness :
  let params := run_instances_params "ami-1234" "t3.micro" (Some "deploy") (Some ["sg-1"; "sg-2"])
                  (Some EmptyString) 1 (Some "web") in
  dom params = {["ImageId"; "InstanceType"; "MinCount"; "MaxCount";
                 "KeyName"; "SecurityGroupIds"; "TagSpecifications"]}
  /\ params !! "KeyName" = Some (PStr "deploy")
  /\ params !! "SecurityGroupIds" = Some (PList [PStr "sg-1"; PStr "sg-2"])
  /\ params !! "SubnetId" = None.
Proof.
  intros params.
  destruct (run_instances_params_fields "ami-1234" "t3.micro" (Some "deploy")
              (Some ["sg-1"; "sg-2"]) (Some EmptyString) 1 (Some "web"))
    as (Hdom & Hkey & Hsgs & _ & _).
  split; [vm_compute; reflexivity |].
  split; [apply (Hkey "deploy" eq_refl); discriminate |].
  split; [exact (Hsgs "sg-1" ["sg-2"] eq_refl) | vm_compute; reflexivity].
Defined.

Lemma allocate_ec2_instance_ids_witness :
  allocate_ec2_instance Scripted.respond "ami-1234" "t3.micro" None None None 3 None
    [Ok MoreExamples.two_launched]
  = Run [] [Request (Api "ec2" "run_instances"
                       (run_instances_params "ami-1234" "t3.micro" None None None 3 None))]
        (Ok [PStr "i-0abc"; PStr "i-0def"])
  /\ allocate_ec2_instance Scripted.respond "ami-1234" "t3.micro" None None None 3 None
       [Ok MoreExamples.unnamed_launched]
     = Run [] [Request (Api "ec2" "run_instances"
                          (run_instances_params "ami-1234" "t3.micro" None None None 3 None))]
           (Raise (Exn KeyError "'InstanceId'")).
Proof.
  split.
  - refine (proj1 (allocate_ec2_instance_ids Scripted.respond "ami-1234" "t3.micro"
                     None None None 3 None [Ok MoreExamples.two_launched] _ _ _ _
                     eq_refl eq_refl eq_refl) _).
    repeat constructor; eexists; reflexivity.
  - refine (proj2 (allocate_ec2_instance_ids Scripted.respond "ami-1234" "t3.micro"
                     None None None 3 None [Ok MoreExamples.unnamed_launched] _ _ _ _
                     eq_refl eq_refl eq_refl)
                  [PDict [("InstanceId", PStr "i-0abc")]]
                  (PDict [("InstanceType", PStr "t3.micro")]) [] eq_refl _ eq_refl eq_refl).
    repeat constructor. eexists. reflexivity.
Defined.

Lemma deallocate_ec2_instances_acted_witness :
  deallocate_ec2_instances Scripted.respond ["i-0abc"; "i-0def"] false
    [Ok MoreExamples.two_stopping]
  = Run [] [Request (stop_instances ["i-0abc"; "i-0def"])] (Ok [PStr "i-0abc"; PNone]).
Proof.
  refine (deallocate_ec2_instances_acted Scripted.respond ["i-0abc"; "i-0def"] false
            [Ok MoreExamples.two_stopping] _ _ _ _ eq_refl eq_refl eq_refl _).
  repeat constructor.
Defined.

Lemma allocate_s3_bucket_location_witness :
  trace (allocate_s3_bucket Scripted.respond (Some "eu-west-1") "media" [Ok (PDict [])])
  = [Request (create_bucket "media" (Some "eu-west-1"))]
  /\ trace (allocate_s3_bucket Scripted.respond (Some "us-east-1") "media" [Ok (PDict [])])
     = [Request (create_bucket "media" None)]
  /\ exists kwargs,
       trace (allocate_s3_bucket Scripted.respond (Some "eu-west-1") "media" [Ok (PDict [])])
       = [Request (Api "s3" "create_bucket" kwargs)]
       /\ kwargs !! "CreateBucketConfiguration"
          = Some (PDict [("LocationConstraint", PStr "eu-west-1")]).
Proof.
  split; [vm_compute; reflexivity |]. split; [vm_compute; reflexivity |].
  destruct (allocate_s3_bucket_location Scripted.respond (Some "eu-west-1") "media"
              [Ok (PDict [])]) as (kwargs & Htrace & _ & Hnone & Hsome).
  exists kwargs. split; [exact Htrace |].
  apply (Hsome "eu-west-1"); [| reflexivity].
  intros Habsent. apply Hnone in Habsent as [Hn | [Hn | Hn]]; discriminate.
Defined.

Lemma deallocate_s3_bucket_with_force_witness :
  deallocate_s3_bucket Scripted.respond "media" true [Raise MoreExamples.access_denied]
  = Run [] [Request (delete_objects "media")] (Raise MoreExamples.access_denied)
  /\ deallocate_s3_bucket Scripted.respond "media" true
       [Ok (PList []); Raise MoreExamples.access_denied]
     = Run [] [Request (delete_objects "media"); Request (delete_object_versions "media")]
           (Raise MoreExamples.access_denied)
  /\ deallocate_s3_bucket Scripted.respond "media" true [Ok (PList []); Ok (PList []); Ok PNone]
     = Run [] [Request (delete_objects "media"); Request (delete_object_versions "media");
               Request (delete_bucket "media")] (Ok tt).
Proof.
  destruct (deallocate_s3_bucket_with_force Scripted.respond "media"
              [Raise MoreExamples.access_denied]) as (Hobjects & _ & _).
  destruct (deallocate_s3_bucket_with_force Scripted.respond "media"
              [Ok (PList []); Raise MoreExamples.access_denied]) as (_ & Hversions & _).
  destruct (deallocate_s3_bucket_with_force Scripted.respond "media"
              [Ok (PList []); Ok (PList []); Ok PNone]) as (_ & _ & Hbucket).
  split; [exact (Hobjects _ _ eq_refl) |].
  split; [exact (Hversions _ _ _ _ eq_refl eq_refl) |].
  exact (Hbucket _ _ _ _ _ _ eq_refl eq_refl eq_refl).
Defined.

(** ** The inventory reader, further *)

Section InventoryMore.

Context {St : Type}.
Variable respond : call -> St -> St * result pyval.

(** X10. The display name of an instance is the value of the first tag
    whose key is "Name", whatever tags follow it; it is the empty string
    when no tag has that key; and when that first tag has no "Value" it is
    a [KeyError], not the empty string. *)
Theorem name_of_tags_first_name before :
  Forall (fun t => is_dict t = true) before ->
  Forall (fun t => names t = false) before ->
  name_of_tags before = Ok (PStr EmptyString)
  /\ (forall t after, is_dict t = true -> names t = true ->
        name_of_tags (before ++ t :: after) = item t "Value")
  /\ (forall t after, is_dict t = true -> names t = true -> entry t "Value" = None ->
        name_of_tags (before ++ t :: after) = Raise (Exn KeyError "'Value'")).
Proof.
  intros Hdicts Hothers.
  assert (Hfirst : forall t after, is_dict t = true -> names t = true ->
                     name_of_tags (before ++ t :: after) = item t "Value").
  { intros t after Ht Hnames.
    induction Hdicts as [| t' before Ht' _ IH]; cbn [app name_of_tags].
    - rewrite (get1_field t _ Ht). cbn [rbind]. unfold names in Hnames.
      rewrite Hnames. reflexivity.
    - apply Forall_cons in Hothers as [Hother Hothers].
      rewrite (get1_field t' _ Ht'). cbn [rbind]. unfold names in Hother.
      rewrite Hother. exact (IH Hothers). }
  split; [| split].
  - induction Hdicts as [| t' before Ht' _ IH]; [reflexivity |].
    apply Forall_cons in Hothers as [Hother Hothers].
    cbn [name_of_tags]. rewrite (get1_field t' _ Ht'). cbn [rbind].
    unfold names in Hother. rewrite Hother. apply IH; [exact Hothers |].
    intros t after Ht Hnames. specialize (Hfirst t after Ht Hnames).
    cbn [app name_of_tags] in Hfirst. rewrite (get1_field t' _ Ht') in Hfirst.
    cbn [rbind] in Hfirst. rewrite Hother in Hfirst. exact Hfirst.
  - exact Hfirst.
  - intros t after Ht Hnames Hmissing.
    rewrite (Hfirst t after Ht Hnames). exact (item_missing _ _ Ht Hmissing).
Qed.

(** going through the bindings that are left, keeping the last *)
Ltac skip_rbinds H :=
  repeat match type of H with
         | rbind _ _ = Ok _ => apply rbind_Ok in H as (? & _ & H); cbv beta in H
         end.

Lemma rmap_related {A B C} (f : A -> result B) (g : B -> C) (h : A -> C) :
  (forall a b, f a = Ok b -> g b = h a) ->
  forall l out, rmap f l = Ok out -> map g out = map h l.
Proof.
  intros Hf. induction l as [| a l IH]; intros out Hout; cbn in Hout.
  - injection Hout as <-. reflexivity.
  - apply rbind_Ok in Hout as (b & Hb & Hout).
    apply rbind_Ok in Hout as (bs & Hbs & Hout).
    injection Hout as <-. cbn. rewrite (Hf _ _ Hb), (IH _ Hbs). reflexivity.
Qed.

Lemma get_listed_under d k v : get d k (PList []) = Ok v -> v = listed_under d k.
Proof.
  destruct d; try discriminate. cbn. unfold listed_under, entry.
  destruct (assoc k d); intros [= <-]; reflexivity.
Qed.

Lemma iter_elements v l : iter v = Ok l -> l = elements v.
Proof. unfold elements. intros ->. reflexivity. Qed.

Lemma get1_Ok_field d k v : get1 d k = Ok v -> v = field d k.
Proof.
  destruct d; try discriminate. cbn. destruct (assoc k d); intros [= <-]; reflexivity.
Qed.

Lemma ec2_instance_record_id inst rec :
  ec2_instance_record inst = Ok rec ->
  field rec "InstanceId" = field inst "InstanceId".
Proof.
  unfold ec2_instance_record. intros H.
  apply rbind_Ok in H as (tags & _ & H). apply rbind_Ok in H as (ts & _ & H).
  apply rbind_Ok in H as (name_tag & _ & H).
  apply rbind_Ok in H as (instance_id & Hid & H).
  skip_rbinds H. injection H as <-. cbn. exact (get1_Ok_field _ _ _ Hid).
Qed.

Lemma concat_map_map {A B} (g : A -> B) (ls : list (list A)) :
  map g (concat ls) = concat (map (map g) ls).
Proof. apply concat_map. Qed.

(** X11. [list_ec2_instances] flattens the reservations: when it returns,
    its records are, in order, those of the instances of the first
    reservation, then of the second, and so on, one record for every
    instance whatever its state, each under the instance's identifier. *)
Theorem list_ec2_instances_flattens s s1 resp recs :
  respond describe_instances s = (s1, Ok resp) ->
  value (list_ec2_instances respond s) = Ok recs ->
  map (fun rec => field rec "InstanceId") recs
  = concat (map (fun reservation =>
                   map (fun inst => field inst "InstanceId")
                       (elements (listed_under reservation "Instances")))
                (elements (listed_under resp "Reservations"))).
Proof.
  intros Hanswer. unfold list_ec2_instances, bind, invoke, lift.
  fold describe_instances. rewrite Hanswer. cbn [value final trace].
  intros H.
  apply rbind_Ok in H as (reservations & Hreservations & H).
  apply rbind_Ok in H as (rs & Hrs & H).
  apply rbind_Ok in H as (per_reservation & Hper & H). injection H as <-.
  apply get_listed_under in Hreservations as ->. apply iter_elements in Hrs as ->.
  rewrite concat_map_map. f_equal.
  refine (rmap_related _ _ _ _ _ _ Hper). clear. intros reservation out Hout.
  unfold ec2_reservation_records in Hout.
  apply rbind_Ok in Hout as (insts & Hinsts & Hout).
  apply rbind_Ok in Hout as (instances & Hinstances & Hout).
  apply get_listed_under in Hinsts as ->. apply iter_elements in Hinstances as ->.
  exact (rmap_related _ _ _ ec2_instance_record_id _ _ Hout).
Qed.

Lemma lambda_function_record_name fn rec :
  lambda_function_record fn = Ok rec ->
  field rec "FunctionName" = field fn "FunctionName".
Proof.
  unfold lambda_function_record. intros H.
  apply rbind_Ok in H as (name & Hname & H).
  skip_rbinds H. injection H as <-. cbn. exact (get1_Ok_field _ _ _ Hname).
Qed.

(** X12. [list_lambda_functions] goes through every page: when it returns,
    its records are, in order, those of the functions of the first page,
    then of the second, and so on to the last page, each under the
    function's name; a page without "Functions" adds nothing. *)
Theorem list_lambda_functions_all_pages s s1 pages recs :
  respond list_functions s = (s1, Ok pages) ->
  value (list_lambda_functions respond s) = Ok recs ->
  map (fun rec => field rec "FunctionName") recs
  = concat (map (fun page =>
                   map (fun fn => field fn "FunctionName")
                       (elements (listed_under page "Functions")))
                (elements pages)).
Proof.
  intros Hanswer. unfold list_lambda_functions, bind, invoke, lift.
  fold list_functions. rewrite Hanswer. cbn [value final trace].
  intros H.
  apply rbind_Ok in H as (ps & Hps & H).
  apply rbind_Ok in H as (per_page & Hper & H). injection H as <-.
  apply iter_elements in Hps as ->.
  rewrite concat_map_map. f_equal.
  refine (rmap_related _ _ _ _ _ _ Hper). clear. intros page out Hout.
  unfold lambda_page_records in Hout.
  apply rbind_Ok in Hout as (fns & Hfns & Hout).
  apply rbind_Ok in Hout as (fs & Hfs & Hout).
  apply get_listed_under in Hfns as ->. apply iter_elements in Hfs as ->.
  exact (rmap_related _ _ _ lambda_function_record_name _ _ Hout).
Qed.

Lemma s3_bucket_record_fatal b s s1 r :
  is_dict b = true ->
  respond (get_bucket_location (field b "Name")) s = (s1, r) ->
  tolerated r = false ->
  s3_bucket_record respond b s
  = Run s1 [Request (get_bucket_location (field b "Name"))] (Raise (fatal r)).
Proof.
  intros Hb Hlookup Hfatal.
  unfold s3_bucket_record. rewrite !(get1_field b _ Hb).
  unfold bind, try_except, invoke, lift, ret.
  cbn [value final trace app]. rewrite Hlookup.
  cbn [value final trace app].
  destruct r as [answer | e]; cbn [tolerated fatal] in *.
  - destruct answer; try discriminate; reflexivity.
  - cbn [value]. rewrite Hfatal. reflexivity.
Qed.

Lemma s3_bucket_records_abort before : forall s b after rs s1 s2 r,
  Forall (fun b => is_dict b = true) before ->
  is_dict b = true ->
  region_lookups respond before s = (rs, s1) ->
  Forall (fun r => tolerated r = true) rs ->
  respond (get_bucket_location (field b "Name")) s1 = (s2, r) ->
  tolerated r = false ->
  for_append (s3_bucket_record respond) (before ++ b :: after) s
  = Run s2 (map (fun b => Request (get_bucket_location (field b "Name"))) (before ++ [b]))
        (Raise (fatal r)).
Proof.
  induction before as [| b0 before IH];
    intros s b after rs s1 s2 r Hbefore Hb Hlookups Htol Hlookup Hfatal.
  - cbn in Hlookups. injection Hlookups as <- <-.
    cbn [app for_append map]. unfold bind.
    rewrite (s3_bucket_record_fatal _ _ _ _ Hb Hlookup Hfatal). reflexivity.
  - apply Forall_cons in Hbefore as [Hb0 Hbefore].
    cbn [region_lookups] in Hlookups.
    destruct (respond (get_bucket_location (field b0 "Name")) s) as [s0 r0] eqn:Hlookup0.
    destruct (region_lookups respond before s0) as [rs0 s0'] eqn:Hrest.
    injection Hlookups as <- <-.
    apply Forall_cons in Htol as [Hr0 Htol].
    cbn [app for_append map].
    rewrite (bind_returned _ _ _ _ _ _
               (s3_bucket_record_tolerated _ _ _ _ _ Hb0 Hlookup0 Hr0)).
    unfold bind.
    rewrite (IH s0 b after rs0 _ s2 r Hbefore Hb Hrest Htol Hlookup Hfatal).
    reflexivity.
Qed.

(** X13. A region lookup that is not tolerated ends the listing of
    buckets: when it answers with something that is not a dictionary, or
    raises an exception of another class than the provider's two, the
    listing raises that exception (an [AttributeError] in the first case),
    the buckets before it having been looked up and none after it. *)
Theorem list_s3_buckets_aborts s s0 resp buckets before b after rs s1 s2 r :
  respond list_buckets s = (s0, Ok resp) ->
  get resp "Buckets" (PList []) = Ok buckets ->
  iter buckets = Ok (before ++ b :: after)%list ->
  Forall (fun b => is_dict b = true) before ->
  is_dict b = true ->
  region_lookups respond before s0 = (rs, s1) ->
  Forall (fun r => tolerated r = true) rs ->
  respond (get_bucket_location (field b "Name")) s1 = (s2, r) ->
  tolerated r = false ->
  list_s3_buckets respond s
  = Run s2 (Request list_buckets
              :: map (fun b => Request (get_bucket_location (field b "Name")))
                     (before ++ [b]))
        (Raise (fatal r)).
Proof.
  intros Hlist Hbuckets Hiter Hbefore Hb Hlookups Htol Hlookup Hfatal.
  unfold list_s3_buckets, bind, invoke, lift. fold list_buckets.
  rewrite Hlist. cbn [value final trace]. rewrite Hbuckets. cbn [value final trace].
  rewrite Hiter. cbn [value final trace].
  rewrite (s3_bucket_records_abort _ _ _ _ _ _ _ _ Hbefore Hb Hlookups Htol Hlookup Hfatal).
  reflexivity.
Qed.

End InventoryMore.

Lemma name_of_tags_first_name_witness :
  name_of_tags [TagExamples.environment] = Ok (PStr EmptyString)
  /\ name_of_tags [TagExamples.environment; TagExamples.name; TagExamples.second_name]
     = Ok (PStr "web")
  /\ name_of_tags [TagExamples.environment; TagExamples.bare_name; TagExamples.name]
     = Raise (Exn KeyError "'Value'").
Proof.
  destruct (name_of_tags_first_name [TagExamples.environment])
    as (Hnone & Hfirst & Hbare); [repeat constructor | repeat constructor |].
  split; [exact Hnone |]. split.
  - exact (Hfirst TagExamples.name [TagExamples.second_name] eq_refl eq_refl).
  - exact (Hbare TagExamples.bare_name [TagExamples.name] eq_refl eq_refl eq_refl).
Defined.

Lemma list_ec2_instances_flattens_witness :
  exists recs,
    value (list_ec2_instances Scripted.respond [Ok InventoryExamples.reservations]) = Ok recs
    /\ map (fun rec => field rec "InstanceId") recs = [PStr "i-0abc"; PStr "i-0def"].
Proof.
  eexists. split; [vm_compute; reflexivity |].
  exact (list_ec2_instances_flattens Scripted.respond [Ok InventoryExamples.reservations]
           _ _ _ eq_refl eq_refl).
Defined.

Lemma list_lambda_functions_all_pages_witness :
  exists recs,
    value (list_lambda_functions Scripted.respond [Ok InventoryExamples.pages]) = Ok recs
    /\ map (fun rec => field rec "FunctionName") recs = [PStr "resize"; PStr "notify"].
Proof.
  eexists. split; [vm_compute; reflexivity |].
  exact (list_lambda_functions_all_pages Scripted.respond [Ok InventoryExamples.pages]
           _ _ _ eq_refl eq_refl).
Defined.

Lemma list_s3_buckets_aborts_witness :
  list_s3_buckets Scripted.respond
    [Ok BucketExamples.listed; Raise BucketExamples.forbidden; Ok (PList []);
     Ok BucketExamples.in_ireland]
  = Run [Ok BucketExamples.in_ireland]
        [Request list_buckets;
         Request (get_bucket_location (PStr "logs"));
         Request (get_bucket_location (PStr "media"))]
        (Raise (Exn AttributeError "'list' object has no attribute 'get'")).
Proof.
  refine (list_s3_buckets_aborts Scripted.respond
            [Ok BucketExamples.listed; Raise BucketExamples.forbidden; Ok (PList []);
             Ok BucketExamples.in_ireland]
            _ BucketExamples.listed _
            [BucketExamples.logs] BucketExamples.media [BucketExamples.backup]
            _ _ _ (Ok (PList [])) eq_refl eq_refl eq_refl _ eq_refl eq_refl _ eq_refl eq_refl).
  - repeat constructor.
  - repeat constructor.
Defined.

(** ** The billing reader, further *)

Section BillingMore.

Context {St : Type}.
Variable respond : call -> St -> St * result pyval.
Variable today : date.

(** X14. When the cost query is answered with periods, [get_month_cost]
    reads the first one only: it returns the amount and the unit of that
    period's unblended cost, "0.0" standing for a missing amount and "USD"
    for a missing unit, whatever the later periods hold. *)
Theorem get_month_cost_first_period s s1 resp first later totals cost :
  respond (month_cost_query today) s = (s1, Ok resp) ->
  get resp "ResultsByTime" (PList []) = Ok (PList (first :: later)) ->
  entry first "Total" = Some (PDict totals) ->
  assoc "UnblendedCost" totals = Some (PDict cost) ->
  get_month_cost respond today s
  = Run s1 [Request (month_cost_query today)]
        (Ok (match assoc "Amount" cost with Some a => a | None => PStr "0.0" end,
             match assoc "Unit" cost with Some u => u | None => PStr "USD" end)).
Proof.
  intros Hquery Hresults Htotal Hcost.
  unfold get_month_cost, bind, invoke, lift, ret.
  rewrite Hquery. cbn [value final trace]. rewrite Hresults. cbn [value final trace truthy negb].
  destruct first as [| | | | | kvs]; try discriminate. cbn in Htotal.
  cbn [item0 rbind get]. rewrite Htotal. cbn [rbind get]. rewrite Hcost. reflexivity.
Qed.

(** X15. [get_top_usage] treats a missing "ResultsByTime" and an empty one
    differently: without the key it returns no rows, whatever [top_n]; with
    the key holding an empty list it raises [IndexError], where
    [get_month_cost] has its fallback. *)
Theorem get_top_usage_no_periods fm top_n s s1 resp :
  respond (top_usage_query today) s = (s1, Ok resp) ->
  is_dict resp = true ->
  (entry resp "ResultsByTime" = None ->
   get_top_usage respond today fm top_n s = Run s1 [Request (top_usage_query today)] (Ok []))
  /\ (entry resp "ResultsByTime" = Some (PList []) ->
      get_top_usage respond today fm top_n s
      = Run s1 [Request (top_usage_query today)]
            (Raise (Exn IndexError "list index out of range"))).
Proof.
  intros Hquery Hdict. destruct resp as [| | | | | kvs]; try discriminate.
  cbn [entry].
  split; intros Hperiods; unfold get_top_usage, bind, invoke, lift;
    rewrite Hquery; cbn [value final trace get]; rewrite Hperiods; cbn.
  - unfold slice_to. destruct (0 <=? top_n); cbn; rewrite firstn_nil; reflexivity.
  - reflexivity.
Qed.


(** X17. For amounts that compare as numbers do and a bound that is not
    negative, [get_top_usage] returns the first [top_n] rows of a ranking
    that holds exactly the rows read, in which no row has an amount below
    that of a row after it, and in which rows of equal amount stand in the
    order the provider gave them. *)
Theorem get_top_usage_ranked fm top_n s s1 resp periods first groups gs rows :
  (forall a, float_lt fm a a = false) ->
  (forall a b c, float_lt fm a b = true -> float_lt fm b c = true -> float_lt fm a c = true) ->
  (forall a b c, float_lt fm a b = false -> float_lt fm b c = false ->
                 float_lt fm a c = false) ->
  respond (top_usage_query today) s = (s1, Ok resp) ->
  get resp "ResultsByTime" (PList [PDict []]) = Ok periods ->
  item0 periods = Ok first ->
  get first "Groups" (PList []) = Ok groups ->
  iter groups = Ok gs ->
  rmap (usage_group_row fm) gs = Ok rows ->
  0 <= top_n ->
  exists ranking,
    value (get_top_usage respond today fm top_n s) = Ok (firstn (Z.to_nat top_n) ranking)
    /\ Permutation ranking rows
    /\ StronglySorted
         (fun r1 r2 => float_lt fm (usage_amount r1) (usage_amount r2) = false) ranking
    /\ (forall k,
          List.filter (fun r => negb (float_lt fm (usage_amount r) k)
                                && negb (float_lt fm k (usage_amount r))) ranking
          = List.filter (fun r => negb (float_lt fm (usage_amount r) k)
                                  && negb (float_lt fm k (usage_amount r))) rows).
Proof.
  intros Hirreflexive Htransitive Hnegative Hquery Hperiods Hfirst Hgroups Hiter Hrows Hn.
  destruct (get_top_usage_ranking respond today fm Hirreflexive Htransitive Hnegative
              top_n s s1 resp periods first groups gs rows
              Hquery Hperiods Hfirst Hgroups Hiter Hrows Hn)
    as (ranking & Hvalue & Hperm & Hsorted & Hstable & _).
  exists ranking. repeat split; assumption.
Qed.

End BillingMore.

Lemma get_month_cost_first_period_witness :
  value (get_month_cost Scripted.respond BillingExamples.today [Ok CostExamples.two_periods])
  = Ok (PStr "12.34", PStr "EUR")
  /\ value (get_month_cost Scripted.respond BillingExamples.today [Ok CostExamples.no_unit])
     = Ok (PStr "7.5", PStr "USD").
Proof.
  split.
  - exact (f_equal value
             (get_month_cost_first_period Scripted.respond BillingExamples.today
                [Ok CostExamples.two_periods] _ CostExamples.two_periods _ _ _ _
                eq_refl eq_refl eq_refl eq_refl)).
  - exact (f_equal value
             (get_month_cost_first_period Scripted.respond BillingExamples.today
                [Ok CostExamples.no_unit] _ CostExamples.no_unit _ _ _ _
                eq_refl eq_refl eq_refl eq_refl)).
Defined.

Lemma get_top_usage_no_periods_witness :
  value (get_top_usage Scripted.respond BillingExamples.today Decimal.model 5
           [Ok BillingExamples.no_key]) = Ok []
  /\ value (get_top_usage Scripted.respond BillingExamples.today Decimal.model 5
              [Ok BillingExamples.no_periods])
     = Raise (Exn IndexError "list index out of range").
Proof.
  split.
  - exact (f_equal value
             (proj1 (get_top_usage_no_periods Scripted.respond BillingExamples.today
                       Decimal.model 5 [Ok BillingExamples.no_key] _ BillingExamples.no_key
                       eq_refl eq_refl) eq_refl)).
  - exact (f_equal value
             (proj2 (get_top_usage_no_periods Scripted.respond BillingExamples.today
                       Decimal.model 5 [Ok BillingExamples.no_periods] _
                       BillingExamples.no_periods eq_refl eq_refl) eq_refl)).
Defined.


Lemma get_top_usage_ranked_witness :
  exists ranking,
    value (get_top_usage Scripted.respond BillingExamples.today Whole.model 3
             [Ok CostExamples.whole_usage]) = Ok (firstn 3 ranking)
    /\ length ranking = 4%nat
    /\ firstn 3 ranking = [(PStr "S3", 12, PStr "N/A"); (PStr "EC2", 5, PStr "N/A");
                           (PStr "SNS", 5, PStr "N/A")].
Proof.
  destruct (get_top_usage_ranked Scripted.respond BillingExamples.today Whole.model 3
              [Ok CostExamples.whole_usage] _ CostExamples.whole_usage _ _ _ _ _
              Z.ltb_irrefl
              (fun a b c Hab Hbc =>
                 proj2 (Z.ltb_lt a c)
                   (Z.lt_trans a b c (proj1 (Z.ltb_lt a b) Hab) (proj1 (Z.ltb_lt b c) Hbc)))
              (fun a b c Hab Hbc =>
                 proj2 (Z.ltb_ge a c)
                   (Z.le_trans c b a (proj1 (Z.ltb_ge b c) Hbc) (proj1 (Z.ltb_ge a b) Hab)))
              eq_refl eq_refl eq_refl eq_refl eq_refl eq_refl)
    as (ranking & Hvalue & Hperm & _ & _); [discriminate |].
  exists ranking. split; [exact Hvalue |].
  split; [exact (Permutation_length Hperm) |].
  vm_compute in Hvalue. injection Hvalue as Hvalue. symmetry. exact Hvalue.
Defined.

(** ** Strings *)

Section Strings.

Lemma prefix_char sep c rest :
  String.prefix (String sep EmptyString) (String c rest) = Ascii.eqb c sep.
Proof.
  cbn. destruct (ascii_dec sep c) as [-> | Hne].
  - rewrite Ascii.eqb_refl. destruct rest; reflexivity.
  - symmetry. apply Ascii.eqb_neq. congruence.
Qed.

Lemma split_first_contains sep s :
  contains (String sep EmptyString) s = false <-> split_first sep s = None.
Proof.
  induction s as [| c rest IH]; [split; reflexivity |].
  cbn [contains split_first]. rewrite prefix_char.
  destruct (Ascii.eqb c sep); [split; discriminate |].
  rewrite IH. destruct (split_first sep rest) as [[k v] |]; split; congruence.
Qed.

(** Splitting at the first separator undoes writing a key, the separator
    and a value, for every key without the separator and every value. *)
Lemma split_first_key_value sep k v :
  contains (String sep EmptyString) k = false ->
  split_first sep (k +:+ String sep v) = Some (k, v).
Proof.
  induction k as [| c k IH]; intros Hk.
  - change (split_first sep (String sep v) = Some (EmptyString, v)).
    cbn [split_first]. rewrite Ascii.eqb_refl. reflexivity.
  - cbn [contains] in Hk. rewrite prefix_char in Hk.
    change (split_first sep (String c (k +:+ String sep v)) = Some (String c k, v)).
    cbn [split_first].
    destruct (Ascii.eqb c sep); [discriminate |].
    rewrite (IH Hk). reflexivity.
Qed.

Lemma contains_key_value k v : contains "=" (key_value (k, v)) = true.
Proof.
  unfold key_value. cbn [fst snd].
  induction k as [| c k IH].
  { change (contains (String "=" EmptyString) (String "=" v) = true).
    cbn [contains]. rewrite prefix_char. reflexivity. }
  change (contains "=" (String c (k +:+ "=" +:+ v)) = true).
  cbn [contains]. rewrite IH. destruct (String.prefix _ _); reflexivity.
Qed.

Lemma lstrip_space_at s :
  lstrip s = match space_at s with Some rest => lstrip rest | None => s end.
Proof.
  destruct s as [| c1 [| c2 [| c3 rest]]];
    repeat (cbn [lstrip space_at];
            match goal with
            | |- context [if ?b then _ else _] => destruct b
            end);
    reflexivity.
Qed.

Lemma all_space_at s :
  all_space s = match s with
                | EmptyString => true
                | String _ _ =>
                    match space_at s with Some rest => all_space rest | None => false end
                end.
Proof.
  destruct s as [| c1 [| c2 [| c3 rest]]];
    repeat (cbn [all_space space_at];
            match goal with
            | |- context [if ?b then _ else _] => destruct b
            end);
    reflexivity.
Qed.

Lemma space_at_shorter s rest :
  space_at s = Some rest -> (String.length rest < String.length s)%nat.
Proof.
  destruct s as [| c1 [| c2 [| c3 r]]]; cbn [space_at];
    repeat match goal with
           | |- context [if ?b then _ else _] => destruct b
           end; intros [= <-] || discriminate; cbn [String.length]; lia.
Qed.

Lemma space_at_app s rest w :
  space_at s = Some rest -> space_at (s ++ w) = Some (rest ++ w).
Proof.
  destruct s as [| c1 [| c2 [| c3 r]]]; simpl;
    repeat match goal with
           | |- context [if ?b then _ else _] => destruct b
           end; intros [= <-] || discriminate; reflexivity.
Qed.

Lemma by_length (P : string -> Prop) :
  (forall s, (forall r, (String.length r < String.length s)%nat -> P r) -> P s) ->
  forall s, P s.
Proof.
  intros Hstep s. remember (String.length s) as n eqn:Hn.
  revert s Hn. induction n as [n IH] using lt_wf_ind. intros s ->.
  apply Hstep. intros r Hr. exact (IH _ Hr r eq_refl).
Qed.

(** What [lstrip] leaves does not begin with white space. *)
Lemma lstrip_head s : space_at (lstrip s) = None.
Proof.
  induction s as [s IH] using by_length. rewrite lstrip_space_at.
  destruct (space_at s) as [rest |] eqn:Hs; [| exact Hs].
  exact (IH rest (space_at_shorter _ _ Hs)).
Qed.

Lemma lstrip_fixed s : space_at s = None -> lstrip s = s.
Proof. intros Hs. rewrite lstrip_space_at, Hs. reflexivity. Qed.

(** What [rstrip] takes off is white space. *)
Lemma rstrip_suffix s : exists w, s = rstrip s ++ w /\ all_space w = true.
Proof.
  induction s as [| c rest (w & Hrest & Hw)]; [exists EmptyString; split; reflexivity |].
  cbn [rstrip]. destruct (all_space (String c rest)) eqn:Hall.
  - exists (String c rest). split; [reflexivity | exact Hall].
  - exists w. split; [| exact Hw].
    change (String c (rstrip rest) ++ w) with (String c (rstrip rest ++ w)).
    rewrite <- Hrest. reflexivity.
Qed.

Lemma all_space_app s w :
  all_space s = true -> all_space w = true -> all_space (s ++ w) = true.
Proof.
  induction s as [s IH] using by_length. intros Hs Hw.
  destruct s as [| c rest] eqn:Heq; [exact Hw |]. rewrite <- Heq in *.
  rewrite all_space_at in Hs. rewrite Heq in Hs at 1.
  destruct (space_at s) as [after |] eqn:Hat; [| discriminate].
  rewrite all_space_at.
  replace (match s ++ w with
           | EmptyString => true
           | String _ _ =>
               match space_at (s ++ w) with Some r => all_space r | None => false end
           end)
    with (match space_at (s ++ w) with Some r => all_space r | None => false end)
    by (rewrite Heq; reflexivity).
  rewrite (space_at_app _ _ w Hat).
  exact (IH after (space_at_shorter _ _ Hat) Hs Hw).
Qed.

Lemma rstrip_idempotent s : rstrip (rstrip s) = rstrip s.
Proof.
  induction s as [| c rest IH]; [reflexivity |].
  cbn [rstrip]. destruct (all_space (String c rest)) eqn:Hall; [reflexivity |].
  cbn [rstrip]. rewrite IH.
  destruct (all_space (String c (rstrip rest))) eqn:Hstripped; [| reflexivity].
  destruct (rstrip_suffix rest) as (w & Hrest & Hw).
  pose proof (all_space_app _ w Hstripped Hw) as Hwhole.
  change (String c (rstrip rest) ++ w) with (String c (rstrip rest ++ w)) in Hwhole.
  rewrite <- Hrest in Hwhole. congruence.
Qed.

(** Taking white space off the end of a text that does not begin with
    white space leaves one that does not. *)
Lemma rstrip_head s : space_at s = None -> space_at (rstrip s) = None.
Proof.
  intros Hs. destruct (space_at (rstrip s)) as [after |] eqn:Hat; [| reflexivity].
  destruct (rstrip_suffix s) as (w & Hsplit & _).
  apply (space_at_app _ _ w) in Hat. rewrite <- Hsplit in Hat. congruence.
Qed.

Lemma strip_idempotent s : strip (strip s) = strip s.
Proof.
  unfold strip.
  rewrite (lstrip_fixed _ (rstrip_head _ (lstrip_head s))). apply rstrip_idempotent.
Qed.

Lemma join_from_strings sep l : forall i,
  join_from i sep (map PStr l) = Ok (String.concat sep l).
Proof.
  induction l as [| x l IH]; intros i; [reflexivity |].
  cbn [map join_from]. rewrite IH. cbn [rbind].
  destruct l; reflexivity.
Qed.

Lemma join_strings sep l : join sep (map PStr l) = Ok (String.concat sep l).
Proof. apply join_from_strings. Qed.

End Strings.

(** ** The template parameters of [deploy template] *)

Section Parameters.

Lemma dict_set_to_map k v (d : list (string * string)) :
  (list_to_map (dict_set k v d) : gmap string string) = <[k := v]> (list_to_map d).
Proof.
  induction d as [| [k' v'] d IH]; [reflexivity |].
  cbn [dict_set]. destruct (String.eqb_spec k k') as [<- | Hne]; cbn [list_to_map foldr].
  - cbn. rewrite insert_insert_eq. reflexivity.
  - cbn. rewrite IH. apply insert_insert_ne. congruence.
Qed.

Lemma dict_set_keys k v (d : list (string * string)) :
  map fst (dict_set k v d)
  = if decide (k ∈ map fst d) then map fst d else (map fst d ++ [k])%list.
Proof.
  induction d as [| [k' v'] d IH]; [reflexivity |].
  cbn [dict_set map fst]. destruct (String.eqb_spec k k') as [<- | Hne].
  - cbn. rewrite decide_True by (apply elem_of_cons; left; reflexivity). reflexivity.
  - cbn [map fst]. rewrite IH. destruct (decide (k ∈ map fst d)) as [Hin | Hout].
    + rewrite decide_True by (apply elem_of_cons; right; exact Hin). reflexivity.
    + rewrite decide_False; [reflexivity |].
      intros [Heq | Hin]%elem_of_cons; [exact (Hne Heq) | exact (Hout Hin)].
Qed.

Lemma dict_set_NoDup k v (d : list (string * string)) :
  NoDup (map fst d) -> NoDup (map fst (dict_set k v d)).
Proof.
  intros Hd. rewrite dict_set_keys. destruct (decide _) as [Hin | Hout]; [exact Hd |].
  apply NoDup_app. split; [exact Hd |]. split; [| apply NoDup_singleton].
  intros x Hx Hk. apply list_elem_of_singleton in Hk as ->. contradiction.
Qed.

Lemma parse_params_key_values pairs : forall parameters,
  Forall (fun kv => contains "=" (fst kv) = false) pairs ->
  parse_params (map key_value pairs) parameters
  = Ok (Done (foldl (fun d kv => dict_set (fst kv) (snd kv) d) parameters pairs)).
Proof.
  induction pairs as [| [k v] pairs IH]; intros parameters Hkeys; [reflexivity |].
  apply Forall_cons in Hkeys as [Hk Hkeys].
  cbn [map parse_params]. rewrite contains_key_value. cbn [negb].
  change (split_first "=" (key_value (k, v))) with (split_first "=" (k +:+ String "=" v)).
  cbn [fst] in Hk. rewrite (split_first_key_value "=" k v Hk). exact (IH _ Hkeys).
Qed.

Lemma foldl_dict_set pairs : forall parameters,
  NoDup (map fst parameters) ->
  let d := foldl (fun d kv => dict_set (fst kv) (snd kv) d) parameters pairs in
  NoDup (map fst d)
  /\ (list_to_map d : gmap string string)
     = foldl (fun m kv => <[fst kv := snd kv]> m) (list_to_map parameters) pairs.
Proof.
  induction pairs as [| [k v] pairs IH]; intros parameters Hd; cbn [foldl fst snd].
  - split; [exact Hd | reflexivity].
  - destruct (IH (dict_set k v parameters) (dict_set_NoDup k v _ Hd)) as [Hnodup Hmap].
    split; [exact Hnodup |]. rewrite Hmap, dict_set_to_map. reflexivity.
Qed.

Lemma list_to_map_rev (pairs : list (string * string)) :
  (list_to_map (rev pairs) : gmap string string)
  = foldl (fun m kv => <[fst kv := snd kv]> m) ∅ pairs.
Proof.
  induction pairs as [| [k v] pairs IH] using rev_ind; [reflexivity |].
  rewrite rev_unit, foldl_app. cbn. rewrite <- IH. reflexivity.
Qed.

(** X18. Options written key, "=", value, with no "=" in the key, are all
    accepted, "=" in a value included, and give a dictionary in which no
    key stands twice and every key holds the value of the last option that
    names it. *)
Theorem parse_params_dictionary pairs :
  Forall (fun kv => contains "=" (fst kv) = false) pairs ->
  exists parameters,
    parse_params (map key_value pairs) [] = Ok (Done parameters)
    /\ NoDup (map fst parameters)
    /\ (list_to_map parameters : gmap string string) = list_to_map (rev pairs).
Proof.
  intros Hkeys. eexists. split; [exact (parse_params_key_values pairs [] Hkeys) |].
  destruct (foldl_dict_set pairs [] (NoDup_nil_2 (A := string))) as [Hnodup Hmap].
  split; [exact Hnodup |]. cbv zeta in Hmap. rewrite Hmap, list_to_map_rev. reflexivity.
Qed.

(** One option without "=" is enough for the options to be refused, with
    that option in the message, wherever it stands among well-formed
    ones. *)
Lemma parse_params_malformed before : forall p after parameters,
  Forall (fun q => contains "=" q = true) before ->
  contains "=" p = false ->
  parse_params (before ++ p :: after) parameters
  = Ok (ClickException ("Invalid --param '" +:+ p +:+ "', expected KEY=VALUE")).
Proof.
  induction before as [| q before IH]; intros p after parameters Hbefore Hp.
  - cbn [app parse_params]. rewrite Hp. reflexivity.
  - apply Forall_cons in Hbefore as [Hq Hbefore].
    cbn [app parse_params]. rewrite Hq. cbn [negb].
    destruct (split_first "=" q) as [[k v] |] eqn:Hsplit.
    + exact (IH p after _ Hbefore Hp).
    + apply (split_first_contains "=" q) in Hsplit. congruence.
Qed.

End Parameters.

(** ** The commands *)

Section Commands.

Context {St : Type}.
Variable respond : call -> St -> St * result pyval.
Variable console : renderable -> option exn.
Variable today : date.
Variable py_str : pyval -> string.

(** [str] of a string is that string *)
Hypothesis py_str_string : forall s, py_str (PStr s) = s.

(** X19. [deploy template] with an option that has no "=" among its
    [--param] options, the ones before it being well formed: the command
    raises [ClickException] naming that option, and it has made no request
    and printed nothing. *)
Theorem deploy_template_rejects_malformed stack_name body before p after capabilities s :
  Forall (fun q => contains "=" q = true) before ->
  contains "=" p = false ->
  deploy_template respond console py_str stack_name body (before ++ p :: after) capabilities s
  = Run s [] (Ok (ClickException ("Invalid --param '" +:+ p +:+ "', expected KEY=VALUE"))).
Proof.
  intros Hbefore Hp.
  unfold deploy_template, try_except, bind, lift, ret.
  rewrite (parse_params_malformed before p after [] Hbefore Hp). reflexivity.
Qed.

(** *** A command that reports what it did, or the provider's error *)

(** The commands run a piece of program and print a line about what it
    returned; a [ClientError] or [BotoCoreError] is printed instead.  Rich
    has the last word: the exception it raises on a line leaves the
    command, from the handler always, from the body when it is of no class
    the handler takes. *)
Lemma command_run {A B} (m : M St A) (line : A -> output) (done : B) s :
  let command :=
    try_except (bind m (fun a => bind (print console (line a)) (fun _ => ret done)))
      is_ClientError_or_BotoCoreError
      (fun e => bind (print console (Error (exn_str e))) (fun _ => ret done)) s in
  let r := m s in
  (forall a, value r = Ok a -> console (rendered (line a)) = None ->
     command = Run (final r) (trace r ++ [Print (line a)]) (Ok done))
  /\ (forall a err, value r = Ok a -> console (rendered (line a)) = Some err ->
        is_ClientError_or_BotoCoreError err = false ->
        command = Run (final r) (trace r) (Raise err))
  /\ (forall e, value r = Raise e -> is_ClientError_or_BotoCoreError e = true ->
        console (rendered (Error (exn_str e))) = None ->
        command = Run (final r) (trace r ++ [Print (Error (exn_str e))]) (Ok done))
  /\ (forall e err, value r = Raise e -> is_ClientError_or_BotoCoreError e = true ->
        console (rendered (Error (exn_str e))) = Some err ->
        command = Run (final r) (trace r) (Raise err))
  /\ (forall e, value r = Raise e -> is_ClientError_or_BotoCoreError e = false ->
        command = Run (final r) (trace r) (Raise e)).
Proof.
  intros command r. unfold command, try_except, bind, print, ret. fold r.
  destruct r as [s1 t [a | e]]; cbn [value final trace].
  - split; [| split; [| split; [| split]]]; try discriminate.
    + intros a' [= <-] Hline. rewrite Hline. cbn [value final trace]. rewrite app_nil_r.
      reflexivity.
    + intros a' err [= <-] Hline Hclass. rewrite Hline. cbn [value final trace].
      rewrite Hclass, app_nil_r. reflexivity.
  - split; [discriminate |]. split; [discriminate |].
    split; [| split].
    + intros e' [= <-] Hclass Hline. rewrite Hclass, Hline. cbn [value final trace].
      rewrite app_nil_r. reflexivity.
    + intros e' err [= <-] Hclass Hline. rewrite Hclass, Hline. cbn [value final trace].
      rewrite app_nil_r. reflexivity.
    + intros e' [= <-] Hclass. rewrite Hclass. reflexivity.
Qed.

Lemma bind_lift_Ok {A B} (a : A) (k : A -> M St B) s : bind (lift (Ok a)) k s = k a s.
Proof. unfold bind, lift. cbn [value final trace app]. destruct (k a s); reflexivity. Qed.

(** X20. [deploy template] with well-formed options hands the dictionary
    they give to [ensure_stack] and reports its outcome: an identifier that
    is a string is printed after "Stack ready: "; a [ClientError] or
    [BotoCoreError] is printed as one error line and the command returns;
    any other exception leaves the command, nothing printed.  When rich
    raises on the line to print, its exception leaves the command in place
    of the line. *)
Theorem deploy_template_reports stack_name body params capabilities parameters s :
  parse_params params [] = Ok (Done parameters) ->
  let ensured := ensure_stack respond stack_name body parameters capabilities s in
  let deployed := deploy_template respond console py_str stack_name body params capabilities s in
  (forall id, value ensured = Ok (PStr id) ->
     console (rendered (Info ("Stack ready: " +:+ id))) = None ->
     deployed = Run (final ensured)
                    (trace ensured ++ [Print (Info ("Stack ready: " +:+ id))])
                    (Ok (Done tt)))
  /\ (forall id err, value ensured = Ok (PStr id) ->
        console (rendered (Info ("Stack ready: " +:+ id))) = Some err ->
        is_ClientError_or_BotoCoreError err = false ->
        deployed = Run (final ensured) (trace ensured) (Raise err))
  /\ (forall e, value ensured = Raise e -> is_ClientError_or_BotoCoreError e = true ->
        console (rendered (Error (exn_str e))) = None ->
        deployed = Run (final ensured)
                       (trace ensured ++ [Print (Error (exn_str e))])
                       (Ok (Done tt)))
  /\ (forall e err, value ensured = Raise e -> is_ClientError_or_BotoCoreError e = true ->
        console (rendered (Error (exn_str e))) = Some err ->
        deployed = Run (final ensured) (trace ensured) (Raise err))
  /\ (forall e, value ensured = Raise e -> is_ClientError_or_BotoCoreError e = false ->
        deployed = Run (final ensured) (trace ensured) (Raise e)).
Proof.
  intros Hparsed ensured deployed.
  assert (Hdeployed :
            deployed
            = try_except
                (bind (ensure_stack respond stack_name body parameters capabilities)
                   (fun stack_id =>
                      bind (print console (Info ("Stack ready: " +:+ py_str stack_id)))
                           (fun _ => ret (Done tt))))
                is_ClientError_or_BotoCoreError
                (fun e => bind (print console (Error (exn_str e))) (fun _ => ret (Done tt))) s).
  { unfold deployed, deploy_template, try_except. rewrite Hparsed. cbv zeta.
    rewrite !bind_lift_Ok. reflexivity. }
  rewrite Hdeployed.
  destruct (command_run (ensure_stack respond stack_name body parameters capabilities)
              (fun stack_id => Info ("Stack ready: " +:+ py_str stack_id)) (Done tt) s)
    as (Hline & Hrich & Herror & Hrich' & Hother).
  fold ensured in Hline, Hrich, Herror, Hrich', Hother.
  split; [| split; [| split; [| split]]].
  - intros id Hid Hrendered. specialize (Hline _ Hid). rewrite py_str_string in Hline.
    exact (Hline Hrendered).
  - intros id err Hid Hrendered. specialize (Hrich _ err Hid).
    rewrite py_str_string in Hrich. exact (Hrich Hrendered).
  - exact Herror.
  - exact Hrich'.
  - exact Hother.
Qed.

Lemma print_shown o (s : St) :
  console (rendered o) = None -> print console o s = Run s [Print o] (Ok tt).
Proof. intros Ho. unfold print. rewrite Ho. reflexivity. Qed.

Lemma print_refused o (s : St) err :
  console (rendered o) = Some err -> print console o s = Run s [] (Raise err).
Proof. intros Ho. unfold print. rewrite Ho. reflexivity. Qed.

(** A command whose last statement prints its line. *)
Lemma command_reports {A} (m : M St A) (line : A -> output) s s1 t :
  let command :=
    try_except (bind m (fun a => print console (line a)))
      is_ClientError_or_BotoCoreError (fun e => print console (Error (exn_str e))) s in
  (forall a, m s = Run s1 t (Ok a) ->
     (console (rendered (line a)) = None ->
      command = Run s1 (t ++ [Print (line a)]) (Ok tt))
     /\ (forall err, console (rendered (line a)) = Some err ->
           is_ClientError_or_BotoCoreError err = false ->
           command = Run s1 t (Raise err)))
  /\ (forall e, m s = Run s1 t (Raise e) ->
        (is_ClientError_or_BotoCoreError e = true ->
         console (rendered (Error (exn_str e))) = None ->
         command = Run s1 (t ++ [Print (Error (exn_str e))]) (Ok tt))
        /\ (forall err, is_ClientError_or_BotoCoreError e = true ->
              console (rendered (Error (exn_str e))) = Some err ->
              command = Run s1 t (Raise err))
        /\ (is_ClientError_or_BotoCoreError e = false -> command = Run s1 t (Raise e))).
Proof.
  intros command. unfold command, try_except, bind. split.
  - intros a Hm. rewrite Hm. cbn [value final trace]. split.
    + intros Hline. rewrite (print_shown _ _ Hline). reflexivity.
    + intros err Hline Hclass. rewrite (print_refused _ _ _ Hline). cbn [value final trace].
      rewrite Hclass, app_nil_r. reflexivity.
  - intros e Hm. rewrite Hm. cbn [value final trace]. split; [| split].
    + intros Hclass Hline. rewrite Hclass, (print_shown _ _ Hline). reflexivity.
    + intros err Hclass Hline. rewrite Hclass, (print_refused _ _ _ Hline).
      cbn [value final trace]. rewrite app_nil_r. reflexivity.
    + intros Hclass. rewrite Hclass. reflexivity.
Qed.

(** Printing asks the provider for nothing. *)
Lemma command_requests {A} (m : M St A) (line : A -> output) s :
  requests (trace (try_except (bind m (fun a => print console (line a)))
                     is_ClientError_or_BotoCoreError
                     (fun e => print console (Error (exn_str e))) s))
  = requests (trace (m s)).
Proof.
  unfold try_except, bind, print.
  destruct (m s) as [s1 t [a | e]]; cbn [value final trace].
  - destruct (console (rendered (line a))) as [err |]; cbn [value final trace].
    + destruct (is_ClientError_or_BotoCoreError err); cbn [trace];
        rewrite ?app_nil_r; [| reflexivity].
      destruct (console (rendered (Error (exn_str err)))); cbn [trace];
        rewrite requests_app, app_nil_r; reflexivity.
    + rewrite requests_app. cbn. rewrite app_nil_r. reflexivity.
  - destruct (is_ClientError_or_BotoCoreError e); [| reflexivity].
    destruct (console (rendered (Error (exn_str e)))); cbn [trace];
      rewrite requests_app; cbn; rewrite app_nil_r; reflexivity.
Qed.

Lemma get_month_cost_refused s s1 e :
  respond (month_cost_query today) s = (s1, Raise e) ->
  get_month_cost respond today s = Run s1 [Request (month_cost_query today)] (Raise e).
Proof.
  intros Hquery. unfold get_month_cost, bind, invoke. rewrite Hquery. reflexivity.
Qed.

Lemma get_month_cost_nothing s s1 resp results :
  respond (month_cost_query today) s = (s1, Ok resp) ->
  get resp "ResultsByTime" (PList []) = Ok results ->
  truthy results = false ->
  get_month_cost respond today s
  = Run s1 [Request (month_cost_query today)] (Ok (PStr "0.0", PStr "USD")).
Proof.
  intros Hquery Hresults Hnone. unfold get_month_cost, bind, invoke, lift, ret.
  rewrite Hquery. cbn [value final trace]. rewrite Hresults. cbn [value final trace].
  rewrite Hnone. reflexivity.
Qed.

Lemma try_except_handled {A} (body : M St A) handles handler s s1 t e s2 t2 v :
  body s = Run s1 t (Raise e) -> handles e = true -> handler e s1 = Run s2 t2 v ->
  try_except body handles handler s = Run s2 (t ++ t2) v.
Proof.
  intros Hbody Hclass Hhandler. unfold try_except. rewrite Hbody. cbn [value final trace].
  rewrite Hclass, Hhandler. reflexivity.
Qed.

Lemma try_except_passed {A} (body : M St A) handles handler s s1 t e :
  body s = Run s1 t (Raise e) -> handles e = false ->
  try_except body handles handler s = Run s1 t (Raise e).
Proof.
  intros Hbody Hclass. unfold try_except. rewrite Hbody. cbn [value]. rewrite Hclass.
  reflexivity.
Qed.

Lemma try_except_returned {A} (body : M St A) handles handler s s1 t a :
  body s = Run s1 t (Ok a) -> try_except body handles handler s = Run s1 t (Ok a).
Proof. intros Hbody. unfold try_except. rewrite Hbody. reflexivity. Qed.

(** X21. [billing show] when the cost query fails with a [ClientError] or
    [BotoCoreError]: one error line and nothing else is printed, and the
    command returns; when rich raises on that line, its exception leaves
    the command.  When the query is answered without result periods: the
    header, then "Estimated spend: 0.0 USD".  The header is printed only
    once the cost has been read. *)
Theorem billing_show_reports color s s1 :
  (forall e, respond (month_cost_query today) s = (s1, Raise e) ->
     is_ClientError_or_BotoCoreError e = true ->
     console (rendered (Error (exn_str e))) = None ->
     billing_show respond console today py_str color s
     = Run s1 [Request (month_cost_query today); Print (Error (exn_str e))] (Ok tt))
  /\ (forall e err, respond (month_cost_query today) s = (s1, Raise e) ->
        is_ClientError_or_BotoCoreError e = true ->
        console (rendered (Error (exn_str e))) = Some err ->
        billing_show respond console today py_str color s
        = Run s1 [Request (month_cost_query today)] (Raise err))
  /\ (forall e, respond (month_cost_query today) s = (s1, Raise e) ->
        is_ClientError_or_BotoCoreError e = false ->
        billing_show respond console today py_str color s
        = Run s1 [Request (month_cost_query today)] (Raise e))
  /\ (forall resp results,
        respond (month_cost_query today) s = (s1, Ok resp) ->
        get resp "ResultsByTime" (PList []) = Ok results ->
        truthy results = false ->
        console (rendered (Header "Current Month Cost" color)) = None ->
        console (rendered (Info "Estimated spend: 0.0 USD")) = None ->
        billing_show respond console today py_str color s
        = Run s1 [Request (month_cost_query today);
                  Print (Header "Current Month Cost" color);
                  Print (Info "Estimated spend: 0.0 USD")] (Ok tt)).
Proof.
  split; [| split; [| split]].
  - intros e Hquery Hclass Hline. unfold billing_show.
    exact (try_except_handled _ _ _ _ _ _ _ _ _ _
             (bind_raised _ _ _ _ _ _ (get_month_cost_refused _ _ _ Hquery))
             Hclass (print_shown _ _ Hline)).
  - intros e err Hquery Hclass Hline. unfold billing_show.
    exact (try_except_handled _ _ _ _ _ _ _ _ _ _
             (bind_raised _ _ _ _ _ _ (get_month_cost_refused _ _ _ Hquery))
             Hclass (print_refused _ _ _ Hline)).
  - intros e Hquery Hclass. unfold billing_show.
    exact (try_except_passed _ _ _ _ _ _ _
             (bind_raised _ _ _ _ _ _ (get_month_cost_refused _ _ _ Hquery)) Hclass).
  - intros resp results Hquery Hresults Hnone Hheader Hline. unfold billing_show.
    apply try_except_returned.
    refine (bind_flat _ _ _ _ _ _ _ _ _
              (get_month_cost_nothing _ _ _ _ Hquery Hresults Hnone) _).
    cbn [fst snd]. rewrite !py_str_string.
    exact (bind_flat _ _ _ _ _ _ _ _ _ (print_shown _ _ Hheader) (print_shown _ _ Hline)).
Qed.

Lemma split_on_some sep s : split_on sep s <> [].
Proof.
  destruct s as [| c rest]; cbn [split_on]; [discriminate |].
  destruct (Ascii.eqb c sep); [discriminate |].
  destruct (split_on sep rest); discriminate.
Qed.

Lemma rmap_Forall2 {A B} (f : A -> result B) l out :
  Forall2 (fun x y => f x = Ok y) l out -> rmap f l = Ok out.
Proof.
  induction 1 as [| x y l out Hx _ IH]; [reflexivity |].
  cbn. rewrite Hx. cbn. rewrite IH. reflexivity.
Qed.

Lemma named_item i id : entry i "InstanceId" = Some (PStr id) -> item i "InstanceId" = Ok (PStr id).
Proof. apply item_entry. Qed.

Lemma named_get1 i id : entry i "InstanceId" = Some (PStr id) -> get1 i "InstanceId" = Ok (PStr id).
Proof. destruct i; try discriminate. cbn. intros ->. reflexivity. Qed.

Lemma allocate_ec2_instance_refused ami_id instance_type key_name sg_ids subnet_id
    count name_tag s s1 e :
  respond (Api "ec2" "run_instances"
             (run_instances_params ami_id instance_type key_name sg_ids subnet_id
                count name_tag)) s = (s1, Raise e) ->
  allocate_ec2_instance respond ami_id instance_type key_name sg_ids subnet_id count name_tag s
  = Run s1 [Request (Api "ec2" "run_instances"
                       (run_instances_params ami_id instance_type key_name sg_ids subnet_id
                          count name_tag))] (Raise e).
Proof.
  intros Hlaunch. unfold allocate_ec2_instance, bind, invoke, lift. rewrite Hlaunch.
  reflexivity.
Qed.

Lemma allocate_ec2_instance_launched ami_id instance_type key_name sg_ids subnet_id
    count name_tag s s1 resp insts instances ids :
  respond (Api "ec2" "run_instances"
             (run_instances_params ami_id instance_type key_name sg_ids subnet_id
                count name_tag)) s = (s1, Ok resp) ->
  get resp "Instances" (PList []) = Ok insts ->
  iter insts = Ok instances ->
  Forall2 (fun i id => entry i "InstanceId" = Some (PStr id)) instances ids ->
  allocate_ec2_instance respond ami_id instance_type key_name sg_ids subnet_id count name_tag s
  = Run s1 [Request (Api "ec2" "run_instances"
                       (run_instances_params ami_id instance_type key_name sg_ids subnet_id
                          count name_tag))] (Ok (map PStr ids)).
Proof.
  intros Hlaunch Hinsts Hiter Hids.
  assert (Hread : rmap (fun i => item i "InstanceId") instances = Ok (map PStr ids)).
  { apply rmap_Forall2. apply Forall2_fmap_r.
    eapply Forall2_impl; [exact Hids |]. intros i id. apply named_item. }
  unfold allocate_ec2_instance, bind, invoke, lift. rewrite Hlaunch.
  cbn [value final trace]. rewrite Hinsts. cbn [rbind]. rewrite Hiter. cbn [rbind].
  rewrite Hread. reflexivity.
Qed.

Lemma try_except_at {A} (body body' : M St A) handles handler s :
  body s = body' s ->
  try_except body handles handler s = try_except body' handles handler s.
Proof. intros Hbody. unfold try_except. rewrite Hbody. reflexivity. Qed.

Lemma bind_assoc {A B C} (m : M St A) (k : A -> M St B) (h : B -> M St C) s :
  bind m (fun a => bind (k a) h) s = bind (bind m k) h s.
Proof.
  unfold bind. destruct (m s) as [s1 t [a | e]]; cbn [value final trace]; [| reflexivity].
  destruct (k a s1) as [s2 t2 [b | e]]; cbn [value final trace]; [| reflexivity].
  rewrite app_assoc. reflexivity.
Qed.

Lemma joined_run (m : M St (list pyval)) s s1 t ids :
  m s = Run s1 t (Ok (map PStr ids)) ->
  bind m (fun acted => lift (join ", " acted)) s = Run s1 t (Ok (String.concat ", " ids)).
Proof.
  intros Hm. unfold bind, lift. rewrite Hm. cbn [value final trace].
  rewrite join_strings, app_nil_r. reflexivity.
Qed.

(** X22. [allocate ec2]: the pieces of [--sg] between commas, each
    stripped, are all sent as security groups, empty pieces included, and
    nothing is sent for them without the option.  A [ClientError] or
    [BotoCoreError] of the launch is printed as one error line and the
    command returns; when the launch answers with instances that have
    identifiers, these are printed after "Launched instances: ", separated
    by ", ".  When rich raises on the line to print, its exception leaves
    the command in place of the line. *)
Theorem allocate_ec2_reports ami_id instance_type key_name security_groups subnet_id
    count name_tag s :
  let command := allocate_ec2 respond console ami_id instance_type key_name security_groups
                   subnet_id count name_tag s in
  exists params,
    (params !! "SecurityGroupIds"
     = match security_groups with
       | Some groups =>
           if nonempty_str groups
           then Some (PList (map (fun piece => PStr (strip piece)) (split_on "," groups)))
           else None
       | None => None
       end)
    /\ (forall s1 e,
          respond (Api "ec2" "run_instances" params) s = (s1, Raise e) ->
          is_ClientError_or_BotoCoreError e = true ->
          (console (rendered (Error (exn_str e))) = None ->
           command = Run s1 [Request (Api "ec2" "run_instances" params);
                             Print (Error (exn_str e))] (Ok tt))
          /\ (forall err, console (rendered (Error (exn_str e))) = Some err ->
                command = Run s1 [Request (Api "ec2" "run_instances" params)] (Raise err)))
    /\ (forall s1 resp insts instances ids,
          respond (Api "ec2" "run_instances" params) s = (s1, Ok resp) ->
          get resp "Instances" (PList []) = Ok insts ->
          iter insts = Ok instances ->
          Forall2 (fun i id => entry i "InstanceId" = Some (PStr id)) instances ids ->
          let line := Info ("Launched instances: " +:+ String.concat ", " ids) in
          (console (rendered line) = None ->
           command = Run s1 [Request (Api "ec2" "run_instances" params); Print line] (Ok tt))
          /\ (forall err, console (rendered line) = Some err ->
                is_ClientError_or_BotoCoreError err = false ->
                command = Run s1 [Request (Api "ec2" "run_instances" params)] (Raise err))).
Proof.
  intros command.
  set (sg_ids := if given_str security_groups
                 then match security_groups with
                      | Some groups => Some (map strip (split_on "," groups))
                      | None => None
                      end
                 else None).
  set (launch := allocate_ec2_instance respond ami_id instance_type key_name sg_ids
                   subnet_id count name_tag).
  assert (Hcommand :
            command
            = try_except
                (bind (bind launch (fun ids => lift (join ", " ids)))
                      (fun joined => print console (Info ("Launched instances: " +:+ joined))))
                is_ClientError_or_BotoCoreError
                (fun e => print console (Error (exn_str e))) s).
  { unfold command, allocate_ec2. apply try_except_at. apply bind_assoc. }
  exists (run_instances_params ami_id instance_type key_name sg_ids subnet_id count name_tag).
  split; [| split].
  - destruct (run_instances_params_optional ami_id instance_type key_name sg_ids
                subnet_id count name_tag) as (_ & Hsgs & _).
    rewrite Hsgs. unfold sg_ids. destruct security_groups as [groups |]; [| reflexivity].
    cbn [given_str]. fold (nonempty_str groups).
    destruct (nonempty_str groups); [| reflexivity].
    cbn [given_list strs_of].
    destruct (split_on "," groups) as [| piece pieces] eqn:Hpieces.
    + exfalso. exact (split_on_some _ _ Hpieces).
    + cbn [map given_list]. rewrite map_map. reflexivity.
  - intros s1 e Hlaunch Hclass. rewrite Hcommand.
    pose proof (bind_raised launch (fun ids => lift (join ", " ids)) _ _ _ _
                  (allocate_ec2_instance_refused _ _ _ _ _ _ _ _ _ _ Hlaunch)) as Hm.
    destruct (proj2 (command_reports
                       _ (fun joined => Info ("Launched instances: " +:+ joined)) s _ _)
                    e Hm) as (Hline & Hrich & _).
    split; [intros Hrendered; exact (Hline Hclass Hrendered) |].
    intros err Hrendered. exact (Hrich err Hclass Hrendered).
  - intros s1 resp insts instances ids Hlaunch Hinsts Hiter Hids line. rewrite Hcommand.
    pose proof (joined_run launch _ _ _ _
                  (allocate_ec2_instance_launched _ _ _ _ _ _ _ _ _ _ _ _ _
                     Hlaunch Hinsts Hiter Hids)) as Hm.
    destruct (proj1 (command_reports
                       _ (fun joined => Info ("Launched instances: " +:+ joined)) s _ _)
                    _ Hm) as (Hline & Hrich).
    split; [exact Hline | exact Hrich].
Qed.

Lemma join_from_none sep before after : forall i,
  join_from i sep (map PStr before ++ PNone :: after)
  = Raise (Exn TypeError ("sequence item " +:+ pretty (i + length before)%nat
                          +:+ ": expected str instance, NoneType found")).
Proof.
  induction before as [| x before IH]; intros i.
  - cbn [map app join_from length type_name]. rewrite Nat.add_0_r. reflexivity.
  - cbn [map app join_from length]. rewrite IH. cbn [rbind].
    rewrite Nat.add_succ_r. reflexivity.
Qed.

Lemma filter_Forall {A} (P : A -> bool) l : Forall (fun x => P x = true) (List.filter P l).
Proof.
  induction l as [| x l IH]; [constructor |].
  cbn. destruct (P x) eqn:Hx; [constructor; assumption | exact IH].
Qed.

Lemma filter_keeps {A} (P : A -> bool) (Q : A -> Prop) l :
  Forall Q l -> Forall Q (List.filter P l).
Proof.
  induction 1 as [| x l Hx _ IH]; [constructor |].
  cbn. destruct (P x); [constructor; assumption | exact IH].
Qed.

Lemma deallocate_ec2_instances_refused ids (terminate : bool) s s1 e :
  respond (if terminate then terminate_instances ids else stop_instances ids) s
  = (s1, Raise e) ->
  deallocate_ec2_instances respond ids terminate s
  = Run s1 [Request (if terminate then terminate_instances ids else stop_instances ids)]
        (Raise e).
Proof.
  intros Hrequest. unfold deallocate_ec2_instances, bind, invoke, lift.
  destruct terminate; rewrite Hrequest; reflexivity.
Qed.

Lemma deallocate_ec2_instances_read ids (terminate : bool) s s1 resp insts entries :
  respond (if terminate then terminate_instances ids else stop_instances ids) s
  = (s1, Ok resp) ->
  get resp (if terminate then "TerminatingInstances" else "StoppingInstances") (PList [])
  = Ok insts ->
  iter insts = Ok entries ->
  deallocate_ec2_instances respond ids terminate s
  = Run s1 [Request (if terminate then terminate_instances ids else stop_instances ids)]
        (rmap (fun i => get1 i "InstanceId") entries).
Proof.
  intros Hrequest Hinsts Hiter. unfold deallocate_ec2_instances, bind, invoke, lift.
  destruct terminate; rewrite Hrequest; cbn [value final trace]; rewrite Hinsts;
    cbn [rbind]; rewrite Hiter; cbn [rbind];
    destruct (rmap _ entries); reflexivity.
Qed.

Lemma deallocate_ec2_instances_trace ids (terminate : bool) s :
  trace (deallocate_ec2_instances respond ids terminate s)
  = [Request (if terminate then terminate_instances ids else stop_instances ids)].
Proof.
  unfold deallocate_ec2_instances, bind, invoke, lift.
  destruct terminate; destruct (respond _ s) as [s1 [resp | e]]; reflexivity.
Qed.

(** X23. [deallocate ec2]: every identifier sent is a piece of
    [--instance-ids] between commas, stripped; none is empty or has white
    space around it.  [--stop] asks for a stop and nothing else, its
    absence for a termination and nothing else.  A [ClientError] or
    [BotoCoreError] is printed as one error line and the command returns;
    identifiers the provider answers with are printed after "Instances
    stopped: " or "Instances terminated: "; when rich raises on the line to
    print, its exception leaves the command in place of the line; and when
    an entry of the answer has no identifier, the command raises
    [TypeError] after the request, nothing printed. *)
Theorem deallocate_ec2_reports instance_ids (stop : bool) s :
  exists ids,
    let request := if stop then stop_instances ids else terminate_instances ids in
    let listed := if stop then "StoppingInstances" else "TerminatingInstances" in
    let done := if stop then "stopped" else "terminated" in
    let command := deallocate_ec2 respond console instance_ids stop s in
    Forall (fun id => id <> EmptyString /\ strip id = id
                      /\ exists piece, In piece (split_on "," instance_ids)
                                       /\ id = strip piece) ids
    /\ requests (trace command) = [request]
    /\ (forall s1 e,
          respond request s = (s1, Raise e) ->
          is_ClientError_or_BotoCoreError e = true ->
          (console (rendered (Error (exn_str e))) = None ->
           command = Run s1 [Request request; Print (Error (exn_str e))] (Ok tt))
          /\ (forall err, console (rendered (Error (exn_str e))) = Some err ->
                command = Run s1 [Request request] (Raise err)))
    /\ (forall s1 resp insts entries acted,
          respond request s = (s1, Ok resp) ->
          get resp listed (PList []) = Ok insts ->
          iter insts = Ok entries ->
          Forall2 (fun i id => entry i "InstanceId" = Some (PStr id)) entries acted ->
          let line := Info ("Instances " +:+ done +:+ ": " +:+ String.concat ", " acted) in
          (console (rendered line) = None ->
           command = Run s1 [Request request; Print line] (Ok tt))
          /\ (forall err, console (rendered line) = Some err ->
                is_ClientError_or_BotoCoreError err = false ->
                command = Run s1 [Request request] (Raise err)))
    /\ (forall s1 resp insts before nameless after acted,
          respond request s = (s1, Ok resp) ->
          get resp listed (PList []) = Ok insts ->
          iter insts = Ok (before ++ nameless :: after)%list ->
          Forall2 (fun i id => entry i "InstanceId" = Some (PStr id)) before acted ->
          is_dict nameless = true -> entry nameless "InstanceId" = None ->
          Forall (fun i => is_dict i = true) after ->
          command
          = Run s1 [Request request]
                (Raise (Exn TypeError ("sequence item " +:+ pretty (length before)
                                       +:+ ": expected str instance, NoneType found")))).
Proof.
  set (ids := List.filter nonempty_str (map strip (split_on "," instance_ids))).
  exists ids. cbv zeta.
  set (line := fun joined =>
         Info ("Instances " +:+ (if stop then "stopped" else "terminated") +:+ ": "
               +:+ joined)).
  set (act := deallocate_ec2_instances respond ids (negb stop)).
  assert (Hcommand :
            deallocate_ec2 respond console instance_ids stop s
            = try_except
                (bind (bind act (fun acted => lift (join ", " acted)))
                      (fun joined => print console (line joined)))
                is_ClientError_or_BotoCoreError
                (fun e => print console (Error (exn_str e))) s).
  { unfold deallocate_ec2. apply try_except_at. apply bind_assoc. }
  assert (Hrequest : (if negb stop then terminate_instances ids else stop_instances ids)
                     = (if stop then stop_instances ids else terminate_instances ids)).
  { destruct stop; reflexivity. }
  assert (Hlisted : (if negb stop then "TerminatingInstances" else "StoppingInstances")
                    = (if stop then "StoppingInstances" else "TerminatingInstances")).
  { destruct stop; reflexivity. }
  split; [| split; [| split; [| split]]].
  - apply Forall_and. split.
    { eapply List.Forall_impl; [| apply filter_Forall]. intros id Hid Hempty.
      subst id. discriminate. }
    apply filter_keeps. apply List.Forall_forall. intros id Hid.
    apply in_map_iff in Hid as (piece & <- & Hpiece).
    split; [apply strip_idempotent | eauto].
  - rewrite Hcommand, command_requests. unfold bind, lift.
    pose proof (deallocate_ec2_instances_trace ids (negb stop) s) as Htrace.
    fold act in Htrace. rewrite Hrequest in Htrace.
    destruct (act s) as [s1 t [acted | e]]; cbn [value final trace] in *;
      rewrite ?app_nil_r, Htrace; reflexivity.
  - intros s1 e Hanswer Hclass. rewrite Hcommand. rewrite <- Hrequest in *.
    pose proof (bind_raised act (fun acted => lift (join ", " acted)) _ _ _ _
                  (deallocate_ec2_instances_refused _ _ _ _ _ Hanswer)) as Hm.
    destruct (proj2 (command_reports _ line s _ _) e Hm) as (Hline & Hrich & _).
    split; [intros Hrendered; exact (Hline Hclass Hrendered) |].
    intros err Hrendered. exact (Hrich err Hclass Hrendered).
  - intros s1 resp insts entries acted Hanswer Hinsts Hiter Hacted. rewrite Hcommand.
    rewrite <- Hrequest in *. rewrite <- Hlisted in Hinsts.
    assert (Hread : rmap (fun i => get1 i "InstanceId") entries = Ok (map PStr acted)).
    { apply rmap_Forall2. apply Forall2_fmap_r.
      eapply Forall2_impl; [exact Hacted |]. intros i id. apply named_get1. }
    pose proof (deallocate_ec2_instances_read _ _ _ _ _ _ _ Hanswer Hinsts Hiter) as Hact.
    rewrite Hread in Hact.
    pose proof (joined_run act _ _ _ _ Hact) as Hm.
    destruct (proj1 (command_reports _ line s _ _) _ Hm) as (Hline & Hrich).
    split; [exact Hline | exact Hrich].
  - intros s1 resp insts before nameless after acted
      Hanswer Hinsts Hiter Hacted Hdict Hnone Hafter. rewrite Hcommand.
    rewrite <- Hrequest in *. rewrite <- Hlisted in Hinsts.
    assert (Hread : exists rest,
               rmap (fun i => get1 i "InstanceId") (before ++ nameless :: after)
               = Ok (map PStr acted ++ PNone :: rest)%list).
    { clear Hiter. induction Hacted as [| i id before acted Hi _ IH].
      - destruct (rmap_returns (fun i => get1 i "InstanceId")
                    (fun i => is_dict i = true)
                    (fun i Hi => ex_intro _ _ (get1_field i _ Hi)) after Hafter)
          as (rest & Hrest & _).
        exists rest. cbn [app map rmap]. rewrite (get1_field nameless _ Hdict).
        cbn [rbind]. rewrite Hrest. cbn [rbind].
        destruct nameless; try discriminate. cbn in Hnone |- *. rewrite Hnone. reflexivity.
      - destruct IH as [rest IH]. exists rest.
        cbn [app map rmap]. rewrite (named_get1 _ _ Hi). cbn [rbind]. rewrite IH.
        reflexivity. }
    destruct Hread as [rest Hread].
    assert (Hlength : length acted = length before).
    { symmetry. exact (Forall2_length _ _ _ Hacted). }
    pose proof (deallocate_ec2_instances_read _ _ _ _ _ _ _ Hanswer Hinsts Hiter) as Hact.
    rewrite Hread in Hact.
    assert (Hm : bind act (fun acted => lift (join ", " acted)) s
                 = Run s1 [Request (if negb stop then terminate_instances ids
                                    else stop_instances ids)]
                       (Raise (Exn TypeError
                                 ("sequence item " +:+ pretty (length before)
                                  +:+ ": expected str instance, NoneType found")))).
    { unfold bind, lift. fold act in Hact. rewrite Hact. cbn [value final trace].
      unfold join. rewrite join_from_none, Hlength. reflexivity. }
    destruct (proj2 (command_reports _ line s _ _) _ Hm) as (_ & _ & Hother).
    exact (Hother eq_refl).
Qed.

Lemma requests_asked asked o :
  requests (map Request asked ++ [Print o]) = asked
  /\ printed (map Request asked ++ [Print o]) = [o]
  /\ requests (map Request asked) = asked
  /\ printed (map Request asked) = [].
Proof.
  unfold requests, printed.
  induction asked as [| c asked (IH1 & IH2 & IH3 & IH4)]; [repeat split |].
  cbn [map app omap list_omap]. rewrite IH1, IH2, IH3, IH4. repeat split.
Qed.

Lemma deallocate_s3_bucket_run bucket_name force s :
  exists s1 asked never_made r,
    deallocate_s3_bucket respond bucket_name force s = Run s1 (map Request asked) r
    /\ (if force
        then [delete_objects bucket_name; delete_object_versions bucket_name;
              delete_bucket bucket_name]
        else [delete_bucket bucket_name]) = (asked ++ never_made)%list
    /\ asked <> []
    /\ (r = Ok tt -> never_made = []).
Proof.
  unfold deallocate_s3_bucket, bind, invoke, ret.
  destruct force.
  - destruct (respond (delete_objects bucket_name) s) as [s1 [r1 | e]];
      cbn [value final trace app].
    + destruct (respond (delete_object_versions bucket_name) s1) as [s2 [r2 | e]];
        cbn [value final trace app].
      * destruct (respond (delete_bucket bucket_name) s2) as [s3 [r3 | e]];
          cbn [value final trace app];
          exists s3, [delete_objects bucket_name; delete_object_versions bucket_name;
                      delete_bucket bucket_name], [];
          eexists; (split; [reflexivity |]); (split; [reflexivity |]);
          (split; [discriminate | reflexivity]).
      * exists s2, [delete_objects bucket_name; delete_object_versions bucket_name],
          [delete_bucket bucket_name].
        eexists. split; [reflexivity |]. split; [reflexivity |].
        split; discriminate.
    + exists s1, [delete_objects bucket_name],
        [delete_object_versions bucket_name; delete_bucket bucket_name].
      eexists. split; [reflexivity |]. split; [reflexivity |]. split; discriminate.
  - cbn [value final trace app].
    destruct (respond (delete_bucket bucket_name) s) as [s1 [r1 | e]];
      cbn [value final trace app];
      exists s1, [delete_bucket bucket_name], [];
      eexists; (split; [reflexivity |]); (split; [reflexivity |]);
      (split; [discriminate | reflexivity]).
Qed.

(** X24. [deallocate s3] makes the requests it has to make in order, the
    first of them at least: with [--force] the deletion of the objects, of
    the versions and of the bucket, without it the deletion of the bucket
    alone.  It prints one line at most, and "Deleted bucket: " with the name
    only when all of them have been made, the deletion of the bucket being
    the last; it then returns.  Otherwise it has printed the one error line
    of a [ClientError] or [BotoCoreError] and returns, or it raises, nothing
    printed: an exception of another class of the provider, or the one rich
    raised on the line to print. *)
Theorem deallocate_s3_reports bucket_name force s :
  let command := deallocate_s3 respond console bucket_name force s in
  let planned :=
    if force
    then [delete_objects bucket_name; delete_object_versions bucket_name;
          delete_bucket bucket_name]
    else [delete_bucket bucket_name] in
  exists never_made,
    planned = (requests (trace command) ++ never_made)%list
    /\ requests (trace command) <> []
    /\ ((printed (trace command) = [Info ("Deleted bucket: " +:+ bucket_name)]
         /\ never_made = [] /\ value command = Ok tt)
        \/ (exists e, is_ClientError_or_BotoCoreError e = true
                      /\ printed (trace command) = [Error (exn_str e)]
                      /\ value command = Ok tt)
        \/ (exists e, printed (trace command) = [] /\ value command = Raise e)).
Proof.
  intros command planned.
  destruct (deallocate_s3_bucket_run bucket_name force s)
    as (s1 & asked & never_made & r & Hrun & Hplanned & Hasked & Hall).
  exists never_made.
  assert (Hrequests : requests (trace command) = asked).
  { unfold command, deallocate_s3. rewrite command_requests, Hrun. cbn [trace].
    apply (requests_asked asked (Error EmptyString)). }
  rewrite Hrequests. split; [exact Hplanned |]. split; [exact Hasked |].
  destruct (requests_asked asked (Info ("Deleted bucket: " +:+ bucket_name)))
    as (_ & Hinfo & _ & Hnone).
  destruct (command_reports (deallocate_s3_bucket respond bucket_name force)
              (fun _ => Info ("Deleted bucket: " +:+ bucket_name)) s s1 (map Request asked))
    as (Hreturned & Hraised).
  fold (deallocate_s3 respond console bucket_name force s) in Hreturned, Hraised.
  fold command in Hreturned, Hraised.
  assert (Herror : forall e, is_ClientError_or_BotoCoreError e = true ->
                     (console (rendered (Error (exn_str e))) = None ->
                      command = Run s1 (map Request asked ++ [Print (Error (exn_str e))])
                                    (Ok tt)) ->
                     (forall err, console (rendered (Error (exn_str e))) = Some err ->
                                  command = Run s1 (map Request asked) (Raise err)) ->
                     (exists e', is_ClientError_or_BotoCoreError e' = true
                                 /\ printed (trace command) = [Error (exn_str e')]
                                 /\ value command = Ok tt)
                     \/ (exists e', printed (trace command) = []
                                    /\ value command = Raise e')).
  { intros e Hclass Hline Hrich.
    destruct (console (rendered (Error (exn_str e)))) as [err |] eqn:Hconsole.
    - right. exists err. rewrite (Hrich err eq_refl). split; [exact Hnone | reflexivity].
    - left. exists e. rewrite (Hline eq_refl). split; [exact Hclass |].
      split; [apply (requests_asked asked (Error (exn_str e))) | reflexivity]. }
  destruct r as [[] | e].
  - destruct (Hreturned tt Hrun) as (Hline & Hrich).
    destruct (console (rendered (Info ("Deleted bucket: " +:+ bucket_name))))
      as [err |] eqn:Hconsole.
    + destruct (is_ClientError_or_BotoCoreError err) eqn:Hclass.
      * right.
        assert (Hbody : bind (deallocate_s3_bucket respond bucket_name force)
                          (fun _ => print console (Info ("Deleted bucket: " +:+ bucket_name))) s
                        = Run s1 (map Request asked) (Raise err)).
        { unfold bind. rewrite Hrun. cbn [value final trace].
          rewrite (print_refused _ _ _ Hconsole). cbn [value final trace].
          rewrite app_nil_r. reflexivity. }
        apply (Herror err Hclass).
        -- intros Hrendered. unfold command, deallocate_s3.
           exact (try_except_handled _ _ _ _ _ _ _ _ _ _ Hbody Hclass
                    (print_shown _ _ Hrendered)).
        -- intros err' Hrendered. unfold command, deallocate_s3.
           rewrite (try_except_handled _ _ _ _ _ _ _ _ _ _ Hbody Hclass
                      (print_refused _ _ _ Hrendered)).
           rewrite app_nil_r. reflexivity.
      * right; right. exists err. rewrite (Hrich err eq_refl Hclass).
        split; [exact Hnone | reflexivity].
    + left. rewrite (Hline eq_refl). split; [exact Hinfo |].
      split; [exact (Hall eq_refl) | reflexivity].
  - destruct (Hraised e Hrun) as (Hline & Hrich & Hother).
    destruct (is_ClientError_or_BotoCoreError e) eqn:Hclass.
    + right. exact (Herror e Hclass (Hline eq_refl) (fun err => Hrich err eq_refl)).
    + right; right. exists e. rewrite (Hother eq_refl). split; [exact Hnone | reflexivity].
Qed.

(** X25. [allocate s3] makes one request, [create_bucket] for the name,
    with the location constraint of the region unless the context has no
    region, an empty one or "us-east-1".  It prints "Created bucket: " with
    the name when that request is answered, and the one error line when it
    raises a [ClientError] or [BotoCoreError]; any other exception leaves
    the command, nothing printed, and so does the exception rich raises on
    the line to print. *)
Theorem allocate_s3_reports region_name bucket_name s :
  let command := allocate_s3 respond console region_name bucket_name s in
  let region :=
    match region_name with
    | Some r => if nonempty_str r && negb (String.eqb r "us-east-1") then Some r else None
    | None => None
    end in
  let request := create_bucket bucket_name region in
  let created := Info ("Created bucket: " +:+ bucket_name) in
  requests (trace command) = [request]
  /\ (forall answer, snd (respond request s) = Ok answer ->
        (console (rendered created) = None ->
         printed (trace command) = [created] /\ value command = Ok tt)
        /\ (forall err, console (rendered created) = Some err ->
              is_ClientError_or_BotoCoreError err = false ->
              printed (trace command) = [] /\ value command = Raise err))
  /\ (forall e, snd (respond request s) = Raise e ->
        (is_ClientError_or_BotoCoreError e = true ->
         console (rendered (Error (exn_str e))) = None ->
         printed (trace command) = [Error (exn_str e)] /\ value command = Ok tt)
        /\ (forall err, is_ClientError_or_BotoCoreError e = true ->
              console (rendered (Error (exn_str e))) = Some err ->
              printed (trace command) = [] /\ value command = Raise err)
        /\ (is_ClientError_or_BotoCoreError e = false ->
            printed (trace command) = [] /\ value command = Raise e)).
Proof.
  intros command region request created. subst created.
  assert (Hbucket : allocate_s3_bucket respond region_name bucket_name s
                    = Run (fst (respond request s)) [Request request]
                          (rbind (snd (respond request s)) (fun _ => Ok tt))).
  { assert (Hsame : allocate_s3_bucket respond region_name bucket_name s
                    = bind (invoke respond request) (fun _ => ret tt) s).
    { unfold request, region, allocate_s3_bucket.
      destruct region_name as [r |]; cbn [given_str andb]; [| reflexivity].
      fold (nonempty_str r).
      destruct (nonempty_str r); cbn [andb]; [| reflexivity].
      destruct (String.eqb r "us-east-1"); reflexivity. }
    rewrite Hsame. unfold bind, invoke, ret.
    destruct (respond request s) as [s1 [answer | e]]; reflexivity. }
  clearbody request. clear region.
  split.
  { unfold command, allocate_s3. rewrite command_requests, Hbucket. reflexivity. }
  destruct (command_reports (allocate_s3_bucket respond region_name bucket_name)
              (fun _ => Info ("Created bucket: " +:+ bucket_name)) s
              (fst (respond request s)) [Request request])
    as (Hreturned & Hraised).
  fold (allocate_s3 respond console region_name bucket_name s) in Hreturned, Hraised.
  fold command in Hreturned, Hraised.
  split.
  - intros answer Hanswer. rewrite Hanswer in Hbucket. cbn [rbind] in Hbucket.
    destruct (Hreturned tt Hbucket) as (Hline & Hrich). split.
    + intros Hrendered. rewrite (Hline Hrendered). split; reflexivity.
    + intros err Hrendered Hclass. rewrite (Hrich err Hrendered Hclass). split; reflexivity.
  - intros e He. rewrite He in Hbucket. cbn [rbind] in Hbucket.
    destruct (Hraised e Hbucket) as (Hline & Hrich & Hother). split; [| split].
    + intros Hclass Hrendered. rewrite (Hline Hclass Hrendered). split; reflexivity.
    + intros err Hclass Hrendered. rewrite (Hrich err Hclass Hrendered). split; reflexivity.
    + intros Hclass. rewrite (Hother Hclass). split; reflexivity.
Qed.

End Commands.

Lemma parse_params_dictionary_witness :
  exists parameters,
    parse_params ["Env=prod"; "Tag=a=b"; "Env=dev"] [] = Ok (Done parameters)
    /\ NoDup (map fst parameters)
    /\ (list_to_map parameters : gmap string string) !! "Env" = Some "dev"
    /\ (list_to_map parameters : gmap string string) !! "Tag" = Some "a=b".
Proof.
  assert (Hkeys : Forall (fun kv : string * string => contains "=" (fst kv) = false)
                    [("Env", "prod"); ("Tag", "a=b"); ("Env", "dev")]).
  { repeat constructor. }
  destruct (parse_params_dictionary [("Env", "prod"); ("Tag", "a=b"); ("Env", "dev")] Hkeys)
    as (parameters & Hparsed & Hnodup & Hmap).
  exists parameters. split; [exact Hparsed |]. split; [exact Hnodup |].
  rewrite Hmap. split; vm_compute; reflexivity.
Defined.

Lemma deploy_template_rejects_malformed_witness :
  deploy_template Scripted.respond Rich.console Text.str "web" ReconcilerExamples.body
    ["Env=prod"; "oops"; "Tier=web"] ReconcilerExamples.caps
    [Ok ReconcilerExamples.described]
  = Run [Ok ReconcilerExamples.described] []
        (Ok (ClickException "Invalid --param 'oops', expected KEY=VALUE")).
Proof.
  refine (deploy_template_rejects_malformed Scripted.respond Rich.console Text.str "web"
            ReconcilerExamples.body ["Env=prod"] "oops" ["Tier=web"]
            ReconcilerExamples.caps [Ok ReconcilerExamples.described] _ eq_refl).
  repeat constructor.
Defined.

Lemma deploy_template_reports_witness :
  printed (trace (deploy_template Scripted.respond Rich.console Text.str "web"
                    ReconcilerExamples.body ["Env=prod"] ReconcilerExamples.caps
                    [Raise ReconcilerExamples.absent; Ok ReconcilerExamples.accepted; Ok PNone]))
  = [Info "Stack ready: arn:web/1"]
  /\ deploy_template Scripted.respond Rich.console Text.str "web" ReconcilerExamples.body
       ["Env=prod"] ReconcilerExamples.caps [Raise ReconcilerExamples.denied]
     = Run [] [Request (describe_stacks "web");
               Print (Error (exn_str ReconcilerExamples.denied))] (Ok (Done tt))
  /\ deploy_template Scripted.respond Rich.console Text.str "web" ReconcilerExamples.body
       ["Env=prod"] ReconcilerExamples.caps
       [Raise ReconcilerExamples.absent; Raise MarkupExamples.malformed_template]
     = Run [] [Request (describe_stacks "web");
               Request (create_stack "web" ReconcilerExamples.body [("Env", "prod")]
                          ReconcilerExamples.caps)]
           (Raise (MarkupExamples.unmatched "[/Resources/Site]" 122))
  /\ value (deploy_template Scripted.respond Rich.console Text.str "web"
              ReconcilerExamples.body ["Env=prod"] ReconcilerExamples.caps
              [Ok ReconcilerExamples.described; Ok (PDict []); Ok PNone])
     = Raise (Exn KeyError "'StackId'").
Proof.
  pose proof (fun script =>
                deploy_template_reports Scripted.respond Rich.console Text.str
                  (fun s => eq_refl) "web" ReconcilerExamples.body ["Env=prod"]
                  ReconcilerExamples.caps [("Env", "prod")] script eq_refl) as Hreports.
  destruct (Hreports [Raise ReconcilerExamples.absent; Ok ReconcilerExamples.accepted;
                      Ok PNone]) as (Hready & _).
  destruct (Hreports [Raise ReconcilerExamples.denied]) as (_ & _ & Hdenied & _).
  destruct (Hreports [Raise ReconcilerExamples.absent;
                      Raise MarkupExamples.malformed_template]) as (_ & _ & _ & Hrich & _).
  destruct (Hreports [Ok ReconcilerExamples.described; Ok (PDict []); Ok PNone])
    as (_ & _ & _ & _ & Hother).
  split.
  { rewrite (Hready "arn:web/1"); [reflexivity | reflexivity | vm_compute; reflexivity]. }
  split.
  { rewrite (Hdenied ReconcilerExamples.denied);
      [reflexivity | reflexivity | reflexivity | vm_compute; reflexivity]. }
  split.
  { rewrite (Hrich MarkupExamples.malformed_template
               (MarkupExamples.unmatched "[/Resources/Site]" 122));
      [reflexivity | reflexivity | reflexivity | vm_compute; reflexivity]. }
  rewrite (Hother (Exn KeyError "'StackId'")); reflexivity.
Defined.

Lemma billing_show_reports_witness :
  billing_show Scripted.respond Rich.console BillingExamples.today Text.str "cyan"
    [Raise ReconcilerExamples.denied]
  = Run [] [Request (month_cost_query BillingExamples.today);
            Print (Error (exn_str ReconcilerExamples.denied))] (Ok tt)
  /\ billing_show Scripted.respond Rich.console BillingExamples.today Text.str "cyan"
       [Raise MarkupExamples.malformed_template]
     = Run [] [Request (month_cost_query BillingExamples.today)]
           (Raise (MarkupExamples.unmatched "[/Resources/Site]" 122))
  /\ billing_show Scripted.respond Rich.console BillingExamples.today Text.str "cyan"
       [Ok BillingExamples.no_key]
     = Run [] [Request (month_cost_query BillingExamples.today);
               Print (Header "Current Month Cost" "cyan");
               Print (Info "Estimated spend: 0.0 USD")] (Ok tt).
Proof.
  pose proof (fun script =>
                billing_show_reports Scripted.respond Rich.console BillingExamples.today
                  Text.str (fun s => eq_refl) "cyan" script []) as Hreports.
  destruct (Hreports [Raise ReconcilerExamples.denied]) as (Hdenied & _).
  destruct (Hreports [Raise MarkupExamples.malformed_template]) as (_ & Hrich & _).
  destruct (Hreports [Ok BillingExamples.no_key]) as (_ & _ & _ & Hnone).
  split; [apply (Hdenied _ eq_refl eq_refl); vm_compute; reflexivity |].
  split; [apply (Hrich _ _ eq_refl eq_refl); vm_compute; reflexivity |].
  apply (Hnone _ _ eq_refl eq_refl eq_refl); vm_compute; reflexivity.
Defined.

Lemma allocate_ec2_reports_witness :
  (exists params,
     params !! "SecurityGroupIds" = Some (PList [PStr "sg-1"; PStr "sg-2"; PStr EmptyString])
     /\ allocate_ec2 Scripted.respond Rich.console "ami-1234" "t3.micro" None
          (Some "sg-1, sg-2 ,") None 2 None [Ok MoreExamples.two_launched]
        = Run [] [Request (Api "ec2" "run_instances" params);
                  Print (Info "Launched instances: i-0abc, i-0def")] (Ok tt))
  /\ (exists params,
        allocate_ec2 Scripted.respond Rich.console "ami-1234" "t3.micro" None None None 1 None
          [Ok MarkupExamples.tagged_launched]
        = Run [] [Request (Api "ec2" "run_instances" params)]
              (Raise (MarkupExamples.nothing_to_close 53))).
Proof.
  split.
  - destruct (allocate_ec2_reports Scripted.respond Rich.console "ami-1234" "t3.micro" None
                (Some "sg-1, sg-2 ,") None 2 None [Ok MoreExamples.two_launched])
      as (params & Hgroups & _ & Hlaunched).
    exists params. split; [exact Hgroups |].
    refine (proj1 (Hlaunched [] _ _ _ ["i-0abc"; "i-0def"] eq_refl eq_refl eq_refl _) _);
      [repeat constructor | vm_compute; reflexivity].
  - destruct (allocate_ec2_reports Scripted.respond Rich.console "ami-1234" "t3.micro" None
                None None 1 None [Ok MarkupExamples.tagged_launched])
      as (params & _ & _ & Hlaunched).
    exists params.
    refine (proj2 (Hlaunched [] _ _ _ ["i-0abc[/]"] eq_refl eq_refl eq_refl _) _ _ _);
      [repeat constructor | vm_compute; reflexivity | reflexivity].
Defined.

Lemma deallocate_ec2_reports_witness :
  exists ids,
    Forall (fun id => id <> EmptyString) ids
    /\ requests (trace (deallocate_ec2 Scripted.respond Rich.console " i-0abc, ,i-0def" true
                          [Ok MoreExamples.two_stopping]))
       = [stop_instances ids]
    /\ deallocate_ec2 Scripted.respond Rich.console " i-0abc, ,i-0def" true
         [Ok MoreExamples.two_stopping]
       = Run [] [Request (stop_instances ids)]
             (Raise (Exn TypeError
                       "sequence item 1: expected str instance, NoneType found")).
Proof.
  destruct (deallocate_ec2_reports Scripted.respond Rich.console " i-0abc, ,i-0def" true
              [Ok MoreExamples.two_stopping])
    as (ids & Hids & Hrequests & _ & _ & Hnameless).
  exists ids. split.
  { eapply List.Forall_impl; [| exact Hids]. intros id (Hid & _). exact Hid. }
  split; [exact Hrequests |].
  refine (Hnameless [] _ _ [PDict [("InstanceId", PStr "i-0abc")]]
            (PDict [("CurrentState", PStr "stopping")]) [] ["i-0abc"]
            eq_refl eq_refl eq_refl _ eq_refl eq_refl _);
    repeat constructor.
Defined.

Lemma allocate_s3_reports_witness :
  (requests (trace (allocate_s3 Scripted.respond Rich.console (Some "eu-west-1") "media"
                      [Raise MoreExamples.access_denied]))
   = [create_bucket "media" (Some "eu-west-1")]
   /\ printed (trace (allocate_s3 Scripted.respond Rich.console (Some "eu-west-1") "media"
                        [Raise MoreExamples.access_denied]))
      = [Error (exn_str MoreExamples.access_denied)])
  /\ (printed (trace (allocate_s3 Scripted.respond Rich.console (Some "us-east-1") "media"
                        [Ok PNone]))
      = [Info "Created bucket: media"])
  /\ (printed (trace (allocate_s3 Scripted.respond Rich.console None "My Bucket"
                        [Raise MarkupExamples.invalid_bucket_name])) = []
      /\ value (allocate_s3 Scripted.respond Rich.console None "My Bucket"
                  [Raise MarkupExamples.invalid_bucket_name])
         = Raise (MarkupExamples.unmatched "[/:]" 246)).
Proof.
  destruct (allocate_s3_reports Scripted.respond Rich.console (Some "eu-west-1") "media"
              [Raise MoreExamples.access_denied]) as (Hrequest & _ & Hraised).
  destruct (allocate_s3_reports Scripted.respond Rich.console (Some "us-east-1") "media"
              [Ok PNone]) as (_ & Hanswered & _).
  destruct (allocate_s3_reports Scripted.respond Rich.console None "My Bucket"
              [Raise MarkupExamples.invalid_bucket_name]) as (_ & _ & Hrich).
  split.
  { split; [exact Hrequest |].
    refine (proj1 (proj1 (Hraised _ eq_refl) eq_refl _)). vm_compute. reflexivity. }
  split.
  { refine (proj1 (proj1 (Hanswered _ eq_refl) _)). vm_compute. reflexivity. }
  refine (proj1 (proj2 (Hrich _ eq_refl)) _ eq_refl _). vm_compute. reflexivity.
Defined.

(** ** The closing line of [resources list] *)

Section ListingMore.

Context {St : Type}.
Variable respond : call -> St -> St * result pyval.
Variable console : renderable -> option exn.

Lemma printed_app t1 t2 : printed (t1 ++ t2) = (printed t1 ++ printed t2)%list.
Proof. unfold printed. apply omap_app. Qed.

Lemma bind_silent {A B} (m : M St A) (k : A -> M St B) :
  silent m -> (forall a, silent (k a)) -> silent (bind m k).
Proof.
  intros Hm Hk s. unfold bind. specialize (Hm s).
  destruct (m s) as [s1 t [a | e]]; cbn [value final trace] in *; [| exact Hm].
  rewrite printed_app, Hm. exact (Hk a s1).
Qed.

Lemma try_except_silent {A} (body : M St A) handles (handler : exn -> M St A) :
  silent body -> (forall e, silent (handler e)) -> silent (try_except body handles handler).
Proof.
  intros Hbody Hhandler s. unfold try_except. specialize (Hbody s).
  destruct (body s) as [s1 t [a | e]]; cbn [value final trace] in *; [exact Hbody |].
  destruct (handles e); cbn [trace]; [| exact Hbody].
  rewrite printed_app, Hbody. exact (Hhandler e s1).
Qed.

Lemma invoke_silent c : silent (invoke respond c).
Proof. intros s. unfold invoke. destruct (respond c s) as [s1 r]. reflexivity. Qed.

Lemma lift_silent {A} (r : result A) : silent (St := St) (lift r).
Proof. intros s. reflexivity. Qed.

Lemma ret_silent {A} (a : A) : silent (St := St) (ret a).
Proof. intros s. reflexivity. Qed.

Lemma for_append_silent {A} (body : pyval -> M St A) l :
  (forall x, silent (body x)) -> silent (for_append body l).
Proof.
  intros Hbody. induction l as [| x l IH]; cbn [for_append]; [apply ret_silent |].
  apply bind_silent; [apply Hbody |]. intros r.
  apply bind_silent; [exact IH |]. intros rs. apply ret_silent.
Qed.

Lemma list_s3_buckets_silent : silent (list_s3_buckets respond).
Proof.
  unfold list_s3_buckets.
  apply bind_silent; [apply invoke_silent |]. intros resp.
  apply bind_silent; [apply lift_silent |]. intros buckets.
  apply bind_silent; [apply lift_silent |]. intros bs.
  apply for_append_silent. intros b. unfold s3_bucket_record.
  apply bind_silent; [apply lift_silent |]. intros name.
  apply bind_silent.
  - apply try_except_silent; [| intros e; apply ret_silent].
    apply bind_silent; [apply invoke_silent |]. intros r.
    apply bind_silent; [apply lift_silent |]. intros lc. apply ret_silent.
  - intros loc. apply bind_silent; [apply lift_silent |]. intros created. apply ret_silent.
Qed.

Lemma list_ec2_instances_silent : silent (list_ec2_instances respond).
Proof. intros s. rewrite list_ec2_instances_trace. reflexivity. Qed.

Lemma list_rds_instances_silent : silent (list_rds_instances respond).
Proof. intros s. rewrite list_rds_instances_trace. reflexivity. Qed.

Lemma list_lambda_functions_silent : silent (list_lambda_functions respond).
Proof. intros s. rewrite list_lambda_functions_trace. reflexivity. Qed.

(** What a kind reports holds no line of [print_info], and a table only
    when the kind has rows. *)
Lemma report_prints label title columns color rows :
  (forall line, Info line ∉ printed (fst (report console label title columns color rows)))
  /\ (shows_table rows = false ->
      forall title' columns' shown color',
        Table title' columns' shown color'
          ∉ printed (fst (report console label title columns color rows))).
Proof.
  assert (Hwarning : forall e o,
            o ∈ printed (fst (printing console (warning label e))) ->
            o = warning label e).
  { intros e o. unfold printing. destruct (console _); cbn.
    - intros H. inversion H.
    - intros H%list_elem_of_singleton. exact H. }
  unfold report. split.
  - intros line Hin. destruct rows as [[| row rows] | e].
    + inversion Hin.
    + destruct (console (rendered (Table title columns (row :: rows) color))).
      * apply Hwarning in Hin. discriminate.
      * cbn in Hin. apply list_elem_of_singleton in Hin. discriminate.
    + apply Hwarning in Hin. discriminate.
  - intros Hrows title' columns' shown color' Hin.
    destruct rows as [[| row rows] | e]; try discriminate.
    + inversion Hin.
    + apply Hwarning in Hin. discriminate.
Qed.

Lemma bind_then {S A B} (m : M S A) (k : A -> M S B) s s1 t a :
  m s = Run s1 t (Ok a) ->
  bind m k s = Run (final (k a s1)) (t ++ trace (k a s1)) (value (k a s1)).
Proof. intros Hm. unfold bind. rewrite Hm. reflexivity. Qed.

(** A kind whose fetch raised, on a console that renders its warning. *)
Lemma block_warned (fetch : M St (list pyval)) rows_of label title columns color s any e :
  value (fetch s) = Raise e ->
  console (rendered (Warn (label +:+ ": " +:+ exn_str e))) = None ->
  block console fetch rows_of label title columns color (s, any)
  = Run (final (fetch s), any) (trace (fetch s) ++ [Print (Warn (label +:+ ": " +:+ exn_str e))])
        (Ok tt).
Proof.
  intros Hfetch Hwarn.
  pose proof (block_run console fetch rows_of label title columns color s any) as Hblock.
  cbv zeta in Hblock. rewrite Hblock, Hfetch. cbn [rbind report shows_table].
  unfold printing, warning. rewrite Hwarn, orb_false_r. reflexivity.
Qed.

(** One [try] statement in front of a piece that closes well. *)
Lemma closes_well_block (fetch : M St (list pyval)) rows_of label title columns color
    (rest : M (St * bool) unit) :
  silent fetch ->
  closes_well rest ->
  closes_well (bind (block console fetch rows_of label title columns color) (fun _ => rest)).
Proof.
  intros Hsilent Hrest s any. cbv zeta. unfold bind.
  pose proof (block_run console fetch rows_of label title columns color s any) as Hblock.
  cbv zeta in Hblock. rewrite Hblock. clear Hblock. cbn [value final trace].
  set (rows := rbind (value (fetch s)) rows_of).
  destruct (report_prints label title columns color rows) as [Hline Htable].
  destruct (snd (report console label title columns color rows)) as [[] | e].
  - specialize (Hrest (final (fetch s)) (any || shows_table rows)). cbv zeta in Hrest.
    destruct Hrest as [Hset Hclosing].
    cbn [trace]. rewrite !printed_app, (Hsilent s). cbn [app].
    split.
    + intros -> line [Hin | Hin]%elem_of_app; [exact (Hline line Hin) |].
      exact (Hset eq_refl line Hin).
    + intros [line Hin] title' columns' shown color' Htab.
      apply elem_of_app in Hin as [Hin | Hin]; [exact (Hline line Hin) |].
      apply elem_of_app in Htab as [Htab | Htab].
      * destruct any; [exact (Hset eq_refl line Hin) |].
        destruct (shows_table rows) eqn:Hrows; [exact (Hset eq_refl line Hin) |].
        exact (Htable eq_refl _ _ _ _ Htab).
      * apply (Hclosing (ex_intro (fun line => Info line ∈ _) line Hin) _ _ _ _ Htab).
  - cbn [trace]. rewrite printed_app, (Hsilent s). cbn [app].
    split; [intros _ line Hin; exact (Hline line Hin) |].
    intros [line Hin]. destruct (Hline line Hin).
Qed.

Lemma closes_well_closing :
  closes_well (St := St)
    (bind read (fun any_resources : bool =>
                  if negb any_resources
                  then print console (Info "No resource is allocated")
                  else ret tt)).
Proof.
  intros s any. cbv zeta. unfold bind, read, print, ret. cbn [value final trace snd].
  destruct any; cbn [negb trace app].
  - split; [intros _ line Hin; inversion Hin | intros [line Hin]; inversion Hin].
  - split; [discriminate |]. intros _ title columns rows color Hin.
    destruct (console (rendered (Info "No resource is allocated"))); cbn in Hin.
    + inversion Hin.
    + apply list_elem_of_singleton in Hin. discriminate.
Qed.

(** X26. [resources list] prints its header before anything else, or
    raises at once what rich raised on it.  It prints "No resource is
    allocated" only when it has printed no table.  When every kind fails
    and rich renders the lines, the console shows the header, the four
    warnings in the order EC2, S3, RDS, Lambda, and then that line: kinds
    that could not be listed count as not allocated. *)
Theorem list_resources_closing_line color s :
  let ec2 := list_ec2_instances respond s in
  let s3 := list_s3_buckets respond (final ec2) in
  let rds := list_rds_instances respond (final s3) in
  let lam := list_lambda_functions respond (final rds) in
  let listing := list_resources respond console color s in
  (forall err, console (rendered (Header "Active Resources" color)) = Some err ->
     listing = Run s [] (Raise err))
  /\ (console (rendered (Header "Active Resources" color)) = None ->
      exists rest, trace listing = Print (Header "Active Resources" color) :: rest)
  /\ (Info "No resource is allocated" ∈ printed (trace listing) ->
      forall title columns rows c, Table title columns rows c ∉ printed (trace listing))
  /\ (forall e1 e2 e3 e4,
        value ec2 = Raise e1 -> value s3 = Raise e2 ->
        value rds = Raise e3 -> value lam = Raise e4 ->
        console (rendered (Header "Active Resources" color)) = None ->
        console (rendered (Warn ("EC2: " +:+ exn_str e1))) = None ->
        console (rendered (Warn ("S3: " +:+ exn_str e2))) = None ->
        console (rendered (Warn ("RDS: " +:+ exn_str e3))) = None ->
        console (rendered (Warn ("Lambda: " +:+ exn_str e4))) = None ->
        console (rendered (Info "No resource is allocated")) = None ->
        value listing = Ok tt
        /\ printed (trace listing)
           = [Header "Active Resources" color;
              Warn ("EC2: " +:+ exn_str e1); Warn ("S3: " +:+ exn_str e2);
              Warn ("RDS: " +:+ exn_str e3); Warn ("Lambda: " +:+ exn_str e4);
              Info "No resource is allocated"]).
Proof.
  intros ec2 s3 rds lam listing.
  set (tail :=
         bind (block console (list_ec2_instances respond) ec2_table_rows
                 "EC2" "EC2 Instances" ec2_columns color) (fun _ =>
         bind (block console (list_s3_buckets respond) (rmap s3_table_row)
                 "S3" "S3 Buckets" s3_columns color) (fun _ =>
         bind (block console (list_rds_instances respond) (rmap rds_table_row)
                 "RDS" "RDS Instances" rds_columns color) (fun _ =>
         bind (block console (list_lambda_functions respond) (rmap lambda_table_row)
                 "Lambda" "Lambda Functions" lambda_columns color) (fun _ =>
         bind read (fun any_resources : bool =>
         if negb any_resources then print console (Info "No resource is allocated")
         else ret tt)))))).
  assert (Htail : closes_well tail).
  { unfold tail.
    apply closes_well_block; [exact list_ec2_instances_silent |].
    apply closes_well_block; [exact list_s3_buckets_silent |].
    apply closes_well_block; [exact list_rds_instances_silent |].
    apply closes_well_block; [exact list_lambda_functions_silent |].
    exact closes_well_closing. }
  assert (Hlisting :
            listing
            = match console (rendered (Header "Active Resources" color)) with
              | Some err => Run s [] (Raise err)
              | None => Run (fst (final (tail (s, false))))
                            (Print (Header "Active Resources" color) :: trace (tail (s, false)))
                            (value (tail (s, false)))
              end).
  { unfold listing. rewrite list_resources_blocks. fold tail. unfold with_local.
    destruct (console (rendered (Header "Active Resources" color))) as [err |] eqn:Hheader.
    - rewrite (bind_raised _ _ _ _ _ _ (print_refused console _ _ _ Hheader)). reflexivity.
    - rewrite (bind_then _ _ _ _ _ _ (print_shown console _ _ Hheader)).
      rewrite (bind_then (assign false) _ (s, false) (s, false) [] tt eq_refl).
      reflexivity. }
  split; [| split; [| split]].
  - intros err Hheader. rewrite Hlisting, Hheader. reflexivity.
  - intros Hheader. rewrite Hlisting, Hheader. eexists. reflexivity.
  - rewrite Hlisting.
    destruct (console (rendered (Header "Active Resources" color))); cbn [trace].
    + intros Hin. inversion Hin.
    + destruct (Htail s false) as [_ Hclosing].
      change (Print ?o :: ?t) with ([Print o] ++ t)%list. rewrite printed_app.
      change (printed [Print ?o]) with [o].
      intros [Hin | Hin]%elem_of_cons; [discriminate |].
      intros title columns rows c [Htab | Htab]%elem_of_cons; [discriminate |].
      apply (Hclosing (ex_intro (fun line => Info line ∈ _) _ Hin) _ _ _ _ Htab).
  - intros e1 e2 e3 e4 H1 H2 H3 H4 Hheader Hw1 Hw2 Hw3 Hw4 Hinfo.
    rewrite Hlisting, Hheader. unfold tail.
    rewrite (bind_then _ _ _ _ _ _
               (block_warned (list_ec2_instances respond) ec2_table_rows "EC2"
                  "EC2 Instances" ec2_columns color s false e1 H1 Hw1)).
    rewrite (bind_then _ _ _ _ _ _
               (block_warned (list_s3_buckets respond) (rmap s3_table_row) "S3"
                  "S3 Buckets" s3_columns color (final ec2) false e2 H2 Hw2)).
    rewrite (bind_then _ _ _ _ _ _
               (block_warned (list_rds_instances respond) (rmap rds_table_row) "RDS"
                  "RDS Instances" rds_columns color (final s3) false e3 H3 Hw3)).
    rewrite (bind_then _ _ _ _ _ _
               (block_warned (list_lambda_functions respond) (rmap lambda_table_row) "Lambda"
                  "Lambda Functions" lambda_columns color (final rds) false e4 H4 Hw4)).
    assert (Hclose : forall s' : St,
              bind read (fun any_resources : bool =>
                 if negb any_resources then print console (Info "No resource is allocated")
                 else ret tt) (s', false)
              = Run (s', false) [Print (Info "No resource is allocated")] (Ok tt)).
    { intros s'. unfold bind, read, print. cbn [value final trace snd negb].
      rewrite Hinfo. reflexivity. }
    rewrite Hclose. cbn [value final trace fst].
    split; [reflexivity |].
    change (Print ?o :: ?t) with ([Print o] ++ t)%list. rewrite !printed_app.
    rewrite (list_ec2_instances_silent s), (list_s3_buckets_silent (final ec2)),
      (list_rds_instances_silent (final s3)), (list_lambda_functions_silent (final rds)).
    reflexivity.
Qed.

Lemma get1_no_attribute v k : is_dict v = false -> get1 v k = Raise (no_attribute v "get").
Proof. destruct v; try discriminate; reflexivity. Qed.

(** X27. From the provider's answer to the table of databases: when
    every described instance is a dictionary, [list_rds_instances] returns
    after its one request and the rows laid out from its records hold, for
    each instance in the answer's order, its identifier, engine, class,
    [DBInstanceStatus] and [MultiAZ], [None] where the answer has no such
    key.  One entry that is no dictionary loses the whole listing:
    [AttributeError] is raised for it. *)
Theorem list_rds_instances_rows s s1 resp dbs :
  respond describe_db_instances s = (s1, Ok resp) ->
  get resp "DBInstances" (PList []) = Ok (PList dbs) ->
  (Forall (fun db => is_dict db = true) dbs ->
   exists recs,
     list_rds_instances respond s = Run s1 [Request describe_db_instances] (Ok recs)
     /\ rmap rds_table_row recs = Ok (map rds_row dbs))
  /\ (forall before bad after,
        dbs = (before ++ bad :: after)%list ->
        Forall (fun db => is_dict db = true) before ->
        is_dict bad = false ->
        list_rds_instances respond s
        = Run s1 [Request describe_db_instances] (Raise (no_attribute bad "get"))).
Proof.
  intros Hanswer Hdbs.
  set (record := fun db =>
         PDict [("DBInstanceIdentifier", field db "DBInstanceIdentifier");
                ("DBInstanceClass", field db "DBInstanceClass");
                ("Engine", field db "Engine");
                ("Status", field db "DBInstanceStatus");
                ("MultiAZ", field db "MultiAZ")]).
  assert (Hrecord : forall db, is_dict db = true -> rds_instance_record db = Ok (record db)).
  { intros db Hdb. unfold rds_instance_record. rewrite !(get1_field db _ Hdb). reflexivity. }
  assert (Hrun : list_rds_instances respond s
                 = Run s1 [Request describe_db_instances] (rmap rds_instance_record dbs)).
  { unfold list_rds_instances, bind, invoke, lift. fold describe_db_instances.
    rewrite Hanswer. cbn [value final trace]. rewrite Hdbs. cbn [rbind iter].
    destruct (rmap rds_instance_record dbs); reflexivity. }
  rewrite Hrun. split.
  - intros Hdicts. exists (map record dbs). split.
    + f_equal. apply rmap_map. eapply List.Forall_impl; [| exact Hdicts]. exact Hrecord.
    + clear. induction dbs as [| db dbs IH]; [reflexivity |].
      cbn [map rmap]. rewrite IH. reflexivity.
  - intros before bad after -> Hbefore Hbad. f_equal.
    apply (rmap_raises rds_instance_record record).
    + eapply List.Forall_impl; [| exact Hbefore]. exact Hrecord.
    + unfold rds_instance_record. rewrite (get1_no_attribute bad _ Hbad). reflexivity.
Qed.

End ListingMore.

Lemma list_rds_instances_rows_witness :
  (exists recs,
     list_rds_instances Scripted.respond [Ok DatabaseExamples.described]
     = Run [] [Request describe_db_instances] (Ok recs)
     /\ rmap rds_table_row recs
        = Ok [[PStr "orders"; PStr "postgres"; PStr "db.t3.micro"; PStr "available"; PNone]])
  /\ list_rds_instances Scripted.respond [Ok DatabaseExamples.malformed]
     = Run [] [Request describe_db_instances]
           (Raise (Exn AttributeError "'str' object has no attribute 'get'")).
Proof.
  split.
  - refine (proj1 (list_rds_instances_rows Scripted.respond
                     [Ok DatabaseExamples.described] [] DatabaseExamples.described
                     [DatabaseExamples.orders] eq_refl eq_refl) _).
    repeat constructor.
  - refine (proj2 (list_rds_instances_rows Scripted.respond
                     [Ok DatabaseExamples.malformed] [] DatabaseExamples.malformed
                     [DatabaseExamples.orders; PStr "orders-replica"] eq_refl eq_refl)
                  [DatabaseExamples.orders] (PStr "orders-replica") [] eq_refl _ eq_refl).
    repeat constructor.
Defined.

Lemma list_resources_closing_line_witness :
  let out := Exn BotoCoreError "the script has run out" in
  let listing := list_resources Scripted.respond Rich.console "cyan"
                   [Raise InventoryExamples.not_authorized] in
  (value listing = Ok tt
   /\ printed (trace listing)
      = [Header "Active Resources" "cyan";
         Warn ("EC2: " +:+ exn_str InventoryExamples.not_authorized);
         Warn ("S3: " +:+ exn_str out); Warn ("RDS: " +:+ exn_str out);
         Warn ("Lambda: " +:+ exn_str out); Info "No resource is allocated"])
  /\ forall title columns rows c, Table title columns rows c ∉ printed (trace listing).
Proof.
  intros out listing.
  destruct (list_resources_closing_line Scripted.respond Rich.console "cyan"
              [Raise InventoryExamples.not_authorized]) as (_ & _ & Hclosing & Hfailing).
  split.
  - apply (Hfailing InventoryExamples.not_authorized out out out);
      vm_compute; reflexivity.
  - apply Hclosing. vm_compute. repeat constructor.
Defined.
